(** * The model exporter of rails49: export, packaging, validation, report

    A shallow embedding of [classifier/learn/exporter.py] (class [Exporter])
    and the properties of its export-and-validate pipeline.

    Conventions of the embedding:
    - Python [str] is [string] (UTF-8 bytes; byte-wise lexicographic order is
      code-point order, which is the order [sorted] uses on [str]);
    - Python [dict] is an association list in insertion order ([dict_set]
      replaces in place or appends, as CPython does);
    - a Python [float] or numpy [float64] is the rational it denotes, and a
      floating-point operation rounds its exact result to binary64 ([fl]);
    - [bytes] are strings too; [bytes.decode] checks that they are UTF-8;
    - exceptions are values of [exn]; code that can raise returns [res];
    - the export directory is a finite map from file name to size in bytes;
      [print] appends a line to the console log of the state. *)

From Stdlib Require Import QArith Qabs Lqa Ascii.
From stdpp Require Import gmap strings list sorting pretty.

Local Close Scope Q_scope.

(** ** Exceptions and results *)

Inductive exn : Type :=
  | CalledProcessError (msg : string) (stderr : string)
  | FileNotFoundError (msg : string)
  | KeyError (key : string)
  | ZeroDivisionError (msg : string)
  | RuntimeError (msg : string)
  | UnicodeDecodeError (msg : string).

(** [str(e)], as interpolated by [f"{e}"]. *)
Definition str_exn (e : exn) : string :=
  match e with
  | CalledProcessError msg _ => msg
  | FileNotFoundError msg => msg
  | KeyError key => "'" +:+ key +:+ "'"
  | ZeroDivisionError msg => msg
  | RuntimeError msg => msg
  | UnicodeDecodeError msg => msg
  end.

Inductive res (A : Type) : Type :=
  | Ok (a : A)
  | Raise (e : exn).
Arguments Ok {A} a.
Arguments Raise {A} e.

Definition res_bind {A B} (r : res A) (k : A → res B) : res B :=
  match r with
  | Ok a => k a
  | Raise e => Raise e
  end.

Fixpoint res_mapM {A B} (f : A → res B) (l : list A) : res (list B) :=
  match l with
  | [] => Ok []
  | x :: l' =>
      res_bind (f x) (λ y, res_bind (res_mapM f l') (λ ys, Ok (y :: ys)))
  end.

(** ** Python dictionaries, in insertion order *)

Section pydict.
Context {V : Type}.

Fixpoint dict_get (d : list (string * V)) (k : string) : option V :=
  match d with
  | [] => None
  | (k', v) :: d' => if decide (k' = k) then Some v else dict_get d' k
  end.

(** [d[k] = v] *)
Fixpoint dict_set (d : list (string * V)) (k : string) (v : V)
  : list (string * V) :=
  match d with
  | [] => [(k, v)]
  | (k', v') :: d' =>
      if decide (k' = k) then (k, v) :: d' else (k', v') :: dict_set d' k v
  end.

(** [d[k]], raising [KeyError] *)
Definition dict_getitem (d : list (string * V)) (k : string) : res V :=
  match dict_get d k with
  | Some v => Ok v
  | None => Raise (KeyError k)
  end.

(** [d.get(k, dflt)] *)
Definition dict_get_default (d : list (string * V)) (k : string) (dflt : V) : V :=
  default dflt (dict_get d k).

(** [d.keys()], in insertion order *)
Definition dict_keys (d : list (string * V)) : list string := d.*1.

(** truth value of a dict: non-empty *)
Definition dict_truthy (d : list (string * V)) : bool :=
  match d with [] => false | _ => true end.
End pydict.

(** ** Number formatting *)

Definition newline : string := String (Ascii.ascii_of_nat 10) "".

Definition digit_char (n : N) : string := String (pretty_N_char n) "".

(** Rounding of [a/d] to an integer, ties to even. *)
Definition round_half_even (a : Z) (d : Z) : Z :=
  let quo := (a `div` d)%Z in
  let r := (a `mod` d)%Z in
  if (2 * r <? d)%Z then quo
  else if (d <? 2 * r)%Z then (quo + 1)%Z
  else if Z.even quo then quo else (quo + 1)%Z.

(** The last [p] decimal digits of [n], zero padded. *)
Fixpoint frac_digits (p : nat) (n : N) : string :=
  match p with
  | O => ""
  | S p' => frac_digits p' (n `div` 10)%N +:+ digit_char (n `mod` 10)%N
  end.

(** [format(q, ".pf")]: the value rounded to [p] decimals, ties to even,
    sign kept for negative values. *)
Definition fmt_fixed (p : nat) (q : Q) : string :=
  let scale := (10 ^ N.of_nat p)%N in
  let scaled :=
    Z.to_N (round_half_even (Z.abs (Qnum q) * Z.of_N scale) (Zpos (Qden q))) in
  (if (Qnum q <? 0)%Z then "-" else "")
  +:+ pretty (scaled `div` scale)%N
  +:+ (match p with O => "" | _ => "." end)
  +:+ frac_digits p scaled.

(** ** Floating-point arithmetic

    The result of an arithmetic operation on binary64 numbers is the exact
    result rounded to 53 significant bits, ties to even; below the smallest
    normal number the spacing is [2^-1074]. Results beyond the largest
    finite number are not cut off: the rates, sizes and percentages of the
    exporter are far from it. *)

(** [floor (log2 |q|)], for [q] other than 0. *)
Definition ilog2 (q : Q) : Z :=
  let a := Z.abs (Qnum q) in
  let b := Zpos (Qden q) in
  let d := (Z.log2 a - Z.log2 b)%Z in
  if (if (0 <=? d)%Z then (b * 2 ^ d <=? a)%Z else (b <=? a * 2 ^ (- d))%Z)
  then d else (d - 1)%Z.

(** The binary64 number nearest to [q]: a multiple of [2^e], where [e] is
    52 below the exponent of [q] and not below -1074. *)
Definition round_binary64 (q : Q) : Q :=
  if (Qnum q =? 0)%Z then 0%Q
  else
    let e := Z.max (ilog2 q - 52) (-1074) in
    let a := Z.abs (Qnum q) in
    let b := Zpos (Qden q) in
    let v :=
      if (0 <=? e)%Z then inject_Z (round_half_even a (b * 2 ^ e) * 2 ^ e)
      else Qmake (round_half_even (a * 2 ^ (- e)) b) (Z.to_pos (2 ^ (- e))) in
    if (Qnum q <? 0)%Z then (- v)%Q else v.

(** The value of a float operation whose exact result is [q], as a fraction
    in lowest terms. *)
Definition fl (q : Q) : Q := Qred (round_binary64 (Qred q)).

(** [format(q, ".2f")] and [format(q, ".2%")] (the float product of the
    value and 100, two decimals, a percent sign). *)
Definition fmt_fixed2 (q : Q) : string := fmt_fixed 2 q.
Definition fmt_percent2 (q : Q) : string := fmt_fixed2 (fl (q * 100)%Q) +:+ "%".

(** ** Decoding bytes

    [bytes.decode()] is strict UTF-8: the text is the bytes themselves when
    they are well formed, and [UnicodeDecodeError] names the first place
    where they are not. *)

Definition is_continuation (c : N) : bool := (128 <=? c)%N && (c <=? 191)%N.

(** The first ill-formed place of a byte sequence, from position [pos]: where
    it starts, where it ends, and why. *)
Fixpoint utf8_error (pos : nat) (s : list N) : option (nat * nat * string) :=
  match s with
  | [] => None
  | c :: s1 =>
      if (c <? 128)%N then utf8_error (S pos) s1
      else if (c <? 194)%N then Some (pos, S pos, "invalid start byte")
      else if (c <? 224)%N then
        match s1 with
        | [] => Some (pos, pos + 1, "unexpected end of data")%nat
        | c2 :: s2 =>
            if is_continuation c2 then utf8_error (pos + 2) s2
            else Some (pos, pos + 1, "invalid continuation byte")%nat
        end
      else if (c <? 240)%N then
        match s1 with
        | [] => Some (pos, pos + 1, "unexpected end of data")%nat
        | c2 :: s2 =>
            if negb (is_continuation c2)
               || (if (c2 <? 160)%N then (c =? 224)%N else (c =? 237)%N)
            then Some (pos, pos + 1, "invalid continuation byte")%nat
            else
              match s2 with
              | [] => Some (pos, pos + 2, "unexpected end of data")%nat
              | c3 :: s3 =>
                  if is_continuation c3 then utf8_error (pos + 3) s3
                  else Some (pos, pos + 2, "invalid continuation byte")%nat
              end
        end
      else if (c <? 245)%N then
        match s1 with
        | [] => Some (pos, pos + 1, "unexpected end of data")%nat
        | c2 :: s2 =>
            if negb (is_continuation c2)
               || (if (c2 <? 144)%N then (c =? 240)%N else (c =? 244)%N)
            then Some (pos, pos + 1, "invalid continuation byte")%nat
            else
              match s2 with
              | [] => Some (pos, pos + 2, "unexpected end of data")%nat
              | c3 :: s3 =>
                  if negb (is_continuation c3)
                  then Some (pos, pos + 2, "invalid continuation byte")%nat
                  else
                    match s3 with
                    | [] => Some (pos, pos + 3, "unexpected end of data")%nat
                    | c4 :: s4 =>
                        if is_continuation c4 then utf8_error (pos + 4) s4
                        else Some (pos, pos + 3, "invalid continuation byte")%nat
                    end
              end
        end
      else Some (pos, S pos, "invalid start byte")
  end.

Definition bytes_of (s : string) : list N := N_of_ascii <$> String.list_ascii_of_string s.

Definition hex_digit (n : N) : string :=
  String.substring (N.to_nat n) 1 "0123456789abcdef".

(** [str(e)] of a [UnicodeDecodeError] of the [utf-8] codec. *)
Definition decode_error_message (b : list N) (start stop : nat) (reason : string)
  : string :=
  if bool_decide (stop = S start) then
    let byte := nth start b 0%N in
    "'utf-8' codec can't decode byte 0x"
    +:+ hex_digit (byte `div` 16)%N +:+ hex_digit (byte `mod` 16)%N
    +:+ " in position " +:+ pretty start +:+ ": " +:+ reason
  else
    "'utf-8' codec can't decode bytes in position "
    +:+ pretty start +:+ "-" +:+ pretty (stop - 1)%nat +:+ ": " +:+ reason.

(** [b.decode()] *)
Definition utf8_decode (b : string) : res string :=
  match utf8_error 0 (bytes_of b) with
  | None => Ok b
  | Some (start, stop, reason) =>
      Raise (UnicodeDecodeError (decode_error_message (bytes_of b) start stop reason))
  end.

(** ** The report *)

Record metrics : Type := Metrics {
  train_samples : nat;
  valid_samples : nat;
  results : list (string * list (string * Q));
  error_rates : list (string * Q);
  sizes_mb : list (string * Q);
}.

(** [sorted(keys)] on strings. *)
Definition sorted (ks : list string) : list string := merge_sort String.le ks.

(** [", ".join(l)] and ["\n".join(l)] *)
Definition join (sep : string) (l : list string) : string := String.concat sep l.

(** [f"| {model} | {err} | {size} |"] *)
Definition table_row (model err size : string) : string :=
  "| " +:+ model +:+ " | " +:+ err +:+ " | " +:+ size +:+ " |".

Section notes.
(** [self._model_name] and [self.labels] *)
Variable model_name : string.
Variable labels : list string.

(** One row of the table, l.376-378. *)
Definition notes_row (m : metrics) (model : string) : res string :=
  res_bind (dict_getitem (error_rates m) model) (λ err,
    let size := dict_get_default (sizes_mb m) model 0%Q in
    Ok (table_row model (fmt_percent2 err) (fmt_fixed2 size))).

Definition notes_head : list string :=
  [ "# " +:+ model_name +:+ " Exported Model" +:+ newline;
    "| Model | Error Rate | Size (MB) |";
    "| --- | --- | --- |" ].

Definition notes_foot (m : metrics) : list string :=
  [ newline +:+ "**Dataset Info:**";
    "- Training Samples: " +:+ pretty (train_samples m);
    "- Validation Samples: " +:+ pretty (valid_samples m);
    "- Labels: " +:+ join ", " labels ].

Definition notes_lines (m : metrics) : res (list string) :=
  res_bind (res_mapM (notes_row m) (sorted (dict_keys (error_rates m)))) (λ rows,
    Ok (notes_head ++ rows ++ notes_foot m)%list).

Definition get_notes (m : metrics) : res string :=
  res_bind (notes_lines m) (λ notes, Ok (join newline notes)).
End notes.

(** ** Paths inside the export directory

    Every file the exporter touches lives directly in the export directory,
    so a path is its final component; [pathlib]'s [stem], [with_suffix] and
    [with_name] act on that name. *)

(** [name.rfind(".")] *)
Fixpoint rfind_dot (s : string) : option nat :=
  match s with
  | EmptyString => None
  | String c s' =>
      match rfind_dot s' with
      | Some i => Some (S i)
      | None => if Ascii.eqb c "."%char then Some O else None
      end
  end.

(** [PurePath.stem]: the name without its last suffix; a leading or a
    trailing dot is not a suffix separator. *)
Definition path_stem (name : string) : string :=
  match rfind_dot name with
  | Some i =>
      if (0 <? i)%nat && (i <? String.length name - 1)%nat
      then String.substring 0 i name else name
  | None => name
  end.

Definition with_suffix (name suffix : string) : string := path_stem name +:+ suffix.

(** ** Tensors, batches and inference sessions

    Array values are kept symbolic: a tensor is the term of numpy operations
    applied to a loader's output, so that the pre-processing of
    [validate_onnx] is visible to the inference oracle. *)

Inductive dtype : Type := UInt8 | Float32 | Float16 | Float64.

Global Instance dtype_eq_dec : EqDecision dtype.
Proof. solve_decision. Defined.

Inductive tensor : Type :=
  | Loaded (d : dtype) (payload : nat)
  | AsType (d : dtype) (t : tensor)
  | Div255 (t : tensor)
  | Normalize (mean std : list Q) (t : tensor).

Fixpoint dtype_of (t : tensor) : dtype :=
  match t with
  | Loaded d _ => d
  | AsType d _ => d
  | Div255 t' => dtype_of t'
  | Normalize _ _ t' => dtype_of t'
  end.

Record batch : Type := Batch {
  imgs : tensor;
  labels : list nat;
}.

(** An opened [ort.InferenceSession]: its first input's name and type, and
    what [session.run] followed by [np.argmax(..., axis=1)] gives on an
    input tensor (the predicted class of every sample, or an exception). *)
Record session : Type := Session {
  input_name : string;
  input_type : string;
  run_argmax : tensor → res (list nat);
}.

(** [(pred_idxs == labels).sum()] with numpy's broadcasting of
    one-dimensional operands: equal lengths compare element-wise, a length-one
    operand is compared with every element of the other, anything else
    raises. *)
Definition count_eq (x : nat) (l : list nat) : Z :=
  Z.of_nat (length (filter (λ y, y = x) l)).

Fixpoint count_matches (preds labs : list nat) : Z :=
  match preds, labs with
  | p :: preds', l :: labs' =>
      ((if decide (p = l) then 1 else 0) + count_matches preds' labs')%Z
  | _, _ => 0%Z
  end.

Definition np_eq_sum (preds labs : list nat) : res Z :=
  if decide (length preds = length labs) then Ok (count_matches preds labs)
  else match preds, labs with
       | [p], _ => Ok (count_eq p labs)
       | _, [l] => Ok (count_eq l preds)
       | _, _ => Raise (RuntimeError "operands could not be broadcast together")
       end.

(** ** The environment of one export run

    Calls into torch, onnx, onnxruntime, fastai, [subprocess] and the
    file-writing standard library are external; a [world] fixes, for each
    call site, whether the call raises and which files it leaves in the
    export directory. *)

Inductive site : Type :=
  | ModelEval                          (* self._learn_obj.model.eval(), l.78 *)
  | TorchRandn                         (* torch.randn, l.81 *)
  | Rmtree                             (* shutil.rmtree, l.90 *)
  | Mkdir                              (* export_dir.mkdir, l.91 *)
  | TorchOnnxExport                    (* torch.onnx.export, l.102 *)
  | OnnxLoad                           (* onnx.load, l.117 *)
  | ConvertFloat16                     (* convert_float_to_float16, l.118 *)
  | OnnxSave                           (* onnx.save, l.119 *)
  | QuantPreProcess                    (* quant_pre_process, l.129 *)
  | QuantizeDynamic                    (* quantize_dynamic, l.131 *)
  | SubprocessRun (onnx_name : string) (* subprocess.run(..., check=True), l.229 *)
  | LearnValidate (ds_idx : nat)       (* self._learn_obj.validate, l.280/282 *)
  | InferenceSession (ort_name : string) (* ort.InferenceSession, l.301 *)
  | JsonLoad                           (* open + json.load, l.184 *)
  | JsonDump                           (* open + json.dump, l.194 *)
  | WriteText.                         (* readme_path.write_text, l.201 *)

Global Instance site_eq_dec : EqDecision site.
Proof. solve_decision. Defined.

Record world : Type := World {
  w_model_name : string;
  w_labels : list string;
  w_export_dir : string;
  w_train_len : nat;                       (* len(self._dls.train_ds) *)
  w_valid_len : nat;                       (* len(self._dls.valid_ds) *)
  w_model_pth_size : N;                    (* model.pth, checked by __init__ *)
  w_config_exists : bool;                  (* config.json next to model.pth *)
  w_empty_dir_exists : bool;               (* the export directory, when it has no file *)
  rmtree_leaves : string → bool;           (* files a failing rmtree has not reached *)
  w_normalization : option (list Q * list Q); (* config["normalization"] *)
  fails : site → option exn;
  writes : site → list (string * N);
  learn_validate : nat → Q * Q;            (* (loss, error_rate) of a split *)
  open_session : string → session;
  loader : nat → list batch;               (* self._dls[ds_idx].new(...) *)
}.

(** ** State and the exporter's monad *)

Record state : Type := State {
  fs : gmap string N;        (* export directory: file name -> size *)
  out : list string;         (* console, oldest line first *)
}.

Definition M (A : Type) : Type := state → res A * state.

Definition ret {A} (a : A) : M A := λ st, (Ok a, st).

Definition bind {A B} (m : M A) (k : A → M B) : M B :=
  λ st, match m st with
        | (Ok a, st') => k a st'
        | (Raise e, st') => (Raise e, st')
        end.

Global Instance M_ret : MRet M := @ret.
Global Instance M_bind : MBind M := λ A B k m, bind m k.

Definition lift {A} (r : res A) : M A := λ st, (r, st).

Definition print (line : string) : M unit :=
  λ st, (Ok tt, State (fs st) (out st ++ [line])).

Definition path_exists (name : string) : M bool :=
  λ st, (Ok (bool_decide (is_Some (fs st !! name))), st).

(** [path.unlink()] *)
Definition unlink (name : string) : M unit :=
  λ st, match fs st !! name with
        | Some _ => (Ok tt, State (delete name (fs st)) (out st))
        | None => (Raise (FileNotFoundError name), st)
        end.

(** [path.stat().st_size] *)
Definition stat_size (name : string) : M N :=
  λ st, match fs st !! name with
        | Some n => (Ok n, st)
        | None => (Raise (FileNotFoundError name), st)
        end.

(** [shutil.move(src, dst)] between two files of the directory *)
Definition move (src dst : string) : M unit :=
  λ st, match fs st !! src with
        | Some n => (Ok tt, State (<[dst := n]> (delete src (fs st))) (out st))
        | None => (Raise (FileNotFoundError src), st)
        end.

Definition write_files (l : list (string * N)) (m : gmap string N) : gmap string N :=
  foldl (λ acc kv, <[kv.1 := kv.2]> acc) m l.

Fixpoint forM_ {A} (l : list A) (f : A → M unit) : M unit :=
  match l with
  | [] => ret tt
  | x :: l' => f x;; forM_ l' f
  end.

Definition when (b : bool) (m : M unit) : M unit := if b then m else ret tt.

(** [1024 * 1024] *)
Definition MiB : Q := 1048576%Q.

(** [st_size / (1024 * 1024)] *)
Definition size_mb (n : N) : Q := fl (inject_Z (Z.of_N n) / MiB)%Q.

(** [KEEP_ONNX = False], l.31 *)
Definition KEEP_ONNX : bool := false.

(** [sub in s] *)
Fixpoint contains (sub s : string) : bool :=
  String.prefix sub s
  || match s with
     | EmptyString => false
     | String _ s' => contains sub s'
     end.

(** [str.capitalize] on ASCII text: first letter upper case, rest lower. *)
Definition upper (c : ascii) : ascii :=
  let n := nat_of_ascii c in
  if (97 <=? n)%nat && (n <=? 122)%nat then ascii_of_nat (n - 32) else c.
Definition lower (c : ascii) : ascii :=
  let n := nat_of_ascii c in
  if (65 <=? n)%nat && (n <=? 90)%nat then ascii_of_nat (n + 32) else c.
Fixpoint map_string (f : ascii → ascii) (s : string) : string :=
  match s with
  | EmptyString => EmptyString
  | String c s' => String (f c) (map_string f s')
  end.
Definition capitalize (s : string) : string :=
  match s with
  | EmptyString => EmptyString
  | String c s' => String (upper c) (map_string lower s')
  end.

Fixpoint foldM {A B} (f : B → A → M B) (l : list A) (b : B) : M B :=
  match l with
  | [] => mret b
  | x :: l' => b' ← f b x; foldM f l' b'
  end.

(** [try: m except <classes h accepts>: h e] *)
Definition catch {A} (m : M A) (h : exn → option (M A)) : M A :=
  λ st, match m st with
        | (Ok a, st') => (Ok a, st')
        | (Raise e, st') =>
            match h e with
            | Some handler => handler st'
            | None => (Raise e, st')
            end
        end.

(** ** The exporter *)

Definition onnx_path_fp32 : string := "model_fp32.onnx".
Definition onnx_path_fp16 : string := "model_fp16.onnx".
Definition onnx_path_int8 : string := "model_int8.onnx".
Definition onnx_path_pre : string := "model_pre.onnx".

(** The files [_convert_to_ort] expects from the converter for [stem.onnx]
    (l.237-240), the names it gives them (l.243-244), and the unoptimized
    operator list it removes (l.262-264). *)
Definition generated_ort (onnx_path : string) : string :=
  path_stem onnx_path +:+ ".with_runtime_opt.ort".
Definition generated_config (onnx_path : string) : string :=
  path_stem onnx_path +:+ ".required_operators.with_runtime_opt.config".
Definition target_ort (onnx_path : string) : string :=
  with_suffix onnx_path ".ort".
Definition target_config (onnx_path : string) : string :=
  path_stem onnx_path +:+ "_operators.config".
Definition unopt_config (onnx_path : string) : string :=
  path_stem onnx_path +:+ ".required_operators.config".

(** The packages validated by [export], l.164-172. *)
Definition ort_variants : list (string * string) :=
  [ (with_suffix onnx_path_fp32 ".ort", "ORT (FP32)");
    (with_suffix onnx_path_fp16 ".ort", "ORT (FP16)");
    (with_suffix onnx_path_int8 ".ort", "ORT (Int8)") ].

Section exporter.
Variable w : world.

Definition full_path (name : string) : string :=
  w_export_dir w +:+ "/" +:+ name.

(** An external call that only computes. *)
Definition call (s : site) : M unit :=
  λ st, match fails w s with
        | Some e => (Raise e, st)
        | None => (Ok tt, st)
        end.

(** An external call that writes into the export directory; what it leaves
    there does not depend on how it ends. *)
Definition call_writing (s : site) : M unit :=
  λ st, let st' := State (write_files (writes w s) (fs st)) (out st) in
        match fails w s with
        | Some e => (Raise e, st')
        | None => (Ok tt, st')
        end.

(** [path.write_text(content)]: the file is opened for writing, which
    creates or empties it, and then written. When the call raises, what it
    leaves is the world's: nothing new when the file could not be opened, the
    file with what was written of it otherwise. *)
Definition write_text (name content : string) : M unit :=
  λ st, match fails w WriteText with
        | Some e => (Raise e, State (write_files (writes w WriteText) (fs st)) (out st))
        | None =>
            (Ok tt, State (<[name := N.of_nat (String.length content)]> (fs st)) (out st))
        end.

(** [export_dir.exists()], l.89: a directory that has files exists. *)
Definition dir_exists : M bool :=
  λ st, (Ok (bool_decide (fs st ≠ ∅) || w_empty_dir_exists w), st).

(** [shutil.rmtree(export_dir)]: when it raises, the files it has not
    reached are still there. *)
Definition rmtree : M unit :=
  λ st, match fails w Rmtree with
        | Some e =>
            (Raise e, State (filter (λ kv, rmtree_leaves w kv.1 = true) (fs st)) (out st))
        | None => (Ok tt, State ∅ (out st))
        end.

(** l.89-91 *)
Definition recreate_dir : M unit :=
  found ← dir_exists;
  when found rmtree;;
  call Mkdir.

(** [Exporter._convert_to_ort], l.205-273. The result of the guarded call
    says whether the function goes on ([True]) or has returned from the
    handler. *)
Definition _convert_to_ort (onnx_path : string) : M unit :=
  converted ← catch
    (call_writing (SubprocessRun onnx_path);; mret true)
    (λ e, match e with
          | CalledProcessError _ stderr =>
              Some (print ("Failed to convert " +:+ full_path onnx_path
                           +:+ " to ORT: " +:+ str_exn e);;
                    when (negb (String.eqb stderr ""))
                      (text ← lift (utf8_decode stderr);
                       print ("Error output: " +:+ text));;
                    mret false)
          | _ => None
          end);
  if converted : bool then
    has_ort ← path_exists (generated_ort onnx_path);
    (if has_ort : bool then move (generated_ort onnx_path) (target_ort onnx_path)
     else print ("Warning: Expected optimized file "
                 +:+ full_path (generated_ort onnx_path) +:+ " not found."));;
    has_config ← path_exists (generated_config onnx_path);
    (if has_config : bool
     then move (generated_config onnx_path) (target_config onnx_path)
     else print ("Warning: Expected config file "
                 +:+ full_path (generated_config onnx_path) +:+ " not found."));;
    has_unopt ← path_exists (unopt_config onnx_path);
    when has_unopt (unlink (unopt_config onnx_path));;
    has_onnx ← path_exists onnx_path;
    when (negb KEEP_ONNX && has_onnx)
      (print ("  Removing " +:+ onnx_path);; unlink onnx_path);;
    print ("  Finished ORT conversion for " +:+ path_stem onnx_path)
  else mret tt.

(** [Exporter.validate], l.275-293: the native evaluation path. *)
Definition validate (name : string) : M (list (string * Q)) :=
  print ("Validating " +:+ name +:+ "...");;
  call (LearnValidate 1);;
  call (LearnValidate 0);;
  let '(valid_loss, valid_err) := learn_validate w 1 in
  let '(train_loss, train_err) := learn_validate w 0 in
  print ("[" +:+ name +:+ "] Train Error: " +:+ fmt_fixed 4 train_err
         +:+ ", Valid Error: " +:+ fmt_fixed 4 valid_err);;
  mret [ ("train_err", train_err); ("valid_err", valid_err);
         ("train_loss", train_loss); ("valid_loss", valid_loss) ].

(** l.332-342: scale [uint8] images, force [float32], normalise. Array
    arithmetic on the batches of the loader; it is outside the [try]. *)
Definition preprocess (x : tensor) : tensor :=
  let x :=
    if decide (dtype_of x = UInt8) then Div255 (AsType Float32 x)
    else if decide (dtype_of x = Float32) then x
    else AsType Float32 x in
  match w_normalization w with
  | Some (mean, std) => Normalize mean std x
  | None => x
  end.

(** The body of the [try], l.346-355, up to the number of correct
    predictions of the batch. *)
Definition infer (sess : session) (is_fp16 : bool) (x : tensor) (labs : list nat)
  : res Z :=
  let x := if is_fp16 then AsType Float16 x else x in
  res_bind (run_argmax sess x) (λ pred_idxs, np_eq_sum pred_idxs labs).

(** The batch loop, l.330-358; an exception ends the loop ([break]). *)
Fixpoint batch_loop (sess : session) (is_fp16 : bool) (dl : list batch)
    (correct total : Z) : M (Z * Z) :=
  match dl with
  | [] => mret (correct, total)
  | b :: dl' =>
      match infer sess is_fp16 (preprocess (imgs b)) (labels b) with
      | Ok n =>
          batch_loop sess is_fp16 dl'
            (correct + n)%Z (total + Z.of_nat (length (labels b)))%Z
      | Raise e =>
          print ("Error during inference: " +:+ str_exn e);;
          mret (correct, total)
      end
  end.

(** [a / b] on integers: true division, raising on a zero divisor. *)
Definition truediv (a b : Z) : res Q :=
  if decide (b = 0%Z) then Raise (ZeroDivisionError "division by zero")
  else Ok (fl (inject_Z a / inject_Z b))%Q.

(** l.360: [1.0 - (correct / total if total > 0 else 0)] *)
Definition split_error (correct total : Z) : res Q :=
  res_bind (if (0 <? total)%Z then truediv correct total else Ok 0%Q)
    (λ accuracy, Ok (fl (1 - accuracy))%Q).

Definition ds_name (ds_idx : nat) : string :=
  if decide (ds_idx = 0%nat) then "train" else "valid".

(** One iteration of [for ds_idx in [0, 1]], l.320-362. *)
Definition validate_split (sess : session) (is_fp16 : bool) (name : string)
    (results : list (string * Q)) (ds_idx : nat) : M (list (string * Q)) :=
  counts ← batch_loop sess is_fp16 (loader w ds_idx) 0 0;
  err ← lift (split_error counts.1 counts.2);
  let results := dict_set results (ds_name ds_idx +:+ "_err") err in
  print ("[" +:+ name +:+ "] " +:+ capitalize (ds_name ds_idx)
         +:+ " Error Rate: " +:+ fmt_fixed 4 err);;
  mret results.

(** [Exporter.validate_onnx], l.295-364: the packaged evaluation path. *)
Definition validate_onnx (model_path name : string)
  : M (option (list (string * Q))) :=
  found ← path_exists model_path;
  if negb found then
    print ("[" +:+ name +:+ "] Skipped (file not found)");;
    mret None
  else
    print ("Validating " +:+ name +:+ "...");;
    call (InferenceSession model_path);;
    let sess := open_session w model_path in
    let is_fp16 := contains "float16" (input_type sess) in
    results ← foldM (validate_split sess is_fp16 name) [0%nat; 1%nat] [];
    mret (Some results).

(** l.100-113 *)
Definition export_fp32 : M unit :=
  print ("Exporting FP32 ONNX to " +:+ onnx_path_fp32 +:+ "...");;
  call_writing TorchOnnxExport.

(** l.115-119 *)
Definition convert_fp16 : M unit :=
  print ("Converting to FP16 ONNX at " +:+ onnx_path_fp16 +:+ "...");;
  call OnnxLoad;;
  call ConvertFloat16;;
  call_writing OnnxSave.

(** l.121-139 *)
Definition quantize_int8 : M unit :=
  print ("Quantizing to Int8 ONNX at " +:+ onnx_path_int8 +:+ "...");;
  call_writing QuantPreProcess;;
  call_writing QuantizeDynamic;;
  has_pre ← path_exists onnx_path_pre;
  when has_pre (unlink onnx_path_pre).

(** l.141-145 *)
Definition convert_all_to_ort : M unit :=
  print "Converting ONNX models to ORT format...";;
  forM_ [onnx_path_fp32; onnx_path_fp16; onnx_path_int8] (λ onnx_file,
    present ← path_exists onnx_file;
    when present (_convert_to_ort onnx_file)).

(** The truth value of [validate_onnx]'s result in [if res:]. *)
Definition truthy (r : option (list (string * Q))) : bool :=
  match r with
  | Some d => dict_truthy d
  | None => false
  end.

(** The body of the loop over the packages, l.173-177. *)
Definition validate_variant (m : metrics) (pv : string * string) : M metrics :=
  let '(ort_path, variant) := pv in
  r ← validate_onnx ort_path variant;
  if truthy r then
    let res := default [] r in
    let results' := dict_set (results m) variant res in
    valid_err ← lift (dict_getitem res "valid_err");
    let error_rates' := dict_set (error_rates m) variant valid_err in
    size ← stat_size ort_path;
    let sizes' := dict_set (sizes_mb m) variant (size_mb size) in
    mret (Metrics (train_samples m) (valid_samples m) results' error_rates' sizes')
  else mret m.

(** l.147-177. [model.pth] is outside the export directory and was found by
    [__init__]; its size is the world's. *)
Definition validate_all : M metrics :=
  print (newline +:+ "=== Validation Results ===");;
  let m0 := Metrics (w_train_len w) (w_valid_len w) [] [] [] in
  pytorch_res ← validate "PyTorch (FP32)";
  let results' := dict_set (results m0) "PyTorch (FP32)" pytorch_res in
  valid_err ← lift (dict_getitem pytorch_res "valid_err");
  let error_rates' := dict_set (error_rates m0) "PyTorch (FP32)" valid_err in
  let sizes' := dict_set (sizes_mb m0) "PyTorch (FP32)" (size_mb (w_model_pth_size w)) in
  foldM validate_variant ort_variants
    (Metrics (train_samples m0) (valid_samples m0) results' error_rates' sizes').

(** l.179-195 *)
Definition write_config : M unit :=
  when (w_config_exists w)
    (print "Creating model.config with results...";;
     call JsonLoad;;
     call_writing JsonDump).

(** l.197-201 *)
Definition write_readme (m : metrics) : M unit :=
  notes_str ← lift (get_notes (w_model_name w) (w_labels w) m);
  print "Writing README.md";;
  write_text "README.md" notes_str.

(** l.77-91 *)
Definition prepare : M unit :=
  print ("Exporting model '" +:+ w_model_name w +:+ "'...");;
  call ModelEval;;
  call TorchRandn;;
  recreate_dir.

(** [Exporter.export], l.73-203 *)
Definition export : M metrics :=
  prepare;;
  export_fp32;;
  convert_fp16;;
  quantize_int8;;
  convert_all_to_ort;;
  m ← validate_all;
  write_config;;
  write_readme m;;
  mret m.
End exporter.

(** ** Example runs *)

(** What the converter leaves next to [stem.onnx] when it works. *)
Definition converter_outputs (onnx_name : string) : list (string * N) :=
  let stem := path_stem onnx_name in
  [ (stem +:+ ".ort", 900%N);
    (stem +:+ ".required_operators.config", 40%N);
    (stem +:+ ".with_runtime_opt.ort", 1048576%N);
    (stem +:+ ".required_operators.with_runtime_opt.config", 50%N) ].

Definition example_writes (s : site) : list (string * N) :=
  match s with
  | TorchOnnxExport => [(onnx_path_fp32, 4000%N)]
  | OnnxSave => [(onnx_path_fp16, 2000%N)]
  | QuantPreProcess => [(onnx_path_pre, 4100%N)]
  | QuantizeDynamic => [(onnx_path_int8, 1000%N)]
  | SubprocessRun onnx_name => converter_outputs onnx_name
  | JsonDump => [("model.config", 300%N)]
  | _ => []
  end.

(** Two batches per split; the payload of a tensor names its batch. *)
Definition example_loader (ds_idx : nat) : list batch :=
  if decide (ds_idx = 0%nat)
  then [Batch (Loaded UInt8 0) [0; 1; 1]%nat; Batch (Loaded UInt8 1) [1; 0]%nat]
  else [Batch (Loaded UInt8 2) [0; 1]%nat; Batch (Loaded UInt8 3) [1; 1]%nat].

(** The batch a tensor comes from, and the number of its samples. *)
Fixpoint payload_of (t : tensor) : nat :=
  match t with
  | Loaded _ n => n
  | AsType _ t' | Div255 t' | Normalize _ _ t' => payload_of t'
  end.

Definition batch_sizes (payload : nat) : nat :=
  match payload with
  | 0 => 3 | _ => 2
  end%nat.

(** A session that predicts class 1 for every sample of a batch. *)
Definition example_session (ort_name : string) : session :=
  Session "input" (if String.eqb ort_name "model_fp16.ort"
                   then "tensor(float16)" else "tensor(float)")
    (λ t, Ok (replicate (batch_sizes (payload_of t)) 1%nat)).

(** The same, except that the second batch of every split raises. *)
Definition flaky_session (ort_name : string) : session :=
  Session "input" "tensor(float)"
    (λ t, if decide (payload_of t = 1%nat ∨ payload_of t = 3%nat)
          then Raise (RuntimeError "ORT failure")
          else Ok (replicate (batch_sizes (payload_of t)) 1%nat)).

Definition example_world (fails : site → option exn)
    (writes : site → list (string * N)) (sess : string → session) : world :=
  {| w_model_name := "resnet18";
     w_labels := ["track"; "train"];
     w_export_dir := "export";
     w_train_len := 5;
     w_valid_len := 4;
     w_model_pth_size := 47185920;
     w_config_exists := true;
     w_empty_dir_exists := true;
     rmtree_leaves := λ _, false;
     w_normalization := Some ([0.485; 0.456; 0.406]%Q, [0.229; 0.224; 0.225]%Q);
     fails := fails;
     writes := writes;
     learn_validate := λ ds_idx, if decide (ds_idx = 0%nat) then (0.2, 0.05)%Q else (0.3, 0.08)%Q;
     open_session := sess;
     loader := example_loader |}.

(** Every external call succeeds. *)
Definition world_all_ok : world :=
  example_world (λ _, None) example_writes example_session.

(** The converter exits non-zero on the Int8 model and leaves nothing, and
    inference raises on the second batch of every split. *)
Definition world_int8_fails : world :=
  example_world
    (λ s, match s with
          | SubprocessRun n =>
              if String.eqb n onnx_path_int8
              then Some (CalledProcessError "Command returned non-zero exit status 1." "boom")
              else None
          | _ => None
          end)
    (λ s, match s with
          | SubprocessRun n =>
              if String.eqb n onnx_path_int8 then [] else example_writes s
          | _ => example_writes s
          end)
    flaky_session.

(** The converter exits non-zero on the Int8 model and leaves nothing; the
    error output captured from it is the single byte 255. *)
Definition world_stderr_bytes : world :=
  example_world
    (λ s, match s with
          | SubprocessRun n =>
              if String.eqb n onnx_path_int8
              then Some (CalledProcessError "Command returned non-zero exit status 1."
                           (String (Ascii.ascii_of_nat 255) ""))
              else None
          | _ => None
          end)
    (λ s, match s with
          | SubprocessRun n =>
              if String.eqb n onnx_path_int8 then [] else example_writes s
          | _ => example_writes s
          end)
    example_session.

(** The converter exits non-zero on the Int8 model after it has written an
    unusable [model_int8.ort], for which no session can be opened. *)
Definition world_int8_leftover : world :=
  example_world
    (λ s, match s with
          | SubprocessRun n =>
              if String.eqb n onnx_path_int8
              then Some (CalledProcessError "Command returned non-zero exit status 1." "boom")
              else None
          | InferenceSession n =>
              if String.eqb n "model_int8.ort"
              then Some (RuntimeError "invalid model") else None
          | _ => None
          end)
    (λ s, match s with
          | SubprocessRun n =>
              if String.eqb n onnx_path_int8 then [("model_int8.ort", 900%N)]
              else example_writes s
          | _ => example_writes s
          end)
    example_session.

(** Dynamic quantization raises. *)
Definition world_quantize_fails : world :=
  example_world
    (λ s, match s with
          | QuantizeDynamic => Some (RuntimeError "quantization failed")
          | _ => None
          end)
    (λ s, match s with
          | QuantizeDynamic => []
          | _ => example_writes s
          end)
    example_session.

(** The session of the FP16 package cannot be opened. *)
Definition world_session_fails : world :=
  example_world
    (λ s, match s with
          | InferenceSession n =>
              if String.eqb n "model_fp16.ort"
              then Some (RuntimeError "invalid model") else None
          | _ => None
          end)
    example_writes
    example_session.

(** Every batch has one sample, of class 1, and the session returns two
    predictions of class 1 for it. *)
Definition world_two_predictions : world :=
  {| w_model_name := "resnet18";
     w_labels := ["track"; "train"];
     w_export_dir := "export";
     w_train_len := 1;
     w_valid_len := 1;
     w_model_pth_size := 47185920;
     w_config_exists := false;
     w_empty_dir_exists := true;
     rmtree_leaves := λ _, false;
     w_normalization := None;
     fails := λ _, None;
     writes := example_writes;
     learn_validate := λ ds_idx, (0.3, 0.08)%Q;
     open_session := λ _, Session "input" "tensor(float)" (λ t, Ok [1; 1]%nat);
     loader := λ ds_idx, [Batch (Loaded Float32 ds_idx) [1%nat]] |}.

(** A stale directory of an earlier run. *)
Definition stale_state : state := State {[ "old.ort" := 1%N ]} [].


(** Metrics of an export whose FP16 package has no recorded size. *)
Definition example_metrics : metrics :=
  Metrics 200 50 []
    [("PyTorch (FP32)", 0.08%Q); ("ORT (FP32)", 0.08%Q); ("ORT (FP16)", 0.085%Q);
     ("ORT (Int8)", 0.125%Q)]
    [("PyTorch (FP32)", 45%Q); ("ORT (FP32)", 44.996%Q); ("ORT (Int8)", 12.005%Q)].

(** The same metrics with the variants inserted in another order. *)
Definition example_metrics_reordered : metrics :=
  Metrics 200 50 []
    [("ORT (Int8)", 0.125%Q); ("ORT (FP16)", 0.085%Q); ("PyTorch (FP32)", 0.08%Q);
     ("ORT (FP32)", 0.08%Q)]
    [("ORT (Int8)", 12.005%Q); ("ORT (FP32)", 44.996%Q); ("PyTorch (FP32)", 45%Q)].

(** ** Vocabulary of the properties *)










(** The input the session sees for a batch, l.332-347. *)
Definition session_input (w : world) (is_fp16 : bool) (b : batch) : tensor :=
  let x := preprocess w (imgs b) in
  if is_fp16 then AsType Float16 x else x.

(** The session returns one prediction for every sample of every batch it
    accepts: the batch axis is the dynamic axis of the exported graph. *)
Definition one_prediction_per_sample (w : world) (sess : session)
    (is_fp16 : bool) (dl : list batch) : bool :=
  forallb (λ b,
    match run_argmax sess (session_input w is_fp16 b) with
    | Ok preds => bool_decide (length preds = length (labels b))
    | Raise _ => true
    end) dl.

(** Inference goes through on a batch. *)
Definition infers (w : world) (sess : session) (is_fp16 : bool) (b : batch) : bool :=
  match infer sess is_fp16 (preprocess w (imgs b)) (labels b) with
  | Ok _ => true
  | Raise _ => false
  end.

(** The counts [(correct, total)] the batch loop ends with: those of the
    batches before the first one on which inference raises. *)
Fixpoint kept_counts (w : world) (sess : session) (is_fp16 : bool)
    (dl : list batch) (correct total : Z) : Z * Z :=
  match dl with
  | [] => (correct, total)
  | b :: dl' =>
      match infer sess is_fp16 (preprocess w (imgs b)) (labels b) with
      | Ok n =>
          kept_counts w sess is_fp16 dl'
            (correct + n)%Z (total + Z.of_nat (length (labels b)))%Z
      | Raise _ => (correct, total)
      end
  end.

(** The error rate of a split with the given counts. *)
Definition error_rate (correct total : Z) : Q :=
  fl (1 - (if (0 <? total)%Z then fl (inject_Z correct / inject_Z total) else 0))%Q.

Definition kept_error (w : world) (sess : session) (is_fp16 : bool)
    (dl : list batch) : Q :=
  let counts := kept_counts w sess is_fp16 dl 0 0 in
  error_rate counts.1 counts.2.

(** The names a successful [_convert_to_ort] removes. *)
Definition removed_by_convert (onnx_path : string) : list string :=
  [ generated_ort onnx_path; generated_config onnx_path;
    unopt_config onnx_path; onnx_path ].

(** What a successful [_convert_to_ort] makes of the directory the
    converter left: two renames and two removals. *)
Definition rename_file (src dst : string) (m : gmap string N) : gmap string N :=
  match m !! src with
  | Some n => <[dst := n]> (delete src m)
  | None => m
  end.

Definition after_convert (onnx_path : string) (m : gmap string N) : gmap string N :=
  delete onnx_path
    (delete (unopt_config onnx_path)
       (rename_file (generated_config onnx_path) (target_config onnx_path)
          (rename_file (generated_ort onnx_path) (target_ort onnx_path) m))).

(** The lines [_convert_to_ort] prints when the converter exits non-zero
    and its error output is empty or text. *)
Definition convert_failure_lines (w : world) (onnx_path : string) (e : exn) : list string :=
  match e with
  | CalledProcessError _ stderr =>
      ("Failed to convert " +:+ full_path w onnx_path +:+ " to ORT: " +:+ str_exn e)
      :: (if String.eqb stderr "" then [] else ["Error output: " +:+ stderr])
  | _ => []
  end.

(** Only the converter fails, and only by a non-zero exit status. *)
Definition only_converter_exits_fail (w : world) : Prop :=
  ∀ s e, fails w s = Some e →
    ∃ onnx_name msg stderr,
      s = SubprocessRun onnx_name ∧ e = CalledProcessError msg stderr.

(** The error output captured from a converter that exits non-zero is
    UTF-8. *)
Definition converter_stderr_decodes (w : world) : Prop :=
  ∀ onnx_name msg stderr,
    fails w (SubprocessRun onnx_name) = Some (CalledProcessError msg stderr) →
    utf8_decode stderr = Ok stderr.

(** The run gets as far as emptying the export directory: l.78-90 do not
    raise. *)
Definition reaches_reset (w : world) : Prop :=
  fails w ModelEval = None ∧ fails w TorchRandn = None ∧ fails w Rmtree = None.

(** The export directory after the three ONNX files are written and the
    pre-processed file is removed (l.100-139), when nothing raises. *)
Definition exported_dir (w : world) : gmap string N :=
  delete onnx_path_pre
    (write_files (writes w QuantizeDynamic)
       (write_files (writes w QuantPreProcess)
          (write_files (writes w OnnxSave)
             (write_files (writes w TorchOnnxExport) ∅)))).

(** The directory after one iteration of the packaging loop (l.143-145). *)
Definition convert_step_dir (w : world) (onnx_path : string)
    (m : gmap string N) : gmap string N :=
  match m !! onnx_path with
  | Some _ =>
      let m' := write_files (writes w (SubprocessRun onnx_path)) m in
      match fails w (SubprocessRun onnx_path) with
      | None => after_convert onnx_path m'
      | Some _ => m'
      end
  | None => m
  end.

Definition packaged_dir (w : world) : gmap string N :=
  convert_step_dir w onnx_path_int8
    (convert_step_dir w onnx_path_fp16
       (convert_step_dir w onnx_path_fp32 (exported_dir w))).

(** What [validate] and [validate_onnx] return when they return a result. *)
Definition native_results (w : world) : list (string * Q) :=
  [ ("train_err", (learn_validate w 0).2); ("valid_err", (learn_validate w 1).2);
    ("train_loss", (learn_validate w 0).1); ("valid_loss", (learn_validate w 1).1) ].

Definition onnx_results (w : world) (ort_path : string) : list (string * Q) :=
  let sess := open_session w ort_path in
  let is_fp16 := contains "float16" (input_type sess) in
  [ ("train_err", kept_error w sess is_fp16 (loader w 0));
    ("valid_err", kept_error w sess is_fp16 (loader w 1)) ].

(** The metrics after the native validation (l.149-162) and after one
    iteration of the loop over the packages (l.173-177), in a directory
    [dir]. *)
Definition base_metrics (w : world) : metrics :=
  Metrics (w_train_len w) (w_valid_len w)
    [("PyTorch (FP32)", native_results w)]
    [("PyTorch (FP32)", (learn_validate w 1).2)]
    [("PyTorch (FP32)", size_mb (w_model_pth_size w))].

Definition add_variant (w : world) (dir : gmap string N) (m : metrics)
    (pv : string * string) : metrics :=
  match dir !! pv.1 with
  | Some size =>
      Metrics (train_samples m) (valid_samples m)
        (dict_set (results m) pv.2 (onnx_results w pv.1))
        (dict_set (error_rates m) pv.2 (kept_error w (open_session w pv.1)
           (contains "float16" (input_type (open_session w pv.1))) (loader w 1)))
        (dict_set (sizes_mb m) pv.2 (size_mb size))
  | None => m
  end.

Definition report (w : world) (dir : gmap string N) : metrics :=
  foldl (add_variant w dir) (base_metrics w) ort_variants.

(** A directory that has every file of another one. *)
Definition grows (m m' : gmap string N) : Prop :=
  ∀ k, is_Some (m !! k) → is_Some (m' !! k).

(** The states of an export run, and the states a run goes through. A run
    is FAILED when [export] raises. *)
Inductive run_state : Type :=
  | INIT
  | BASELINE_EXPORTED
  | PRECISION_VARIANTS_EXPORTED
  | PACKAGED
  | VALIDATED
  | REPORTED
  | DONE
  | FAILED.

Definition export_trace (w : world) (st : state) : list run_state :=
  INIT ::
  match (prepare w;; export_fp32 w) st with
  | (Raise _, _) => [FAILED]
  | (Ok _, st1) =>
    BASELINE_EXPORTED ::
    match (convert_fp16 w;; quantize_int8 w) st1 with
    | (Raise _, _) => [FAILED]
    | (Ok _, st2) =>
      PRECISION_VARIANTS_EXPORTED ::
      match convert_all_to_ort w st2 with
      | (Raise _, _) => [FAILED]
      | (Ok _, st3) =>
        PACKAGED ::
        match validate_all w st3 with
        | (Raise _, _) => [FAILED]
        | (Ok m, st4) =>
          VALIDATED ::
          match (write_config w;; write_readme w m) st4 with
          | (Raise _, _) => [FAILED]
          | (Ok _, _) => [REPORTED; DONE]
          end
        end
      end
    end
  end.

(** The three variants of the pipeline: the ONNX file, the call that writes
    it, and the name of its package in the report. *)
Definition pipeline_variants : list (string * site * string) :=
  [ (onnx_path_fp32, TorchOnnxExport, "ORT (FP32)");
    (onnx_path_fp16, OnnxSave, "ORT (FP16)");
    (onnx_path_int8, QuantizeDynamic, "ORT (Int8)") ].

(** A variant's own export and conversion work: its ONNX file is written,
    the converter returns normally and writes the optimized package. *)
Definition packages (w : world) (v : string * site * string) : bool :=
  let '(onnx_path, producer, _) := v in
  bool_decide (onnx_path ∈ (writes w producer).*1)
  && ((match fails w (SubprocessRun onnx_path) with None => true | Some _ => false end)
      && bool_decide (generated_ort onnx_path ∈ (writes w (SubprocessRun onnx_path)).*1)).

(** The three maps of the report have the same keys, in the same order. *)
Definition same_keys (m : metrics) : Prop :=
  dict_keys (results m) = dict_keys (error_rates m)
  ∧ dict_keys (error_rates m) = dict_keys (sizes_mb m).

(** A variant is in none of the three maps. *)
Definition absent (variant : string) (m : metrics) : Prop :=
  (variant ∉ dict_keys (results m))
  ∧ (variant ∉ dict_keys (error_rates m))
  ∧ (variant ∉ dict_keys (sizes_mb m)).

(** A variant has an entry in each of the three maps. *)
Definition complete (variant : string) (m : metrics) : Prop :=
  variant ∈ dict_keys (results m)
  ∧ variant ∈ dict_keys (error_rates m)
  ∧ variant ∈ dict_keys (sizes_mb m).

(** ** Publishing a release, and the command line

    [Exporter.release] (l.387-436), [Exporter.__init__] as far as it decides
    whether an exporter exists (l.35-71), and [main] of [bin/export.py]. The
    [gh] command is one more external call: [gh cmd] says whether
    [subprocess.run(cmd, check=True)] raises. *)

(** [name.endswith(suffix)] *)
Definition ends_with (suffix name : string) : bool :=
  let n := String.length name in
  let k := String.length suffix in
  (k <=? n)%nat && String.eqb (String.substring (n - k) k name) suffix.

(** [export_dir.glob("*" + suffix)]: the names of the directory that end
    with [suffix], in the order the directory lists them. *)
Definition glob_suffix (suffix : string) (dir : gmap string N) : list string :=
  filter (λ name, ends_with suffix name = true) (map_to_list dir).*1.

Definition read_dir : M (gmap string N) := λ st, (Ok (fs st), st).

(** l.391-407 *)
Definition files_to_upload (w : world) (model_dir : string)
    (dir : gmap string N) : list string :=
  let files :=
    full_path w <$> (glob_suffix ".ort" dir ++ glob_suffix "_operators.config" dir) in
  let files :=
    if KEEP_ONNX then files ++ (full_path w <$> glob_suffix ".onnx" dir) else files in
  let files :=
    if bool_decide (is_Some (dir !! "model.config"))
    then files ++ [full_path w "model.config"] else files in
  let config_path := model_dir +:+ "/config.json" in
  if w_config_exists w && bool_decide (config_path ∉ files)
  then files ++ [config_path] else files.

(** l.416-430 *)
Definition gh_command (w : world) (tag : string) (release_candidate : bool)
    (notes_str : string) (files : list string) : list string :=
  [ "gh"; "release"; "create"; tag; "--title";
    "Model " +:+ w_model_name w +:+ " " +:+ tag; "--notes"; notes_str ]
  ++ (if release_candidate then ["--prerelease"] else [])
  ++ files.

Definition run_gh (gh : list string → option exn) (cmd : list string) : M unit :=
  λ st, match gh cmd with
        | Some e => (Raise e, st)
        | None => (Ok tt, st)
        end.

(** [Exporter.release], l.387-436. It exports to the default directory:
    the export directory of the world is [model_dir/export]. *)
Definition release (w : world) (gh : list string → option exn)
    (model_dir tag : string) (release_candidate : bool) : M unit :=
  metrics ← export w;
  print ("Creating GitHub release '" +:+ tag +:+ "'...");;
  dir ← read_dir;
  let files := files_to_upload w model_dir dir in
  match files with
  | [] => print "No files found to upload."
  | _ =>
      notes_str ← lift (get_notes (w_model_name w) (w_labels w) metrics);
      let cmd := gh_command w tag release_candidate notes_str files in
      catch
        (run_gh gh cmd;; print ("Successfully created release " +:+ tag))
        (λ e, match e with
              | CalledProcessError _ _ =>
                  Some (print ("Failed to create release: " +:+ str_exn e))
              | _ => None
              end)
  end.

(** What [__init__] meets: whether building the dataset, the loaders and the
    learner raises, whether [model.pth] is there, and whether loading it
    raises. *)
Record startup : Type := Startup {
  build_fails : option exn;
  model_pth_path : string;
  model_pth_exists : bool;
  load_fails : option exn;
}.

Definition external (outcome : option exn) : M unit :=
  λ st, match outcome with
        | Some e => (Raise e, st)
        | None => (Ok tt, st)
        end.

(** [Exporter.__init__], l.35-71 *)
Definition exporter_init (s : startup) : M unit :=
  external (build_fails s);;
  if model_pth_exists s then
    print "Loading weights from model.pth";;
    external (load_fails s)
  else
    lift (Raise (FileNotFoundError ("Model file not found at " +:+ model_pth_path s))).

(** [main] of [bin/export.py], l.9-31, for the model name [model]; the
    export directory of the world is [frontend/public/models/model]. *)
Definition main (w : world) (s : startup) (model : string) : M unit :=
  print ("Exporting model " +:+ model +:+ "...");;
  catch
    (print ("Target directory: frontend/public/models/" +:+ model);;
     exporter_init s;;
     export w;;
     mret tt)
    (λ e, Some (print ("Export failed: " +:+ str_exn e))).

(** An operation keeps a property of the export directory, however it
    ends. *)
Definition keeps_dir {A} (P : gmap string N → Prop) (m : M A) : Prop :=
  ∀ st r st', P (fs st) → m st = (r, st') → P (fs st').

(** The names the exporter itself gives to files. *)
Definition exporter_names : list string :=
  [ target_ort onnx_path_fp32; target_config onnx_path_fp32;
    target_ort onnx_path_fp16; target_config onnx_path_fp16;
    target_ort onnx_path_int8; target_config onnx_path_int8;
    "README.md" ].

(** No external call of the run writes a file of that name. *)
Definition never_written (w : world) (name : string) : Prop :=
  ∀ s, name ∉ (writes w s).*1.

(** A string without a dot. *)
Fixpoint no_dot (s : string) : bool :=
  match s with
  | EmptyString => true
  | String c s' => negb (Ascii.eqb c "."%char) && no_dot s'
  end.

(** The model of a session is right on every sample of the batches. *)
Definition all_right (w : world) (sess : session) (is_fp16 : bool)
    (dl : list batch) : bool :=
  forallb (λ b,
    match run_argmax sess (session_input w is_fp16 b) with
    | Ok preds => bool_decide (preds = labels b)
    | Raise _ => false
    end) dl.

(** The number of samples of the batches. *)
Definition sample_count (dl : list batch) : Z :=
  foldr (λ b n, (Z.of_nat (length (labels b)) + n)%Z) 0%Z dl.

(** [gh] is not installed: [subprocess.run] cannot start it. *)
Definition gh_missing (cmd : list string) : option exn :=
  Some (FileNotFoundError "No such file or directory: 'gh'").

(** The converter writes next to the three models of the pipeline only. *)
Definition pipeline_writes (s : site) : list (string * N) :=
  match s with
  | SubprocessRun n =>
      if bool_decide (n ∈ [onnx_path_fp32; onnx_path_fp16; onnx_path_int8])
      then converter_outputs n else []
  | _ => example_writes s
  end.

Definition world_tidy : world :=
  example_world (λ _, None) pipeline_writes example_session.

(** The same, with the session of the FP16 package failing to open. *)
Definition world_tidy_session_fails : world :=
  example_world
    (λ s, match s with
          | InferenceSession n =>
              if String.eqb n "model_fp16.ort"
              then Some (RuntimeError "invalid model") else None
          | _ => None
          end)
    pipeline_writes example_session.

(** No package is produced: the converter exits non-zero on every model and
    leaves nothing, and there is no [config.json]. *)
Definition world_no_package : world :=
  {| w_model_name := "resnet18";
     w_labels := ["track"; "train"];
     w_export_dir := "models/resnet18/export";
     w_train_len := 5;
     w_valid_len := 4;
     w_model_pth_size := 47185920;
     w_config_exists := false;
     w_empty_dir_exists := false;
     rmtree_leaves := λ _, false;
     w_normalization := None;
     fails := λ s, match s with
                   | SubprocessRun _ =>
                       Some (CalledProcessError "Command returned non-zero exit status 1."
                               EmptyString)
                   | _ => None
                   end;
     writes := λ s, match s with
                    | SubprocessRun _ => []
                    | _ => example_writes s
                    end;
     learn_validate := λ ds_idx, (0.3, 0.08)%Q;
     open_session := example_session;
     loader := example_loader |}.

(** [gh] exits non-zero. *)
Definition gh_rejects (cmd : list string) : option exn :=
  Some (CalledProcessError "Command returned non-zero exit status 1." EmptyString).

(** An exporter that starts, and one whose [model.pth] is missing. *)
Definition startup_ok : startup :=
  Startup None "models/resnet18/model.pth" true None.
Definition startup_no_weights : startup :=
  Startup None "models/resnet18/model.pth" false None.

(** * Properties *)

(** ** Dictionaries *)

Section pydict_facts.
Context {V : Type}.
Implicit Types d : list (string * V).

Lemma dict_get_Some_elem d k v : dict_get d k = Some v → (k, v) ∈ d.
Proof.
  induction d as [|[k' v'] d IH]; simpl; [done|].
  case_decide; [intros [= <-]; subst; left | intros; right; auto].
Qed.

Lemma dict_get_is_Some d k : is_Some (dict_get d k) ↔ k ∈ dict_keys d.
Proof.
  unfold dict_keys. induction d as [|[k' v'] d IHd]; simpl.
  - split; [by intros [? ?] | by intros ?%elem_of_nil].
  - destruct (decide (k' = k)) as [->|Hne].
    + split; [intros _; left | eauto].
    + rewrite IHd, elem_of_cons. split; [by right | by intros [?|?]].
Qed.

Lemma dict_get_None d k : dict_get d k = None ↔ k ∉ dict_keys d.
Proof. rewrite <-dict_get_is_Some, eq_None_not_Some. done. Qed.

Lemma dict_get_elem_NoDup d k v :
  NoDup (dict_keys d) → (k, v) ∈ d → dict_get d k = Some v.
Proof.
  unfold dict_keys. induction d as [|[k' v'] d IH]; simpl.
  - by intros _ ?%elem_of_nil.
  - intros [Hk Hnd]%NoDup_cons [[= -> ->]|Hin]%elem_of_cons.
    + by rewrite decide_True.
    + rewrite decide_False; [auto|].
      intros ->. apply Hk. apply list_elem_of_fmap. by exists (k, v).
Qed.

(** Lookups do not see the insertion order. *)
Lemma dict_get_Permutation d1 d2 k :
  NoDup (dict_keys d1) → d1 ≡ₚ d2 → dict_get d1 k = dict_get d2 k.
Proof.
  intros Hnd Hp.
  assert (NoDup (dict_keys d2)) as Hnd2.
  { unfold dict_keys in *. by rewrite <-Hp. }
  destruct (dict_get d1 k) as [v|] eqn:E1.
  - symmetry. apply dict_get_elem_NoDup; [done|].
    rewrite <-Hp. by apply dict_get_Some_elem.
  - destruct (dict_get d2 k) as [v|] eqn:E2; [|done].
    apply dict_get_Some_elem in E2. rewrite <-Hp in E2.
    apply dict_get_elem_NoDup in E2; [congruence|done].
Qed.

Lemma dict_keys_set d k v :
  dict_keys (dict_set d k v)
  = if decide (k ∈ dict_keys d) then dict_keys d else dict_keys d ++ [k].
Proof.
  unfold dict_keys. induction d as [|[k' v'] d IHd]; csimpl.
  - destruct (decide (k ∈ [])) as [Hin|_]; [by apply elem_of_nil in Hin | done].
  - destruct (decide (k' = k)) as [->|Hne]; csimpl.
    + destruct (decide (k ∈ k :: d.*1)) as [_|Hnin]; [done|].
      exfalso. apply Hnin. left.
    + rewrite IHd. destruct (decide (k ∈ d.*1)) as [Hin|Hnin];
        destruct (decide (k ∈ k' :: d.*1)) as [Hin'|Hnin']; try done.
      * exfalso. apply Hnin'. by right.
      * apply elem_of_cons in Hin' as [->|?]; done.
Qed.

Lemma dict_get_set d k v : dict_get (dict_set d k v) k = Some v.
Proof.
  induction d as [|[k' v'] d IH]; simpl.
  - by rewrite decide_True.
  - destruct (decide (k' = k)) as [->|Hne]; simpl.
    + by rewrite decide_True.
    + by rewrite decide_False.
Qed.
End pydict_facts.

(** ** Sorting the variant names *)

Lemma sorted_Sorted ks : Sorted String.le (sorted ks).
Proof. apply (Sorted_merge_sort String.le). Qed.

Lemma sorted_Permutation ks : sorted ks ≡ₚ ks.
Proof. apply merge_sort_Permutation. Qed.

Lemma sorted_order_independent ks1 ks2 : ks1 ≡ₚ ks2 → sorted ks1 = sorted ks2.
Proof.
  intros Hp. apply (Sorted_unique String.le); try apply sorted_Sorted.
  by rewrite !sorted_Permutation.
Qed.

(** ** Decimal rendering *)






Lemma fmt_fixed2_zero : fmt_fixed2 0 = "0.00".
Proof. reflexivity. Qed.

Lemma string_app_cons c s t : String c s +:+ t = String c (s +:+ t).
Proof. reflexivity. Qed.

Lemma string_app_nil t : EmptyString +:+ t = t.
Proof. reflexivity. Qed.

Lemma string_length_app s t :
  String.length (s +:+ t) = (String.length s + String.length t)%nat.
Proof.
  induction s as [|c s IH]; [done|].
  rewrite string_app_cons. simpl. by rewrite IH.
Qed.











Lemma round_half_even_bounds a d lo hi :
  (0 < d)%Z → (lo * d ≤ a)%Z → (a ≤ hi * d)%Z →
  (lo ≤ round_half_even a d ≤ hi)%Z.
Proof.
  intros Hd Hlo Hhi. unfold round_half_even.
  pose proof (Z.div_mod a d) as Hdm. pose proof (Z.mod_pos_bound a d Hd) as Hr.
  set (quo := (a `div` d)%Z) in *. set (r := (a `mod` d)%Z) in *.
  repeat case_match;
    rewrite ?Z.ltb_lt, ?Z.ltb_ge in *; nia.
Qed.




(** ** Rounding to binary64 *)

Lemma fl_Qeq q1 q2 : (q1 == q2)%Q → fl q1 = fl q2.
Proof. intros Heq. unfold fl. by rewrite (Qred_complete _ _ Heq). Qed.

Lemma fl_0 : fl 0 = 0%Q.
Proof. reflexivity. Qed.

Lemma fl_1 : fl 1 = 1%Q.
Proof. reflexivity. Qed.




(** Rounding does not leave the unit interval: 0 and 1 are binary64
    numbers. *)
Lemma fl_unit_interval q : (0 <= q)%Q → (q <= 1)%Q → (0 <= fl q)%Q ∧ (fl q <= 1)%Q.
Proof.
  intros H0 H1. unfold fl, round_binary64.
  rewrite <-(Qred_correct q) in H0, H1.
  destruct (Qred q) as [num den]. cbn [Qnum Qden].
  unfold Qle in H0, H1. cbn [Qnum Qden] in H0, H1.
  destruct (num =? 0)%Z eqn:Hz; [done|]. apply Z.eqb_neq in Hz.
  assert (0 < num ≤ Z.pos den)%Z as Hnum by lia.
  assert (ilog2 (num # den) ≤ 0)%Z as Hlog.
  { unfold ilog2. cbn [Qnum Qden].
    pose proof (Z.log2_le_mono (Z.abs num) (Z.pos den) ltac:(lia)).
    case_match; lia. }
  set (e := Z.max (ilog2 (num # den) - 52) (-1074)).
  assert (e < 0)%Z as He by lia.
  assert ((0 <=? e)%Z = false) as -> by by apply Z.leb_gt.
  assert ((num <? 0)%Z = false) as -> by (apply Z.ltb_ge; lia).
  assert (0 < 2 ^ (- e))%Z as Hpow by (apply Z.pow_pos_nonneg; lia).
  pose proof (round_half_even_bounds (Z.abs num * 2 ^ (- e)) (Z.pos den) 0 (2 ^ (- e))
                ltac:(lia) ltac:(nia) ltac:(nia)) as Hm.
  rewrite Qred_correct. unfold Qle. cbn [Qnum Qden].
  rewrite Z2Pos.id by done. lia.
Qed.

(** ** The report text *)

Lemma notes_rows_total m ks :
  (∀ k, k ∈ ks → k ∈ dict_keys (error_rates m)) →
  ∃ rows, res_mapM (notes_row m) ks = Ok rows
          ∧ Forall2 (λ k row, notes_row m k = Ok row) ks rows.
Proof.
  induction ks as [|k ks IH]; intros Hin; simpl.
  - exists []. by split.
  - destruct IH as (rows & -> & Hrows); [intros; apply Hin; by right|].
    assert (is_Some (dict_get (error_rates m) k)) as [err Herr].
    { apply dict_get_is_Some, Hin. left. }
    assert (notes_row m k = Ok (table_row k (fmt_percent2 err)
      (fmt_fixed2 (dict_get_default (sizes_mb m) k 0%Q)))) as Hrow.
    { unfold notes_row, dict_getitem. by rewrite Herr. }
    rewrite Hrow. simpl. eexists. split; [done|]. by constructor.
Qed.

Lemma notes_lines_total name labels m :
  ∃ rows, notes_lines name labels m
          = Ok (notes_head name ++ rows ++ notes_foot labels m)
    ∧ Forall2 (λ k row, notes_row m k = Ok row)
        (sorted (dict_keys (error_rates m))) rows.
Proof.
  destruct (notes_rows_total m (sorted (dict_keys (error_rates m))))
    as (rows & Hrows & Hall).
  { intros k. by rewrite sorted_Permutation. }
  exists rows. split; [|done]. unfold notes_lines. by rewrite Hrows.
Qed.

Lemma notes_row_shape m k row :
  notes_row m k = Ok row →
  ∃ err, dict_get (error_rates m) k = Some err
         ∧ row = table_row k (fmt_percent2 err)
                   (fmt_fixed2 (dict_get_default (sizes_mb m) k 0%Q)).
Proof.
  unfold notes_row, dict_getitem.
  destruct (dict_get (error_rates m) k) as [err|]; simpl; [|done].
  intros [= <-]. by exists err.
Qed.

Lemma notes_row_order_independent m1 m2 k :
  NoDup (dict_keys (error_rates m1)) → NoDup (dict_keys (sizes_mb m1)) →
  error_rates m1 ≡ₚ error_rates m2 → sizes_mb m1 ≡ₚ sizes_mb m2 →
  notes_row m1 k = notes_row m2 k.
Proof.
  intros Hnd1 Hnd2 Hp1 Hp2. unfold notes_row, dict_getitem, dict_get_default.
  by rewrite (dict_get_Permutation _ _ k Hnd1 Hp1), (dict_get_Permutation _ _ k Hnd2 Hp2).
Qed.

Lemma res_mapM_ext {A B} (f g : A → res B) l :
  (∀ x, f x = g x) → res_mapM f l = res_mapM g l.
Proof. intros Hfg. induction l as [|x l IH]; simpl; [done|]. by rewrite Hfg, IH. Qed.

(** C8: [get_notes] depends on the content of the metrics only: two metrics
    holding the same variants, inserted in any order, give the same text,
    and the rows of the table follow the lexicographic order of the variant
    names. *)
Theorem get_notes_order_independent name labels m1 m2 :
  train_samples m1 = train_samples m2 →
  valid_samples m1 = valid_samples m2 →
  NoDup (dict_keys (error_rates m1)) →
  NoDup (dict_keys (sizes_mb m1)) →
  error_rates m1 ≡ₚ error_rates m2 →
  sizes_mb m1 ≡ₚ sizes_mb m2 →
  get_notes name labels m1 = get_notes name labels m2
  ∧ ∃ ks rows,
      Sorted String.le ks
      ∧ ks ≡ₚ dict_keys (error_rates m1)
      ∧ Forall2 (λ k row, notes_row m1 k = Ok row) ks rows
      ∧ get_notes name labels m1
        = Ok (join newline (notes_head name ++ rows ++ notes_foot labels m1)).
Proof.
  intros Ht Hv Hnd1 Hnd2 Hp1 Hp2. split.
  - unfold get_notes, notes_lines, notes_foot.
    rewrite (sorted_order_independent (dict_keys (error_rates m1))
               (dict_keys (error_rates m2))).
    2: { unfold dict_keys. by rewrite Hp1. }
    rewrite (res_mapM_ext (notes_row m1) (notes_row m2)).
    2: { intros k. by apply notes_row_order_independent. }
    by rewrite Ht, Hv.
  - destruct (notes_lines_total name labels m1) as (rows & Hlines & Hrows).
    exists (sorted (dict_keys (error_rates m1))), rows. split_and!.
    + apply sorted_Sorted.
    + apply sorted_Permutation.
    + done.
    + unfold get_notes. by rewrite Hlines.
Qed.

Lemma get_notes_order_independent_witness :
  get_notes "resnet18" ["track"; "train"] example_metrics
  = get_notes "resnet18" ["track"; "train"] example_metrics_reordered.
Proof.
  apply (get_notes_order_independent "resnet18" ["track"; "train"]
           example_metrics example_metrics_reordered); simpl.
  - reflexivity.
  - reflexivity.
  - by apply (bool_decide_unpack _).
  - by apply (bool_decide_unpack _).
  - etrans; [apply Permutation_cons_append|]. simpl.
    etrans; [apply Permutation_cons_append|]. simpl.
    apply perm_swap.
  - etrans; [apply Permutation_cons_append|]. simpl.
    apply perm_swap.
Defined.


(** C10: a variant with an error rate but no size entry does not make
    [get_notes] fail; its row shows the size 0.00. *)
Theorem get_notes_missing_size name labels m model err :
  dict_get (error_rates m) model = Some err →
  dict_get (sizes_mb m) model = None →
  ∃ lines,
    notes_lines name labels m = Ok lines
    ∧ get_notes name labels m = Ok (join newline lines)
    ∧ table_row model (fmt_percent2 err) "0.00" ∈ lines.
Proof.
  intros Herr Hsize.
  destruct (notes_lines_total name labels m) as (rows & Hlines & Hrows).
  eexists. split; [exact Hlines|]. split.
  - unfold get_notes. by rewrite Hlines.
  - apply elem_of_app. right. apply elem_of_app. left.
    assert (model ∈ sorted (dict_keys (error_rates m))) as Hin.
    { rewrite sorted_Permutation. apply dict_get_is_Some. by rewrite Herr. }
    apply list_elem_of_lookup in Hin as [i Hi].
    destruct (Forall2_lookup_l _ _ _ _ _ Hrows Hi) as (row & Hrow & Hshape).
    apply notes_row_shape in Hshape as (err' & Herr' & ->).
    rewrite Herr in Herr'. injection Herr' as <-.
    unfold dict_get_default in Hrow. rewrite Hsize in Hrow. simpl in Hrow.
    rewrite fmt_fixed2_zero in Hrow.
    apply list_elem_of_lookup. by exists i.
Qed.

Lemma get_notes_missing_size_witness :
  ∃ lines,
    notes_lines "resnet18" ["track"; "train"] example_metrics = Ok lines
    ∧ get_notes "resnet18" ["track"; "train"] example_metrics = Ok (join newline lines)
    ∧ "| ORT (FP16) | 8.50% | 0.00 |" ∈ lines.
Proof.
  apply (get_notes_missing_size "resnet18" ["track"; "train"] example_metrics
           "ORT (FP16)" 0.085%Q); reflexivity.
Defined.

(** ** Sequencing *)

Ltac unfold_M :=
  unfold mbind, M_bind, bind, mret, M_ret, ret, print, lift, when,
    path_exists, catch in *.

Lemma bind_ok {A B} (m : M A) (k : A → M B) st a st' :
  m st = (Ok a, st') → (m ≫= k) st = k a st'.
Proof. intros Hm. unfold_M. by rewrite Hm. Qed.

Lemma bind_raise {A B} (m : M A) (k : A → M B) st e st' :
  m st = (Raise e, st') → (m ≫= k) st = (Raise e, st').
Proof. intros Hm. unfold_M. by rewrite Hm. Qed.

Lemma bind_Ok_inv {A B} (m : M A) (k : A → M B) st b st' :
  (m ≫= k) st = (Ok b, st') →
  ∃ a st1, m st = (Ok a, st1) ∧ k a st1 = (Ok b, st').
Proof.
  unfold_M. destruct (m st) as [[a|e] st1]; [|done]. intros Hk. by exists a, st1.
Qed.

Lemma bind_assoc {A B C} (m : M A) (f : A → M B) (g : B → M C) st :
  ((m ≫= f) ≫= g) st = (m ≫= λ x, f x ≫= g) st.
Proof. unfold_M. by destruct (m st) as [[a|e] st1]. Qed.

Lemma bind_mret {A} (m : M A) st : (m ≫= mret) st = m st.
Proof. unfold_M. by destruct (m st) as [[a|e] st1]. Qed.

Lemma print_then {B} line (k : M B) st :
  (print line;; k) st = k (State (fs st) (out st ++ [line])).
Proof. by unfold_M. Qed.

Lemma call_then {B} w s (k : M B) st :
  (call w s;; k) st
  = match fails w s with
    | Some e => (Raise e, st)
    | None => k st
    end.
Proof. unfold call. unfold_M. by destruct (fails w s). Qed.

Lemma call_writing_then {B} w s (k : M B) st :
  (call_writing w s;; k) st
  = match fails w s with
    | Some e => (Raise e, State (write_files (writes w s) (fs st)) (out st))
    | None => k (State (write_files (writes w s) (fs st)) (out st))
    end.
Proof. unfold call_writing. unfold_M. by destruct (fails w s). Qed.

(** ** The batch loop of [validate_onnx] *)

Lemma count_matches_bounds preds labs :
  (0 ≤ count_matches preds labs ≤ Z.of_nat (length labs))%Z.
Proof.
  revert labs. induction preds as [|p preds IH]; intros [|l labs]; simpl; try lia.
  specialize (IH labs). case_decide; lia.
Qed.

Lemma infer_bounds w sess is_fp16 b dl n :
  one_prediction_per_sample w sess is_fp16 (b :: dl) = true →
  infer sess is_fp16 (preprocess w (imgs b)) (labels b) = Ok n →
  (0 ≤ n ≤ Z.of_nat (length (labels b)))%Z.
Proof.
  unfold one_prediction_per_sample, infer, session_input. simpl.
  destruct (run_argmax sess _) as [preds|e]; simpl; [|done].
  intros [Hlen%bool_decide_eq_true _]%andb_true_iff.
  unfold np_eq_sum. rewrite decide_True by done.
  intros [= <-]. apply count_matches_bounds.
Qed.

(** The loop never raises, leaves the directory alone, and ends with
    [kept_counts]. *)
Lemma batch_loop_spec w sess is_fp16 dl c t st :
  ∃ lines,
    batch_loop w sess is_fp16 dl c t st
    = (Ok (kept_counts w sess is_fp16 dl c t), State (fs st) (out st ++ lines)).
Proof.
  revert c t. induction dl as [|b dl IH]; intros c t; simpl.
  - exists []. unfold_M. rewrite app_nil_r. by destruct st.
  - destruct (infer sess is_fp16 _ _) as [n|e].
    + apply IH.
    + eexists [_]. by unfold_M.
Qed.

Lemma kept_counts_bounds w sess is_fp16 dl c t :
  one_prediction_per_sample w sess is_fp16 dl = true →
  (0 ≤ c ≤ t)%Z →
  (0 ≤ (kept_counts w sess is_fp16 dl c t).1 ≤ (kept_counts w sess is_fp16 dl c t).2)%Z.
Proof.
  revert c t. induction dl as [|b dl IH]; intros c t Hshape Hct; simpl; [done|].
  destruct (infer sess is_fp16 _ _) as [n|e] eqn:Hinf; [|done].
  pose proof (infer_bounds _ _ _ _ _ _ Hshape Hinf).
  apply IH; [|lia].
  by apply andb_true_iff in Hshape as [_ Hdl].
Qed.

(** The division of l.360 is only made with a positive total: the error
    rate is always computed. *)
Lemma split_error_returns correct total :
  split_error correct total = Ok (error_rate correct total).
Proof.
  unfold split_error, error_rate, truediv.
  destruct (0 <? total)%Z eqn:Ht; [|done].
  apply Z.ltb_lt in Ht. by rewrite decide_False by lia.
Qed.

Lemma error_rate_range correct total :
  (0 ≤ correct ≤ total)%Z →
  (0 <= error_rate correct total)%Q ∧ (error_rate correct total <= 1)%Q.
Proof.
  intros Hct. unfold error_rate.
  destruct (0 <? total)%Z eqn:Ht; [|by change (fl (1 - 0)) with 1%Q].
  apply Z.ltb_lt in Ht.
  assert (0 < inject_Z total)%Q as Hpos.
  { change (inject_Z 0 < inject_Z total)%Q. by rewrite <-Zlt_Qlt. }
  assert (0 <= inject_Z correct / inject_Z total)%Q as H0.
  { apply Qle_shift_div_l; [done|]. rewrite Qmult_0_l.
    change (inject_Z 0 <= inject_Z correct)%Q. rewrite <-Zle_Qle. lia. }
  assert (inject_Z correct / inject_Z total <= 1)%Q as H1.
  { apply Qle_shift_div_r; [done|]. rewrite Qmult_1_l.
    rewrite <-Zle_Qle. lia. }
  destruct (fl_unit_interval _ H0 H1) as [H0' H1'].
  set (accuracy := fl (inject_Z correct / inject_Z total)%Q) in *.
  apply fl_unit_interval; lra.
Qed.

Lemma error_rate_zero_total correct : error_rate correct 0 = 1%Q.
Proof. reflexivity. Qed.

Lemma validate_split_spec w sess is_fp16 name results ds_idx st :
  ∃ lines,
    validate_split w sess is_fp16 name results ds_idx st
    = (Ok (dict_set results (ds_name ds_idx +:+ "_err")
             (kept_error w sess is_fp16 (loader w ds_idx))),
       State (fs st) (out st ++ lines)).
Proof.
  unfold validate_split.
  destruct (batch_loop_spec w sess is_fp16 (loader w ds_idx) 0 0 st) as [lines Hloop].
  erewrite bind_ok by exact Hloop.
  erewrite (bind_ok (lift _)) by (unfold lift; by rewrite split_error_returns).
  rewrite print_then. unfold_M. simpl. eexists (lines ++ [_]).
  by rewrite app_assoc.
Qed.

(** C1, as the exporter does it: for every split the batch loop ends, the
    division of l.360 is only made with a positive total, so that the error
    rate is always computed and reported, and it is exactly 1 when no sample
    was counted. When the session returns one prediction for each sample of
    the batches it accepts, the error rate lies between 0 and 1. *)
Theorem validate_split_error_range w sess is_fp16 name results ds_idx st :
  ∃ correct total err st1 st',
    batch_loop w sess is_fp16 (loader w ds_idx) 0 0 st = (Ok (correct, total), st1)
    ∧ split_error correct total = Ok err
    ∧ validate_split w sess is_fp16 name results ds_idx st
      = (Ok (dict_set results (ds_name ds_idx +:+ "_err") err), st')
    ∧ (total = 0%Z → err = 1%Q)
    ∧ (one_prediction_per_sample w sess is_fp16 (loader w ds_idx) = true →
       (0 <= err)%Q ∧ (err <= 1)%Q).
Proof.
  destruct (batch_loop_spec w sess is_fp16 (loader w ds_idx) 0 0 st) as [l1 Hloop].
  destruct (validate_split_spec w sess is_fp16 name results ds_idx st) as [l2 Hsplit].
  pose proof (kept_counts_bounds w sess is_fp16 (loader w ds_idx) 0 0) as Hb.
  unfold kept_error in Hsplit.
  destruct (kept_counts w sess is_fp16 (loader w ds_idx) 0 0) as [correct total].
  simpl in *. exists correct, total, (error_rate correct total). do 2 eexists.
  split; [exact Hloop|]. split; [apply split_error_returns|].
  split; [exact Hsplit|]. split.
  - intros ->. apply error_rate_zero_total.
  - intros Hshape. apply error_rate_range. apply Hb; [done | lia].
Qed.

Lemma validate_split_error_range_witness :
  ∃ correct total err st1 st',
    batch_loop world_all_ok (example_session "model_fp32.ort") false
      (loader world_all_ok 0) 0 0 stale_state = (Ok (correct, total), st1)
    ∧ split_error correct total = Ok err
    ∧ validate_split world_all_ok (example_session "model_fp32.ort") false
        "ORT (FP32)" [] 0 stale_state
      = (Ok (dict_set [] (ds_name 0 +:+ "_err") err), st')
    ∧ (0 <= err)%Q ∧ (err <= 1)%Q.
Proof.
  destruct (validate_split_error_range world_all_ok
              (example_session "model_fp32.ort") false "ORT (FP32)" [] 0 stale_state)
    as (correct & total & err & st1 & st' & Hloop & Herr & Hsplit & _ & Hrange).
  exists correct, total, err, st1, st'.
  split; [exact Hloop|]. split; [exact Herr|]. split; [exact Hsplit|].
  apply Hrange. reflexivity.
Defined.

(** A session that returns two predictions for a batch of one sample: numpy
    compares the label with both, two are counted right out of one, and the
    error rate of the split is -1. *)
Lemma error_rate_below_zero_counterexample :
  let st := State {[ "model_fp32.ort" := 900%N ]} [] in
  (validate_onnx world_two_predictions "model_fp32.ort" "ORT (FP32)" st).1
  = Ok (Some [("train_err", (-1 # 1)%Q); ("valid_err", (-1 # 1)%Q)])
  ∧ ¬ (0 <= -1 # 1)%Q
  ∧ out (validate_onnx world_two_predictions "model_fp32.ort" "ORT (FP32)" st).2
    = [ "Validating ORT (FP32)...";
        "[ORT (FP32)] Train Error Rate: -1.0000";
        "[ORT (FP32)] Valid Error Rate: -1.0000" ].
Proof. split_and!; [vm_compute; reflexivity | by intros ? | vm_compute; reflexivity]. Qed.

Lemma kept_counts_app_raise w sess is_fp16 pre b post e c t :
  forallb (infers w sess is_fp16) pre = true →
  infer sess is_fp16 (preprocess w (imgs b)) (labels b) = Raise e →
  kept_counts w sess is_fp16 (pre ++ b :: post) c t
  = kept_counts w sess is_fp16 pre c t.
Proof.
  intros Hpre Hb. revert c t.
  induction pre as [|b' pre IH]; intros c t; simpl.
  - by rewrite Hb.
  - simpl in Hpre. apply andb_true_iff in Hpre as [Hb' Hpre].
    unfold infers in Hb'.
    destruct (infer sess is_fp16 _ (labels b')) as [n|]; [|done].
    by apply IH.
Qed.

(** The loop prints nothing before the failing batch and one line for it;
    the batches after it are not looked at. *)
Lemma batch_loop_app_raise w sess is_fp16 pre b post e c t st :
  forallb (infers w sess is_fp16) pre = true →
  infer sess is_fp16 (preprocess w (imgs b)) (labels b) = Raise e →
  batch_loop w sess is_fp16 (pre ++ b :: post) c t st
  = (Ok (kept_counts w sess is_fp16 pre c t),
     State (fs st) (out st ++ ["Error during inference: " +:+ str_exn e])).
Proof.
  intros Hpre Hb. revert c t.
  induction pre as [|b' pre IH]; intros c t; simpl.
  - rewrite Hb. by unfold_M.
  - simpl in Hpre. apply andb_true_iff in Hpre as [Hb' Hpre].
    unfold infers in Hb'.
    destruct (infer sess is_fp16 _ (labels b')) as [n|]; [|done].
    by apply IH.
Qed.

Lemma validate_onnx_missing w path name st :
  fs st !! path = None →
  validate_onnx w path name st
  = (Ok None, State (fs st) (out st ++ ["[" +:+ name +:+ "] Skipped (file not found)"])).
Proof.
  intros Hnone. unfold validate_onnx. unfold_M. rewrite Hnone.
  rewrite bool_decide_eq_false_2; [done|]. by intros [? ?].
Qed.

Lemma validate_onnx_found w path name st :
  is_Some (fs st !! path) →
  fails w (InferenceSession path) = None →
  let sess := open_session w path in
  let is_fp16 := contains "float16" (input_type sess) in
  ∃ lines,
    validate_onnx w path name st
    = (Ok (Some [ ("train_err", kept_error w sess is_fp16 (loader w 0));
                  ("valid_err", kept_error w sess is_fp16 (loader w 1)) ]),
       State (fs st) (out st ++ lines)).
Proof.
  intros Hsome Hopen sess is_fp16. unfold validate_onnx. unfold_M.
  rewrite bool_decide_eq_true_2 by done. simpl.
  unfold call. rewrite Hopen. simpl.
  fold sess. fold is_fp16. unfold_M.
  do 2 (match goal with
        | |- context [validate_split ?w' ?s ?f ?n ?r ?i ?st'] =>
            let l := fresh "l" in let Hl := fresh "Hl" in
            destruct (validate_split_spec w' s f n r i st') as [l Hl];
            rewrite Hl; simpl
        end).
  eexists (_ :: l ++ l0). f_equal. f_equal.
  by rewrite <-!app_assoc.
Qed.

Lemma validate_onnx_session_raises w path name st e :
  is_Some (fs st !! path) →
  fails w (InferenceSession path) = Some e →
  validate_onnx w path name st
  = (Raise e, State (fs st) (out st ++ ["Validating " +:+ name +:+ "..."])).
Proof.
  intros Hsome Hopen. unfold validate_onnx. unfold_M.
  rewrite bool_decide_eq_true_2 by done. simpl.
  unfold call. by rewrite Hopen.
Qed.

(** C2, as the exporter does it: an exception raised by inference on a
    batch ends the accumulation of that split only. It is printed, not
    raised; the counts of the batches before it are kept and the split's
    error rate is computed from them; the other split is processed as
    usual. *)
Theorem validate_onnx_inference_exception w path name st pre b post e ds_idx :
  let sess := open_session w path in
  let is_fp16 := contains "float16" (input_type sess) in
  is_Some (fs st !! path) →
  fails w (InferenceSession path) = None →
  loader w ds_idx = pre ++ b :: post →
  forallb (infers w sess is_fp16) pre = true →
  infer sess is_fp16 (preprocess w (imgs b)) (labels b) = Raise e →
  batch_loop w sess is_fp16 (loader w ds_idx) 0 0 st
  = (Ok (kept_counts w sess is_fp16 pre 0 0),
     State (fs st) (out st ++ ["Error during inference: " +:+ str_exn e]))
  ∧ kept_error w sess is_fp16 (loader w ds_idx) = kept_error w sess is_fp16 pre
  ∧ ∃ st',
      validate_onnx w path name st
      = (Ok (Some [ ("train_err", kept_error w sess is_fp16 (loader w 0));
                    ("valid_err", kept_error w sess is_fp16 (loader w 1)) ]), st')
      ∧ fs st' = fs st.
Proof.
  intros sess is_fp16 Hsome Hopen Hdl Hpre Hb. split_and!.
  - rewrite Hdl. by eapply batch_loop_app_raise.
  - unfold kept_error. rewrite Hdl.
    by rewrite (kept_counts_app_raise _ _ _ _ _ _ e).
  - destruct (validate_onnx_found w path name st Hsome Hopen) as [lines Hv].
    eexists. split; [exact Hv|done].
Qed.

Lemma validate_onnx_inference_exception_witness :
  let sess := flaky_session "model_fp32.ort" in
  let st := State {[ "model_fp32.ort" := 900%N ]} [] in
  batch_loop world_int8_fails sess false (loader world_int8_fails 1) 0 0 st
  = (Ok (1, 2)%Z, State (fs st) ["Error during inference: ORT failure"])
  ∧ kept_error world_int8_fails sess false (loader world_int8_fails 1) = (1 # 2)%Q
  ∧ ∃ st',
      validate_onnx world_int8_fails "model_fp32.ort" "ORT (FP32)" st
      = (Ok (Some [ ("train_err", kept_error world_int8_fails sess false
                                    (loader world_int8_fails 0));
                    ("valid_err", kept_error world_int8_fails sess false
                                    (loader world_int8_fails 1)) ]), st')
      ∧ fs st' = fs st.
Proof.
  apply (validate_onnx_inference_exception world_int8_fails "model_fp32.ort"
           "ORT (FP32)" (State {[ "model_fp32.ort" := 900%N ]} [])
           [Batch (Loaded UInt8 2) [0; 1]%nat] (Batch (Loaded UInt8 3) [1; 1]%nat) []
           (RuntimeError "ORT failure") 1%nat).
  - by eexists.
  - reflexivity.
  - reflexivity.
  - reflexivity.
  - reflexivity.
Defined.

(** The counts of the batches before the failing one are not dropped: with
    one good batch of two samples, one of them right, the loop ends with
    [(1, 2)], not with [(0, 0)]. *)
Lemma batch_loop_drops_partial_counts_counterexample :
  ¬ (∀ w sess is_fp16 pre b post e st,
       forallb (infers w sess is_fp16) pre = true →
       infer sess is_fp16 (preprocess w (imgs b)) (labels b) = Raise e →
       (batch_loop w sess is_fp16 (pre ++ b :: post) 0 0 st).1 = Ok (0, 0)%Z).
Proof.
  intros Hclaim.
  specialize (Hclaim world_int8_fails (flaky_session "model_fp32.ort") false
                [Batch (Loaded UInt8 2) [0; 1]%nat]
                (Batch (Loaded UInt8 3) [1; 1]%nat) []
                (RuntimeError "ORT failure") stale_state eq_refl eq_refl).
  vm_compute in Hclaim. discriminate Hclaim.
Qed.

(** ** The export directory *)

Lemma write_files_lookup_mono l (m : gmap string N) k :
  is_Some (m !! k) → is_Some (write_files l m !! k).
Proof.
  unfold write_files. revert m. induction l as [|[k' n] l IH]; intros m Hk; simpl.
  - done.
  - apply IH. destruct (decide (k' = k)) as [->|Hne].
    + rewrite lookup_insert_eq. by eexists.
    + by rewrite lookup_insert_ne.
Qed.

Lemma write_files_lookup_written l (m : gmap string N) k :
  k ∈ l.*1 → is_Some (write_files l m !! k).
Proof.
  unfold write_files. revert m. induction l as [|[k' n] l IH]; intros m; csimpl.
  - by intros ?%elem_of_nil.
  - intros [->|Hin]%elem_of_cons.
    + apply (write_files_lookup_mono l). rewrite lookup_insert_eq. by eexists.
    + by apply IH.
Qed.

Lemma rename_file_preserves src dst (m : gmap string N) k :
  k ≠ src → is_Some (m !! k) → is_Some (rename_file src dst m !! k).
Proof.
  intros Hne Hk. unfold rename_file. destruct (m !! src) as [n|]; [|done].
  destruct (decide (dst = k)) as [->|Hne'].
  - rewrite lookup_insert_eq. by eexists.
  - by rewrite lookup_insert_ne, lookup_delete_ne.
Qed.

Lemma rename_file_target src dst (m : gmap string N) :
  is_Some (m !! src) → is_Some (rename_file src dst m !! dst).
Proof.
  intros [n Hn]. unfold rename_file. rewrite Hn, lookup_insert_eq. by eexists.
Qed.

Lemma after_convert_preserves onnx_path (m : gmap string N) k :
  k ∉ removed_by_convert onnx_path →
  is_Some (m !! k) → is_Some (after_convert onnx_path m !! k).
Proof.
  unfold removed_by_convert. intros Hk Hsome.
  rewrite !not_elem_of_cons in Hk. destruct Hk as (H1 & H2 & H3 & H4 & _).
  unfold after_convert.
  rewrite lookup_delete_ne, lookup_delete_ne by done.
  by do 2 (apply rename_file_preserves; [done|]).
Qed.

Lemma after_convert_target onnx_path (m : gmap string N) :
  target_ort onnx_path ∉
    [generated_config onnx_path; unopt_config onnx_path; onnx_path] →
  is_Some (m !! generated_ort onnx_path) →
  is_Some (after_convert onnx_path m !! target_ort onnx_path).
Proof.
  intros Hk Hsome.
  rewrite !not_elem_of_cons in Hk. destruct Hk as (H1 & H2 & H3 & _).
  unfold after_convert.
  rewrite lookup_delete_ne, lookup_delete_ne by done.
  apply rename_file_preserves; [done|]. by apply rename_file_target.
Qed.

(** ** [_convert_to_ort] *)

Lemma convert_to_ort_nonzero_exit w onnx_path msg stderr st :
  fails w (SubprocessRun onnx_path) = Some (CalledProcessError msg stderr) →
  utf8_decode stderr = Ok stderr →
  _convert_to_ort w onnx_path st
  = (Ok tt,
     State (write_files (writes w (SubprocessRun onnx_path)) (fs st))
       (out st ++ convert_failure_lines w onnx_path (CalledProcessError msg stderr))).
Proof.
  intros Hfail Hdec. unfold _convert_to_ort, call_writing. unfold_M.
  rewrite Hfail. simpl. destruct (String.eqb stderr ""); simpl.
  - done.
  - rewrite Hdec. by rewrite <-app_assoc.
Qed.

(** Error output that is not UTF-8 makes the handler raise, after its first
    line. *)
Lemma convert_to_ort_stderr_raises w onnx_path msg stderr e st :
  fails w (SubprocessRun onnx_path) = Some (CalledProcessError msg stderr) →
  stderr ≠ "" →
  utf8_decode stderr = Raise e →
  _convert_to_ort w onnx_path st
  = (Raise e,
     State (write_files (writes w (SubprocessRun onnx_path)) (fs st))
       (out st ++ ["Failed to convert " +:+ full_path w onnx_path
                   +:+ " to ORT: " +:+ msg])).
Proof.
  intros Hfail Hne Hdec. unfold _convert_to_ort, call_writing. unfold_M.
  rewrite Hfail. simpl.
  destruct (String.eqb_spec stderr ""); [done|]. simpl. by rewrite Hdec.
Qed.

Lemma convert_to_ort_raises w onnx_path e st :
  fails w (SubprocessRun onnx_path) = Some e →
  (∀ msg stderr, e ≠ CalledProcessError msg stderr) →
  _convert_to_ort w onnx_path st
  = (Raise e, State (write_files (writes w (SubprocessRun onnx_path)) (fs st)) (out st)).
Proof.
  intros Hfail Hne. unfold _convert_to_ort, call_writing. unfold_M.
  rewrite Hfail. destruct e; try done. by destruct (Hne msg stderr).
Qed.

(** Guarded file operations, with what follows them. *)
Lemma move_if_exists_then {B} src dst msg (k : M B) st :
  (has ← path_exists src;
   (if has : bool then move src dst else print msg);; k) st
  = k (State (rename_file src dst (fs st))
         (out st ++ match fs st !! src with Some _ => [] | None => [msg] end)).
Proof.
  unfold_M. unfold move, rename_file.
  destruct (fs st !! src) as [n|] eqn:E; simpl; rewrite ?E; simpl;
    rewrite ?app_nil_r; done.
Qed.

Lemma unlink_if_exists_then {B} name (k : M B) st :
  (has ← path_exists name; when has (unlink name);; k) st
  = k (State (delete name (fs st)) (out st)).
Proof.
  unfold_M. unfold unlink.
  destruct (fs st !! name) as [n|] eqn:E; simpl; rewrite ?E; simpl; [done|].
  rewrite delete_id by done. by destruct st.
Qed.

Lemma remove_onnx_then {B} name msg (k : M B) st :
  (has ← path_exists name;
   when (negb KEEP_ONNX && has) (print msg;; unlink name);; k) st
  = k (State (delete name (fs st))
         (out st ++ match fs st !! name with Some _ => [msg] | None => [] end)).
Proof.
  unfold_M. unfold unlink.
  destruct (fs st !! name) as [n|] eqn:E; simpl; rewrite ?E; simpl; [done|].
  rewrite delete_id by done. rewrite app_nil_r. by destruct st.
Qed.

Lemma catch_call_writing_ok w s (h : exn → option (M bool)) st :
  fails w s = None →
  catch (call_writing w s;; mret true) h st
  = (Ok true, State (write_files (writes w s) (fs st)) (out st)).
Proof. intros Hfail. unfold call_writing. unfold_M. by rewrite Hfail. Qed.

Lemma convert_to_ort_converted w onnx_path st :
  fails w (SubprocessRun onnx_path) = None →
  ∃ lines,
    _convert_to_ort w onnx_path st
    = (Ok tt,
       State (after_convert onnx_path
                (write_files (writes w (SubprocessRun onnx_path)) (fs st)))
         (out st ++ lines)).
Proof.
  intros Hfail. unfold _convert_to_ort.
  rewrite (bind_ok _ _ _ _ _ (catch_call_writing_ok w _ _ st Hfail)).
  cbv iota.
  rewrite move_if_exists_then, move_if_exists_then, unlink_if_exists_then,
    remove_onnx_then.
  unfold print, after_convert. simpl.
  eexists. rewrite <-!app_assoc. reflexivity.
Qed.

(** ** Validation of the variants *)

Lemma validate_cases w name st :
  ∃ lines,
    validate w name st
    = (match fails w (LearnValidate 1), fails w (LearnValidate 0) with
       | Some e, _ => Raise e
       | None, Some e => Raise e
       | None, None => Ok (native_results w)
       end, State (fs st) (out st ++ lines)).
Proof.
  unfold validate. rewrite print_then, call_then.
  destruct (fails w (LearnValidate 1)) as [e|]; [by eexists [_]|].
  rewrite call_then.
  destruct (fails w (LearnValidate 0)) as [e|]; [by eexists [_]|].
  unfold native_results.
  destruct (learn_validate w 1) as [valid_loss valid_err].
  destruct (learn_validate w 0) as [train_loss train_err].
  rewrite print_then. unfold_M. simpl. eexists [_; _].
  by rewrite <-app_assoc.
Qed.

Lemma validate_variant_cases w m ort_path variant st :
  ∃ lines,
    validate_variant w m (ort_path, variant) st
    = (match fs st !! ort_path, fails w (InferenceSession ort_path) with
       | Some _, Some e => Raise e
       | _, _ => Ok (add_variant w (fs st) m (ort_path, variant))
       end, State (fs st) (out st ++ lines)).
Proof.
  unfold validate_variant, add_variant. simpl.
  destruct (fs st !! ort_path) as [size|] eqn:Hfile.
  - destruct (fails w (InferenceSession ort_path)) as [e|] eqn:Hopen.
    + erewrite bind_raise; [by eexists|].
      apply validate_onnx_session_raises; [by eexists | done].
    + destruct (validate_onnx_found w ort_path variant st) as [lines Hv];
        [by eexists | done |].
      erewrite bind_ok by exact Hv. simpl.
      unfold_M. unfold stat_size. simpl. rewrite Hfile.
      by eexists.
  - erewrite bind_ok by (by apply validate_onnx_missing).
    simpl. unfold_M. by eexists.
Qed.

Lemma add_variant_dir_ext w dir1 dir2 m pv :
  dir1 !! pv.1 = dir2 !! pv.1 → add_variant w dir1 m pv = add_variant w dir2 m pv.
Proof. unfold add_variant. by intros ->. Qed.

(** The loop over the packages, when it ends normally. *)
Lemma validate_variants_Ok w vs m st m' st' :
  foldM (validate_variant w) vs m st = (Ok m', st') →
  m' = foldl (add_variant w (fs st)) m vs ∧ fs st' = fs st.
Proof.
  revert m st. induction vs as [|[p v] vs IH]; intros m st; simpl.
  - unfold_M. by intros [= <- <-].
  - destruct (validate_variant_cases w m p v st) as [lines Hv].
    destruct (fs st !! p) as [size|] eqn:Hfile;
      [destruct (fails w (InferenceSession p)) as [e|]|].
    + erewrite bind_raise by exact Hv. done.
    + erewrite bind_ok by exact Hv. intros [-> ->]%IH. done.
    + erewrite bind_ok by exact Hv. intros [-> ->]%IH. done.
Qed.

(** The loop over the packages ends normally when every session opens. *)
Lemma validate_variants_total w vs m st :
  (∀ p, fails w (InferenceSession p) = None) →
  ∃ lines,
    foldM (validate_variant w) vs m st
    = (Ok (foldl (add_variant w (fs st)) m vs), State (fs st) (out st ++ lines)).
Proof.
  intros Hopen. revert m st. induction vs as [|[p v] vs IH]; intros m st; simpl.
  - unfold_M. exists []. rewrite app_nil_r. by destruct st.
  - destruct (validate_variant_cases w m p v st) as [l1 Hv].
    rewrite Hopen in Hv.
    assert (validate_variant w m (p, v) st
            = (Ok (add_variant w (fs st) m (p, v)), State (fs st) (out st ++ l1)))
      as Hv' by (rewrite Hv; by destruct (fs st !! p)).
    erewrite bind_ok by exact Hv'.
    destruct (IH (add_variant w (fs st) m (p, v)) (State (fs st) (out st ++ l1)))
      as [l2 ->].
    simpl. exists (l1 ++ l2). by rewrite app_assoc.
Qed.

Lemma validate_all_Ok w st m st' :
  validate_all w st = (Ok m, st') →
  m = report w (fs st) ∧ fs st' = fs st.
Proof.
  unfold validate_all. rewrite print_then.
  destruct (validate_cases w "PyTorch (FP32)"
              (State (fs st) (out st ++ [newline +:+ "=== Validation Results ==="])))
    as [lines Hv].
  destruct (fails w (LearnValidate 1)) as [e|];
    [erewrite bind_raise by exact Hv; done|].
  destruct (fails w (LearnValidate 0)) as [e|];
    [erewrite bind_raise by exact Hv; done|].
  erewrite bind_ok by exact Hv.
  erewrite (bind_ok (lift _)) by reflexivity.
  intros [-> ->]%validate_variants_Ok. done.
Qed.

Lemma validate_all_total w st :
  (∀ s, (∀ n, s ≠ SubprocessRun n) → fails w s = None) →
  ∃ lines,
    validate_all w st = (Ok (report w (fs st)), State (fs st) (out st ++ lines)).
Proof.
  intros Hok. unfold validate_all. rewrite print_then.
  destruct (validate_cases w "PyTorch (FP32)"
              (State (fs st) (out st ++ [newline +:+ "=== Validation Results ==="])))
    as [l1 Hv].
  rewrite !Hok in Hv by done.
  erewrite bind_ok by exact Hv.
  erewrite (bind_ok (lift _)) by reflexivity.
  edestruct (validate_variants_total w ort_variants) as [l2 ->].
  { intros p. by apply Hok. }
  eexists (_ :: l1 ++ l2). unfold report, base_metrics.
  cbn [fs out]. by rewrite <-!app_assoc.
Qed.

(** ** The stages of [export] *)

Lemma unlink_if_exists name st :
  (has ← path_exists name; when has (unlink name)) st
  = (Ok tt, State (delete name (fs st)) (out st)).
Proof.
  unfold_M. unfold unlink.
  destruct (fs st !! name) as [n|] eqn:E; simpl; rewrite ?E; simpl; [done|].
  rewrite delete_id by done. by destruct st.
Qed.

Lemma export_fp32_cases w st :
  ∃ lines,
    export_fp32 w st
    = (match fails w TorchOnnxExport with Some e => Raise e | None => Ok tt end,
       State (write_files (writes w TorchOnnxExport) (fs st)) (out st ++ lines)).
Proof.
  unfold export_fp32. rewrite print_then. unfold call_writing. simpl.
  eexists [_]. by destruct (fails w TorchOnnxExport).
Qed.

Lemma convert_fp16_ok w st :
  fails w OnnxLoad = None → fails w ConvertFloat16 = None → fails w OnnxSave = None →
  ∃ lines,
    convert_fp16 w st
    = (Ok tt, State (write_files (writes w OnnxSave) (fs st)) (out st ++ lines)).
Proof.
  intros H1 H2 H3. unfold convert_fp16.
  rewrite print_then, call_then, H1, call_then, H2.
  unfold call_writing. rewrite H3. simpl. by eexists [_].
Qed.

Lemma quantize_int8_ok w st :
  fails w QuantPreProcess = None → fails w QuantizeDynamic = None →
  ∃ lines,
    quantize_int8 w st
    = (Ok tt,
       State (delete onnx_path_pre
                (write_files (writes w QuantizeDynamic)
                   (write_files (writes w QuantPreProcess) (fs st))))
         (out st ++ lines)).
Proof.
  intros H1 H2. unfold quantize_int8.
  rewrite print_then, call_writing_then, H1, call_writing_then, H2.
  rewrite unlink_if_exists. simpl. by eexists [_].
Qed.

Lemma quantize_int8_dynamic_raises w st e :
  fails w QuantPreProcess = None → fails w QuantizeDynamic = Some e →
  ∃ lines,
    quantize_int8 w st
    = (Raise e,
       State (write_files (writes w QuantizeDynamic)
                (write_files (writes w QuantPreProcess) (fs st)))
         (out st ++ lines)).
Proof.
  intros H1 H2. unfold quantize_int8.
  rewrite print_then, call_writing_then, H1, call_writing_then, H2.
  simpl. by eexists [_].
Qed.

Lemma quantize_int8_Ok_inv w st st' :
  quantize_int8 w st = (Ok tt, st') → fs st' !! onnx_path_pre = None.
Proof.
  unfold quantize_int8.
  rewrite print_then, call_writing_then.
  destruct (fails w QuantPreProcess); [done|].
  rewrite call_writing_then.
  destruct (fails w QuantizeDynamic); [done|].
  rewrite unlink_if_exists. intros [= <-]. simpl. apply lookup_delete_eq.
Qed.

(** One iteration of the packaging loop, when the converter can only fail
    by a non-zero exit. *)
Lemma convert_step_ok w onnx_path st :
  (∀ e, fails w (SubprocessRun onnx_path) = Some e →
        ∃ msg stderr, e = CalledProcessError msg stderr
                      ∧ utf8_decode stderr = Ok stderr) →
  ∃ lines,
    (present ← path_exists onnx_path;
     when present (_convert_to_ort w onnx_path)) st
    = (Ok tt, State (convert_step_dir w onnx_path (fs st)) (out st ++ lines)).
Proof.
  intros Hguard. unfold convert_step_dir.
  unfold mbind at 1, M_bind at 1, bind at 1, path_exists at 1.
  destruct (fs st !! onnx_path) as [n|] eqn:Hfile; simpl.
  - destruct (fails w (SubprocessRun onnx_path)) as [e|] eqn:Hfail.
    + destruct (Hguard e eq_refl) as (msg & stderr & -> & Hdec).
      rewrite (convert_to_ort_nonzero_exit _ _ msg stderr) by done.
      by eexists.
    + by apply convert_to_ort_converted.
  - exists []. unfold_M. rewrite app_nil_r. by destruct st.
Qed.

Lemma convert_all_to_ort_ok w st :
  (∀ n e, fails w (SubprocessRun n) = Some e →
          ∃ msg stderr, e = CalledProcessError msg stderr
                        ∧ utf8_decode stderr = Ok stderr) →
  ∃ lines,
    convert_all_to_ort w st
    = (Ok tt,
       State (convert_step_dir w onnx_path_int8
                (convert_step_dir w onnx_path_fp16
                   (convert_step_dir w onnx_path_fp32 (fs st))))
         (out st ++ lines)).
Proof.
  intros Hguard. unfold convert_all_to_ort. rewrite print_then. simpl.
  edestruct (convert_step_ok w onnx_path_fp32) as [l1 H1]; [apply Hguard|].
  erewrite bind_ok by exact H1. clear H1.
  edestruct (convert_step_ok w onnx_path_fp16) as [l2 H2]; [apply Hguard|].
  erewrite bind_ok by exact H2. clear H2.
  edestruct (convert_step_ok w onnx_path_int8) as [l3 H3]; [apply Hguard|].
  erewrite bind_ok by exact H3. clear H3.
  unfold_M. simpl. eexists (_ :: l1 ++ l2 ++ l3). by rewrite <-!app_assoc.
Qed.

Lemma grows_refl m : grows m m.
Proof. by intros k. Qed.

Lemma grows_write_files l m : grows m (write_files l m).
Proof. intros k. apply write_files_lookup_mono. Qed.

Lemma write_config_grows w st r st' :
  write_config w st = (r, st') → grows (fs st) (fs st').
Proof.
  unfold write_config. destruct (w_config_exists w); simpl.
  - rewrite print_then, call_then.
    destruct (fails w JsonLoad); [intros [= <- <-]; apply grows_refl|].
    unfold call_writing. simpl.
    destruct (fails w JsonDump); intros [= <- <-]; apply grows_write_files.
  - unfold_M. intros [= <- <-]. apply grows_refl.
Qed.

Lemma write_readme_grows w m st r st' :
  write_readme w m st = (r, st') → grows (fs st) (fs st').
Proof.
  unfold write_readme, lift.
  unfold mbind at 1, M_bind at 1, bind at 1.
  destruct (get_notes _ _ m) as [text|e]; [|intros [= <- <-]; apply grows_refl].
  rewrite print_then. unfold write_text. simpl.
  destruct (fails w WriteText); intros [= <- <-]; simpl; [apply grows_write_files|].
  intros k Hk. destruct (decide ("README.md" = k)) as [<-|Hne].
  - rewrite lookup_insert_eq. by eexists.
  - by rewrite lookup_insert_ne.
Qed.

Lemma get_notes_total name labels m : ∃ text, get_notes name labels m = Ok text.
Proof.
  destruct (notes_lines_total name labels m) as (rows & Hlines & _).
  unfold get_notes. rewrite Hlines. by eexists.
Qed.

Lemma report_stage_ok w m st :
  fails w JsonLoad = None → fails w JsonDump = None → fails w WriteText = None →
  ∃ st', (write_config w;; write_readme w m;; mret m) st = (Ok m, st')
         ∧ grows (fs st) (fs st').
Proof.
  intros H1 H2 H3.
  destruct (write_config w st) as [r1 st1] eqn:Hc.
  assert (r1 = Ok tt) as ->.
  { revert Hc. unfold write_config. destruct (w_config_exists w); simpl.
    - rewrite print_then, call_then, H1. unfold call_writing. rewrite H2.
      by intros [= <- _].
    - unfold_M. by intros [= <- _]. }
  erewrite bind_ok by exact Hc.
  destruct (write_readme w m st1) as [r2 st2] eqn:Hr.
  assert (r2 = Ok tt) as ->.
  { revert Hr. unfold write_readme, lift.
    unfold mbind at 1, M_bind at 1, bind at 1.
    destruct (get_notes_total (w_model_name w) (w_labels w) m) as [text ->].
    rewrite print_then. unfold write_text. rewrite H3. by intros [= <- _]. }
  erewrite bind_ok by exact Hr.
  exists st2. split; [done|].
  intros k Hk. eapply write_readme_grows; [exact Hr|].
  eapply write_config_grows; [exact Hc|done].
Qed.

(** ** The whole run *)

(** The directory is empty when the preparation returns, and also when only
    [mkdir] raised. *)
Lemma recreate_dir_reset w st r st0 :
  fails w Rmtree = None → recreate_dir w st = (r, st0) → fs st0 = ∅.
Proof.
  intros Hrm. unfold recreate_dir, dir_exists, rmtree, call. unfold_M. rewrite Hrm.
  case_bool_decide as Hfiles; simpl.
  - destruct (fails w Mkdir); by intros [= _ <-].
  - destruct (w_empty_dir_exists w); simpl;
      destruct (fails w Mkdir); by intros [= _ <-].
Qed.

Lemma prepare_reset w st r st0 :
  reaches_reset w → prepare w st = (r, st0) → fs st0 = ∅.
Proof.
  intros (H1 & H2 & H3). unfold prepare.
  rewrite print_then, call_then, H1, call_then, H2.
  by apply recreate_dir_reset.
Qed.

Lemma prepare_Ok_inv w st st0 : prepare w st = (Ok tt, st0) → fs st0 = ∅.
Proof.
  unfold prepare. rewrite print_then, call_then.
  destruct (fails w ModelEval); [done|]. rewrite call_then.
  destruct (fails w TorchRandn); [done|].
  unfold recreate_dir, dir_exists, rmtree, call. unfold_M.
  case_bool_decide as Hfiles; simpl.
  - destruct (fails w Rmtree); [done|].
    destruct (fails w Mkdir); by intros [= <-].
  - destruct (w_empty_dir_exists w); simpl;
      [destruct (fails w Rmtree); [done|]|];
      destruct (fails w Mkdir); by intros [= <-].
Qed.

Lemma prepare_ok w st :
  fails w ModelEval = None → fails w TorchRandn = None →
  fails w Rmtree = None → fails w Mkdir = None →
  prepare w st
  = (Ok tt, State ∅ (out st ++ ["Exporting model '" +:+ w_model_name w +:+ "'..."])).
Proof.
  intros H1 H2 H3 H4.
  destruct (prepare w st) as [r st0] eqn:Hp.
  pose proof (prepare_reset w st r st0 (conj H1 (conj H2 H3)) Hp) as Hfs.
  revert Hp. unfold prepare. rewrite print_then, call_then, H1, call_then, H2.
  unfold recreate_dir, dir_exists, rmtree, call. unfold_M. rewrite H3, H4.
  destruct (bool_decide _ || _); simpl; intros [= <- <-]; simpl in *; by rewrite ?Hfs.
Qed.

(** The trace and the result of [export] agree: the run is DONE when
    [export] returns, FAILED when it raises. *)
Lemma export_trace_outcome w st :
  last (export_trace w st)
  = Some (match (export w st).1 with Ok _ => DONE | Raise _ => FAILED end).
Proof.
  unfold export_trace, export. unfold_M.
  destruct (prepare w st) as [[[]|e] st0]; [|done].
  destruct (export_fp32 w st0) as [[[]|e] st1]; [|done].
  destruct (convert_fp16 w st1) as [[[]|e] st1']; [|done].
  destruct (quantize_int8 w st1') as [[[]|e] st2]; [|done].
  destruct (convert_all_to_ort w st2) as [[[]|e] st3]; [|done].
  destruct (validate_all w st3) as [[m|e] st4]; [|done].
  destruct (write_config w st4) as [[[]|e] st4']; [|done].
  destruct (write_readme w m st4') as [[[]|e] st5]; done.
Qed.

(** When only the converter fails, by non-zero exits with error output that
    is text, every stage returns. *)
Lemma export_stages_ok w st :
  only_converter_exits_fail w →
  converter_stderr_decodes w →
  ∃ st1 st2 st3 st4 st5,
    (prepare w;; export_fp32 w) st = (Ok tt, st1)
    ∧ (convert_fp16 w;; quantize_int8 w) st1 = (Ok tt, st2)
    ∧ convert_all_to_ort w st2 = (Ok tt, st3)
    ∧ validate_all w st3 = (Ok (report w (packaged_dir w)), st4)
    ∧ (write_config w;; write_readme w (report w (packaged_dir w));;
       mret (report w (packaged_dir w))) st4
      = (Ok (report w (packaged_dir w)), st5)
    ∧ grows (packaged_dir w) (fs st5).
Proof.
  intros Honly Hdec.
  assert (∀ s, (∀ n, s ≠ SubprocessRun n) → fails w s = None) as Hok.
  { intros s Hs. destruct (fails w s) as [e|] eqn:Hf; [|done].
    destruct (Honly s e Hf) as (n & ? & ? & -> & _). by destruct (Hs n). }
  assert (∀ n e, fails w (SubprocessRun n) = Some e →
                 ∃ msg stderr, e = CalledProcessError msg stderr
                               ∧ utf8_decode stderr = Ok stderr) as Hguard.
  { intros n e Hf. destruct (Honly _ e Hf) as (? & msg & stderr & _ & ->).
    exists msg, stderr. split; [done|]. by eapply Hdec. }
  pose proof (prepare_ok w st) as Hprep. rewrite !Hok in Hprep by done.
  specialize (Hprep eq_refl eq_refl eq_refl eq_refl).
  erewrite bind_ok by exact Hprep.
  set (st0 := State ∅ _).
  destruct (export_fp32_cases w st0) as [l1 H1]. rewrite Hok in H1 by done.
  destruct (convert_fp16_ok w (State (write_files (writes w TorchOnnxExport) (fs st0))
                                 (out st0 ++ l1))) as [l2 H2]; try by apply Hok.
  destruct (quantize_int8_ok w (State (write_files (writes w OnnxSave)
                                         (write_files (writes w TorchOnnxExport) (fs st0)))
                                  ((out st0 ++ l1) ++ l2))) as [l3 H3];
    try by apply Hok.
  simpl in H2, H3.
  match type of H3 with _ = (_, ?s) => set (st2 := s) in * end.
  destruct (convert_all_to_ort_ok w st2 Hguard) as [l4 H4].
  match type of H4 with _ = (_, ?s) => set (st3 := s) in * end.
  destruct (validate_all_total w st3 Hok) as [l5 H5].
  match type of H5 with _ = (_, ?s) => set (st4 := s) in * end.
  destruct (report_stage_ok w (report w (fs st3)) st4) as (st5 & H6 & Hgrow);
    try by apply Hok.
  eexists _, st2, st3, st4, st5. split_and!.
  - exact H1.
  - erewrite bind_ok by exact H2. exact H3.
  - exact H4.
  - exact H5.
  - exact H6.
  - exact Hgrow.
Qed.

Lemma export_ok w st :
  only_converter_exits_fail w →
  converter_stderr_decodes w →
  ∃ st', export w st = (Ok (report w (packaged_dir w)), st')
         ∧ grows (packaged_dir w) (fs st').
Proof.
  intros Honly Hdec.
  destruct (export_stages_ok w st Honly Hdec) as (st1 & st2 & st3 & st4 & st5 &
    H1 & H2 & H3 & H4 & H5 & Hgrow).
  exists st5. split; [|done]. unfold export.
  rewrite <-(bind_assoc (prepare w)).
  erewrite bind_ok by exact H1.
  rewrite <-(bind_assoc (convert_fp16 w)).
  erewrite bind_ok by exact H2.
  erewrite bind_ok by exact H3.
  erewrite bind_ok by exact H4.
  exact H5.
Qed.

(** Whenever [export] returns metrics, they are the report of the directory
    at validation time, and every file of that directory is still there at
    the end. *)
Lemma export_Ok_inv w st m st' :
  export w st = (Ok m, st') →
  ∃ dir, m = report w dir ∧ grows dir (fs st').
Proof.
  unfold export.
  intros (_ & s0 & _ & H)%bind_Ok_inv.
  apply bind_Ok_inv in H as (_ & s1 & _ & H).
  apply bind_Ok_inv in H as (_ & s2 & _ & H).
  apply bind_Ok_inv in H as (_ & s3 & _ & H).
  apply bind_Ok_inv in H as (_ & s4 & _ & H).
  apply bind_Ok_inv in H as (m' & s5 & Hval & H).
  apply validate_all_Ok in Hval as [-> Hfs].
  apply bind_Ok_inv in H as (u1 & s6 & Hc & H).
  apply bind_Ok_inv in H as (u2 & s7 & Hr & H).
  unfold mret, M_ret, ret in H. injection H as Hm Hst. subst m st'.
  exists (fs s4). split; [done|].
  intros k Hk. eapply write_readme_grows; [exact Hr|].
  eapply write_config_grows; [exact Hc|]. by rewrite Hfs.
Qed.

(** ** The keys of the report *)

Lemma dict_keys_set_elem {V} (d : list (string * V)) k v k' :
  k' ∈ dict_keys (dict_set d k v) ↔ k' ∈ dict_keys d ∨ k' = k.
Proof.
  rewrite dict_keys_set. destruct (decide (k ∈ dict_keys d)) as [Hin|Hnin].
  - split; [by left | by intros [?| ->]].
  - rewrite elem_of_app, list_elem_of_singleton. done.
Qed.

Lemma dict_keys_set_same {V1 V2} (d1 : list (string * V1)) (d2 : list (string * V2))
    k v1 v2 :
  dict_keys d1 = dict_keys d2 →
  dict_keys (dict_set d1 k v1) = dict_keys (dict_set d2 k v2).
Proof. intros Heq. by rewrite !dict_keys_set, Heq. Qed.

Lemma add_variant_same_keys w dir m pv :
  same_keys m → same_keys (add_variant w dir m pv).
Proof.
  intros [H1 H2]. unfold add_variant.
  destruct (dir !! pv.1) as [size|]; [|done].
  split; simpl; by apply dict_keys_set_same.
Qed.

Lemma report_same_keys w dir : same_keys (report w dir).
Proof.
  unfold report.
  assert (same_keys (base_metrics w)) as Hbase by done.
  revert Hbase. generalize (base_metrics w).
  induction ort_variants as [|pv vs IH]; intros m Hm; simpl; [done|].
  by apply IH, add_variant_same_keys.
Qed.

Lemma add_variants_keys w dir vs m k :
  k ∈ dict_keys (results (foldl (add_variant w dir) m vs))
  ↔ k ∈ dict_keys (results m) ∨ ∃ p, (p, k) ∈ vs ∧ is_Some (dir !! p).
Proof.
  revert m. induction vs as [|[p v] vs IH]; intros m; simpl.
  - split; [by left|]. intros [?|(p & ?%elem_of_nil & _)]; done.
  - rewrite IH. unfold add_variant. simpl.
    destruct (dir !! p) as [size|] eqn:Hp; simpl.
    + rewrite dict_keys_set_elem. split.
      * intros [[?| ->]|(p' & Hin & Hsome)]; [by left|right|right].
        -- exists p. split; [left | by rewrite Hp].
        -- exists p'. split; [by right | done].
      * intros [?|(p' & [[= -> ->]|Hin]%elem_of_cons & Hsome)].
        -- by left; left.
        -- by left; right.
        -- right. by exists p'.
    + split.
      * intros [?|(p' & Hin & Hsome)]; [by left|right].
        exists p'. split; [by right | done].
      * intros [?|(p' & [[= -> ->]|Hin]%elem_of_cons & Hsome)].
        -- by left.
        -- rewrite Hp in Hsome. by destruct Hsome.
        -- right. by exists p'.
Qed.

Lemma same_keys_complete m k :
  same_keys m → k ∈ dict_keys (results m) → complete k m.
Proof. intros [H1 H2] Hk. unfold complete. by rewrite <-H2, <-H1. Qed.

Lemma same_keys_absent m k :
  same_keys m → k ∉ dict_keys (results m) → absent k m.
Proof. intros [H1 H2] Hk. unfold absent. by rewrite <-H2, <-H1. Qed.

(** A packaged variant is in the report exactly when its package is in the
    directory that is validated. *)
Lemma report_has_variant w dir p v :
  (p, v) ∈ ort_variants →
  v ∈ dict_keys (results (report w dir)) ↔ is_Some (dir !! p).
Proof.
  intros Hin. unfold report. rewrite add_variants_keys. split.
  - intros [Hbase|(p' & Hin' & Hsome)].
    + exfalso. revert Hin Hbase. unfold ort_variants, base_metrics. simpl.
      rewrite !elem_of_cons.
      intros [[= _ ->]|[[= _ ->]|[[= _ ->]|[]%elem_of_nil]]]
             [[= ]|[]%elem_of_nil].
    + assert (p' = p) as ->; [|done].
      revert Hin Hin'. unfold ort_variants.
      rewrite !elem_of_cons.
      intros [[= -> ->]|[[= -> ->]|[[= -> ->]|[]%elem_of_nil]]]
             [[= ->]|[[= ->]|[[= ->]|[]%elem_of_nil]]]; done.
  - intros Hsome. right. by exists p.
Qed.

(** ** What fails the run and what does not *)

(** An exception of the FP16 conversion or of the quantization leaves the
    stage. *)
Lemma precision_stage_raises w st :
  (∃ s e, s ∈ [OnnxLoad; ConvertFloat16; OnnxSave; QuantPreProcess; QuantizeDynamic]
          ∧ fails w s = Some e) →
  ∃ e st', (convert_fp16 w;; quantize_int8 w) st = (Raise e, st').
Proof.
  intros (s & e & Hs & Hf).
  unfold convert_fp16, quantize_int8, call, call_writing. unfold_M. simpl.
  destruct (fails w OnnxLoad) as [e1|] eqn:H1; [by eexists _, _|].
  destruct (fails w ConvertFloat16) as [e2|] eqn:H2; [by eexists _, _|].
  destruct (fails w OnnxSave) as [e3|] eqn:H3; [by eexists _, _|].
  destruct (fails w QuantPreProcess) as [e4|] eqn:H4; [by eexists _, _|].
  destruct (fails w QuantizeDynamic) as [e5|] eqn:H5; [by eexists _, _|].
  exfalso. revert Hs. rewrite !elem_of_cons.
  intros [->|[->|[->|[->|[->|[]%elem_of_nil]]]]]; congruence.
Qed.

(** C3, as the exporter does it: the run cannot fail through a non-zero
    exit of the converter whose error output is empty or text, a missing
    converter output or package, or an exception of inference in a batch
    loop: when no other external call raises, the run goes through every
    stage and is DONE. Once the baseline export has succeeded, an exception
    of the FP16 conversion or of the quantization ends the run in FAILED. *)
Theorem export_done_when_only_converter_fails w st :
  (only_converter_exits_fail w →
   converter_stderr_decodes w →
   export_trace w st
   = [INIT; BASELINE_EXPORTED; PRECISION_VARIANTS_EXPORTED; PACKAGED; VALIDATED;
      REPORTED; DONE]
   ∧ ∃ st', export w st = (Ok (report w (packaged_dir w)), st'))
  ∧ (∀ st1,
       (prepare w;; export_fp32 w) st = (Ok tt, st1) →
       (∃ s e, s ∈ [OnnxLoad; ConvertFloat16; OnnxSave; QuantPreProcess; QuantizeDynamic]
               ∧ fails w s = Some e) →
       export_trace w st = [INIT; BASELINE_EXPORTED; FAILED]
       ∧ ∃ e st', export w st = (Raise e, st')).
Proof.
  split.
  - intros Honly Hdec. split.
    + destruct (export_stages_ok w st Honly Hdec) as (st1 & st2 & st3 & st4 & st5 &
        H1 & H2 & H3 & H4 & H5 & _).
      unfold export_trace. rewrite H1, H2, H3, H4.
      revert H5. unfold_M.
      destruct (write_config w st4) as [[[]|e] s]; [|done].
      by destruct (write_readme w _ s) as [[[]|e] s'].
    + destruct (export_ok w st Honly Hdec) as (st' & Hex & _). by exists st'.
  - intros st1 Hbase Hfail.
    assert (export_trace w st = [INIT; BASELINE_EXPORTED; FAILED]) as Htrace.
    { unfold export_trace. rewrite Hbase.
      edestruct (precision_stage_raises w) as (e & st' & ->); [exact Hfail|].
      done. }
    split; [done|].
    pose proof (export_trace_outcome w st) as Hlast.
    rewrite Htrace in Hlast. simpl in Hlast.
    destruct (export w st) as [[m|e] st']; [done|]. by exists e, st'.
Qed.

Lemma world_int8_fails_only_converter : only_converter_exits_fail world_int8_fails.
Proof.
  intros s e. destruct s; simpl; try discriminate.
  destruct (String.eqb onnx_name onnx_path_int8); [|discriminate].
  intros [= <-]. by eexists _, _, _.
Qed.

Lemma world_int8_fails_stderr_decodes : converter_stderr_decodes world_int8_fails.
Proof.
  intros n msg stderr. simpl.
  destruct (String.eqb n onnx_path_int8); [|discriminate].
  by intros [= <- <-].
Qed.

Lemma export_done_when_only_converter_fails_witness :
  (export_trace world_int8_fails stale_state
   = [INIT; BASELINE_EXPORTED; PRECISION_VARIANTS_EXPORTED; PACKAGED; VALIDATED;
      REPORTED; DONE]
   ∧ ∃ st', export world_int8_fails stale_state
            = (Ok (report world_int8_fails (packaged_dir world_int8_fails)), st'))
  ∧ (export_trace world_quantize_fails stale_state
     = [INIT; BASELINE_EXPORTED; FAILED]
     ∧ ∃ e st', export world_quantize_fails stale_state = (Raise e, st')).
Proof.
  split.
  - apply (export_done_when_only_converter_fails world_int8_fails stale_state).
    + intros s e. destruct s; simpl; try discriminate.
      destruct (String.eqb onnx_name onnx_path_int8); [|discriminate].
      intros [= <-]. by eexists _, _, _.
    + intros n msg stderr. simpl.
      destruct (String.eqb n onnx_path_int8); [|discriminate].
      intros [= <- <-]. reflexivity.
  - destruct (export_done_when_only_converter_fails world_quantize_fails stale_state)
      as [_ Hfailed].
    eapply Hfailed.
    + vm_compute. reflexivity.
    + exists QuantizeDynamic, (RuntimeError "quantization failed").
      split; [|reflexivity]. by apply (bool_decide_unpack _).
Defined.

(** The baseline export succeeds, dynamic quantization raises, and the run
    is FAILED: [export] raises the exception of [quantize_dynamic]. So does
    a run in which everything is packaged and the session of one package
    cannot be opened. *)
Lemma export_fails_after_baseline_counterexample :
  export_trace world_quantize_fails stale_state = [INIT; BASELINE_EXPORTED; FAILED]
  ∧ (export world_quantize_fails stale_state).1
    = Raise (RuntimeError "quantization failed")
  ∧ export_trace world_session_fails stale_state
    = [INIT; BASELINE_EXPORTED; PRECISION_VARIANTS_EXPORTED; PACKAGED; FAILED]
  ∧ (export world_session_fails stale_state).1
    = Raise (RuntimeError "invalid model").
Proof. split_and!; vm_compute; reflexivity. Qed.

(** ** Quantization and its intermediate file *)

(** C5, as the exporter does it: when dynamic quantization returns, the
    pre-processed file is removed right after it, and the quantization stage
    never returns with the file in place; when dynamic quantization raises,
    the exception leaves the stage and the file written by the
    pre-processing stays. *)
Theorem quantize_int8_removes_pre_when_it_returns w st :
  (∀ st', quantize_int8 w st = (Ok tt, st') → fs st' !! onnx_path_pre = None)
  ∧ (fails w QuantPreProcess = None → fails w QuantizeDynamic = None →
     ∃ st', quantize_int8 w st = (Ok tt, st') ∧ fs st' !! onnx_path_pre = None)
  ∧ (∀ e, fails w QuantPreProcess = None → fails w QuantizeDynamic = Some e →
     onnx_path_pre ∈ (writes w QuantPreProcess).*1 →
     ∃ st', quantize_int8 w st = (Raise e, st') ∧ is_Some (fs st' !! onnx_path_pre)).
Proof.
  split_and!.
  - apply quantize_int8_Ok_inv.
  - intros H1 H2. destruct (quantize_int8_ok w st H1 H2) as [lines Hq].
    eexists. split; [exact Hq|]. apply lookup_delete_eq.
  - intros e H1 H2 Hpre.
    destruct (quantize_int8_dynamic_raises w st e H1 H2) as [lines Hq].
    eexists. split; [exact Hq|]. simpl.
    by apply write_files_lookup_mono, write_files_lookup_written.
Qed.

Lemma quantize_int8_removes_pre_when_it_returns_witness :
  (∃ st', quantize_int8 world_all_ok stale_state = (Ok tt, st')
          ∧ fs st' !! onnx_path_pre = None)
  ∧ (∃ st', quantize_int8 world_quantize_fails stale_state
            = (Raise (RuntimeError "quantization failed"), st')
            ∧ is_Some (fs st' !! onnx_path_pre)).
Proof.
  split.
  - apply (quantize_int8_removes_pre_when_it_returns world_all_ok stale_state);
      reflexivity.
  - apply (quantize_int8_removes_pre_when_it_returns world_quantize_fails stale_state);
      [reflexivity | reflexivity | by apply (bool_decide_unpack _)].
Defined.

(** Dynamic quantization raises after the pre-processing has written its
    file: the file is still in the export directory when [export] ends. *)
Lemma pre_file_left_on_failure_counterexample :
  (export world_quantize_fails stale_state).1
  = Raise (RuntimeError "quantization failed")
  ∧ fs (export world_quantize_fails stale_state).2 !! onnx_path_pre = Some 4100%N.
Proof. split; vm_compute; reflexivity. Qed.

(** ** Missing packages and the keys of the report *)

(** C6: for a package path that does not exist, [validate_onnx] returns
    [None] without raising, and the variant of a missing package is in none
    of the three maps of the metrics [export] returns. *)
Theorem missing_package_absent_from_report w ort_path variant :
  (∀ st, fs st !! ort_path = None →
     validate_onnx w ort_path variant st
     = (Ok None,
        State (fs st) (out st ++ ["[" +:+ variant +:+ "] Skipped (file not found)"])))
  ∧ (∀ st m st',
       (ort_path, variant) ∈ ort_variants →
       export w st = (Ok m, st') →
       fs st' !! ort_path = None →
       absent variant m).
Proof.
  split.
  - intros st. apply validate_onnx_missing.
  - intros st m st' Hin Hex Hnone.
    apply export_Ok_inv in Hex as (dir & -> & Hgrow).
    apply same_keys_absent; [apply report_same_keys|].
    rewrite (report_has_variant w dir ort_path variant Hin).
    intros Hsome%Hgrow. rewrite Hnone in Hsome. by destruct Hsome.
Qed.

Lemma missing_package_absent_from_report_witness :
  ∃ m st',
    export world_int8_fails stale_state = (Ok m, st')
    ∧ fs st' !! "model_int8.ort" = None
    ∧ absent "ORT (Int8)" m.
Proof.
  destruct (export world_int8_fails stale_state) as [[m|e] st'] eqn:Hex;
    [|vm_compute in Hex; discriminate Hex].
  exists m, st'.
  assert (fs st' !! "model_int8.ort" = None) as Hnone.
  { pose proof Hex as Hval. vm_compute in Hval.
    injection Hval as _ <-. reflexivity. }
  split; [reflexivity|]. split; [exact Hnone|].
  apply (missing_package_absent_from_report world_int8_fails
           "model_int8.ort" "ORT (Int8)") with (st := stale_state) (st' := st').
  - by apply (bool_decide_unpack _).
  - exact Hex.
  - exact Hnone.
Defined.

(** C7: in the metrics [export] returns, the results, the error rates and
    the sizes have the same variants, so a variant of the report has an entry
    in each of them; the variant of a package that is missing is in none. *)
Theorem report_entries_coincide w st m st' :
  export w st = (Ok m, st') →
  dict_keys (results m) = dict_keys (error_rates m)
  ∧ dict_keys (error_rates m) = dict_keys (sizes_mb m)
  ∧ (∀ variant, variant ∈ dict_keys (results m) → complete variant m)
  ∧ (∀ ort_path variant,
       (ort_path, variant) ∈ ort_variants →
       fs st' !! ort_path = None → absent variant m).
Proof.
  intros Hex.
  destruct (export_Ok_inv w st m st' Hex) as (dir & -> & Hgrow).
  pose proof (report_same_keys w dir) as Hsame.
  split_and!.
  - apply Hsame.
  - apply Hsame.
  - intros variant. by apply same_keys_complete.
  - intros ort_path variant Hin Hnone.
    apply same_keys_absent; [done|].
    rewrite (report_has_variant w dir ort_path variant Hin).
    intros Hsome%Hgrow. rewrite Hnone in Hsome. by destruct Hsome.
Qed.

Lemma report_entries_coincide_witness :
  ∃ m st',
    export world_all_ok stale_state = (Ok m, st')
    ∧ dict_keys (results m) = dict_keys (error_rates m)
    ∧ dict_keys (error_rates m) = dict_keys (sizes_mb m)
    ∧ (∀ variant, variant ∈ dict_keys (results m) → complete variant m)
    ∧ (∀ ort_path variant,
         (ort_path, variant) ∈ ort_variants →
         fs st' !! ort_path = None → absent variant m).
Proof.
  destruct (export world_all_ok stale_state) as [[m|e] st'] eqn:Hex;
    [|vm_compute in Hex; discriminate Hex].
  exists m, st'. split; [reflexivity|].
  exact (report_entries_coincide world_all_ok stale_state m st' Hex).
Defined.

(** ** Isolation of a converter failure *)

Lemma convert_step_dir_preserves w onnx_path (m : gmap string N) k :
  k ∉ removed_by_convert onnx_path →
  is_Some (m !! k) → is_Some (convert_step_dir w onnx_path m !! k).
Proof.
  intros Hk Hsome. unfold convert_step_dir.
  destruct (m !! onnx_path); [|done].
  destruct (fails w (SubprocessRun onnx_path)).
  - by apply write_files_lookup_mono.
  - by apply after_convert_preserves, write_files_lookup_mono.
Qed.

Lemma convert_step_dir_produces w onnx_path (m : gmap string N) :
  is_Some (m !! onnx_path) →
  fails w (SubprocessRun onnx_path) = None →
  generated_ort onnx_path ∈ (writes w (SubprocessRun onnx_path)).*1 →
  target_ort onnx_path ∉
    [generated_config onnx_path; unopt_config onnx_path; onnx_path] →
  is_Some (convert_step_dir w onnx_path m !! target_ort onnx_path).
Proof.
  intros [n Hn] Hfail Hgen Hk. unfold convert_step_dir. rewrite Hn, Hfail.
  by apply after_convert_target, write_files_lookup_written.
Qed.

Lemma exported_dir_has w onnx_path producer variant :
  (onnx_path, producer, variant) ∈ pipeline_variants →
  onnx_path ∈ (writes w producer).*1 →
  is_Some (exported_dir w !! onnx_path).
Proof.
  unfold pipeline_variants, exported_dir. rewrite !elem_of_cons.
  intros [[= -> -> ->]|[[= -> -> ->]|[[= -> -> ->]|[]%elem_of_nil]]] Hw;
    (rewrite lookup_delete_ne by done);
    repeat (first [ by apply write_files_lookup_written
                  | apply write_files_lookup_mono ]).
Qed.

Lemma packaged_dir_has w onnx_path producer variant :
  (onnx_path, producer, variant) ∈ pipeline_variants →
  packages w (onnx_path, producer, variant) = true →
  is_Some (packaged_dir w !! target_ort onnx_path).
Proof.
  intros Hin Hpack.
  assert (is_Some (exported_dir w !! onnx_path)) as Hsrc.
  { eapply exported_dir_has; [exact Hin|].
    unfold packages in Hpack. apply andb_true_iff in Hpack as [Hw _].
    by apply bool_decide_eq_true in Hw. }
  unfold packages in Hpack.
  apply andb_true_iff in Hpack as [_ [Hfail Hgen]%andb_true_iff].
  apply bool_decide_eq_true in Hgen.
  destruct (fails w (SubprocessRun onnx_path)) eqn:Hf; [done|]. clear Hfail.
  revert Hin Hsrc Hgen Hf. unfold pipeline_variants, packaged_dir.
  rewrite !elem_of_cons.
  intros [[= -> -> ->]|[[= -> -> ->]|[[= -> -> ->]|[]%elem_of_nil]]] Hsrc Hgen Hf.
  - do 2 (apply convert_step_dir_preserves; [by apply (bool_decide_unpack _)|]).
    apply convert_step_dir_produces; [done..|by apply (bool_decide_unpack _)].
  - apply convert_step_dir_preserves; [by apply (bool_decide_unpack _)|].
    apply convert_step_dir_produces; [|done..|by apply (bool_decide_unpack _)].
    apply convert_step_dir_preserves; [by apply (bool_decide_unpack _)|done].
  - apply convert_step_dir_produces; [|done..|by apply (bool_decide_unpack _)].
    do 2 (apply convert_step_dir_preserves; [by apply (bool_decide_unpack _)|]).
    done.
Qed.

Lemma pipeline_variant_validated onnx_path producer variant :
  (onnx_path, producer, variant) ∈ pipeline_variants →
  (target_ort onnx_path, variant) ∈ ort_variants.
Proof.
  unfold pipeline_variants, ort_variants, target_ort. rewrite !elem_of_cons.
  intros [[= -> -> ->]|[[= -> -> ->]|[[= -> -> ->]|[]%elem_of_nil]]];
    [left | right; left | right; right; left]; done.
Qed.

(** C4, as the exporter does it: when the converter exits non-zero on one
    ONNX file and its error output is empty or text, [_convert_to_ort]
    prints the failure and returns; and when no other external call of the
    run raises, [export] goes on and returns its metrics, in which every
    variant whose own export and conversion work has its results, its error
    rate and its size, and whose package is in the export directory. *)
Theorem converter_failure_is_isolated w failing msg stderr st :
  fails w (SubprocessRun failing) = Some (CalledProcessError msg stderr) →
  utf8_decode stderr = Ok stderr →
  _convert_to_ort w failing st
  = (Ok tt,
     State (write_files (writes w (SubprocessRun failing)) (fs st))
       (out st ++ convert_failure_lines w failing (CalledProcessError msg stderr)))
  ∧ (only_converter_exits_fail w →
     converter_stderr_decodes w →
     ∃ m st',
       export w st = (Ok m, st')
       ∧ ∀ onnx_path producer variant,
           (onnx_path, producer, variant) ∈ pipeline_variants →
           packages w (onnx_path, producer, variant) = true →
           complete variant m ∧ is_Some (fs st' !! target_ort onnx_path)).
Proof.
  intros Hfail Htext. split.
  - by apply convert_to_ort_nonzero_exit.
  - intros Honly Hdec.
    destruct (export_ok w st Honly Hdec) as (st' & Hex & Hgrow).
    eexists _, st'. split; [exact Hex|].
    intros onnx_path producer variant Hin Hpack.
    pose proof (packaged_dir_has w _ _ _ Hin Hpack) as Hsome.
    split; [|by apply Hgrow].
    apply same_keys_complete; [apply report_same_keys|].
    apply (report_has_variant w _ (target_ort onnx_path)); [|done].
    by apply (pipeline_variant_validated _ producer).
Qed.

Lemma converter_failure_is_isolated_witness :
  _convert_to_ort world_int8_fails onnx_path_int8 stale_state
  = (Ok tt,
     State (fs stale_state)
       [ "Failed to convert export/model_int8.onnx to ORT: Command returned non-zero exit status 1.";
         "Error output: boom" ])
  ∧ ∃ m st',
      export world_int8_fails stale_state = (Ok m, st')
      ∧ ∀ onnx_path producer variant,
          (onnx_path, producer, variant) ∈ pipeline_variants →
          packages world_int8_fails (onnx_path, producer, variant) = true →
          complete variant m ∧ is_Some (fs st' !! target_ort onnx_path).
Proof.
  destruct (converter_failure_is_isolated world_int8_fails onnx_path_int8
              "Command returned non-zero exit status 1." "boom" stale_state)
    as [Hconv Hexport]; [reflexivity | reflexivity |].
  split; [exact Hconv|]. apply Hexport.
  - intros s e. destruct s; simpl; try discriminate.
    destruct (String.eqb onnx_name onnx_path_int8); [|discriminate].
    intros [= <-]. by eexists _, _, _.
  - intros n msg stderr. simpl.
    destruct (String.eqb n onnx_path_int8); [|discriminate].
    intros [= <- <-]. reflexivity.
Defined.

(** Two runs in which the converter exits non-zero on the Int8 model and
    [export] raises. In the first the error output of the converter is not
    UTF-8: decoding it raises inside the handler of [_convert_to_ort]. In
    the second [_convert_to_ort] returns, the converter has left an unusable
    [model_int8.ort] before failing, and the session for it cannot be
    opened. *)
Lemma converter_failure_raises_counterexample :
  let st := State {[ onnx_path_int8 := 1000%N ]} [] in
  (∃ msg stderr,
     fails world_stderr_bytes (SubprocessRun onnx_path_int8)
     = Some (CalledProcessError msg stderr))
  ∧ (_convert_to_ort world_stderr_bytes onnx_path_int8 st).1
    = Raise (UnicodeDecodeError
        "'utf-8' codec can't decode byte 0xff in position 0: invalid start byte")
  ∧ (export world_stderr_bytes stale_state).1
    = Raise (UnicodeDecodeError
        "'utf-8' codec can't decode byte 0xff in position 0: invalid start byte")
  ∧ (∃ msg stderr,
       fails world_int8_leftover (SubprocessRun onnx_path_int8)
       = Some (CalledProcessError msg stderr))
  ∧ (_convert_to_ort world_int8_leftover onnx_path_int8 st).1 = Ok tt
  ∧ (export world_int8_leftover stale_state).1 = Raise (RuntimeError "invalid model").
Proof.
  split_and!; try (vm_compute; reflexivity); by eexists _, _.
Qed.

(** In that run the FP32 and the FP16 packages are complete in the report
    and the Int8 package is not in it. *)
Lemma int8_failure_report :
  packages world_int8_fails (onnx_path_fp32, TorchOnnxExport, "ORT (FP32)") = true
  ∧ packages world_int8_fails (onnx_path_fp16, OnnxSave, "ORT (FP16)") = true
  ∧ dict_keys (results (report world_int8_fails (packaged_dir world_int8_fails)))
    = ["PyTorch (FP32)"; "ORT (FP32)"; "ORT (FP16)"].
Proof. split_and!; vm_compute; reflexivity. Qed.

(** * Further properties of the exporter *)

(** ** What an operation does to the export directory *)

Lemma bind_Raise_inv {A B} (m : M A) (k : A → M B) st e st' :
  (m ≫= k) st = (Raise e, st') →
  m st = (Raise e, st') ∨ ∃ a st1, m st = (Ok a, st1) ∧ k a st1 = (Raise e, st').
Proof.
  unfold_M. destruct (m st) as [[a|e'] st1]; [|intros [= <- <-]; by left].
  intros Hk. right. by exists a, st1.
Qed.

Lemma keeps_bind {A B} P (m : M A) (k : A → M B) :
  keeps_dir P m → (∀ a, keeps_dir P (k a)) → keeps_dir P (m ≫= k).
Proof.
  intros Hm Hk st r st' HP. unfold mbind, M_bind, bind.
  destruct (m st) as [[a|e] st1] eqn:E.
  - intros Hrun. eapply Hk; [|exact Hrun]. by eapply Hm.
  - intros [= <- <-]. by eapply Hm.
Qed.

Lemma keeps_unchanged {A} P (m : M A) :
  (∀ st r st', m st = (r, st') → fs st' = fs st) → keeps_dir P m.
Proof. intros Hm st r st' HP Hrun. by rewrite (Hm _ _ _ Hrun). Qed.

Lemma keeps_mret {A} P (a : A) : keeps_dir P (mret a).
Proof. apply keeps_unchanged. unfold_M. by intros st r st' [= <- <-]. Qed.

Lemma keeps_print P line : keeps_dir P (print line).
Proof. apply keeps_unchanged. unfold print. by intros st r st' [= <- <-]. Qed.

Lemma keeps_lift {A} P (r : res A) : keeps_dir P (lift r).
Proof. apply keeps_unchanged. unfold lift. by intros st r' st' [= <- <-]. Qed.

Lemma keeps_call P w s : keeps_dir P (call w s).
Proof.
  apply keeps_unchanged. unfold call. intros st r st'.
  by destruct (fails w s); intros [= <- <-].
Qed.

Lemma keeps_path_exists P name : keeps_dir P (path_exists name).
Proof. apply keeps_unchanged. unfold path_exists. by intros st r st' [= <- <-]. Qed.

Lemma keeps_stat_size P name : keeps_dir P (stat_size name).
Proof.
  apply keeps_unchanged. unfold stat_size. intros st r st'.
  by destruct (fs st !! name); intros [= <- <-].
Qed.

Lemma keeps_when P (b : bool) (m : M unit) : keeps_dir P m → keeps_dir P (when b m).
Proof. intros Hm. destruct b; [done | apply keeps_mret]. Qed.

Lemma keeps_catch {A} P (m : M A) (h : exn → option (M A)) :
  keeps_dir P m →
  (∀ e handler, h e = Some handler → keeps_dir P handler) →
  keeps_dir P (catch m h).
Proof.
  intros Hm Hh st r st' HP. unfold catch.
  destruct (m st) as [[a|e] st1] eqn:E.
  - intros [= <- <-]. by eapply Hm.
  - destruct (h e) as [handler|] eqn:Eh.
    + intros Hrun. eapply Hh; [exact Eh| |exact Hrun]. by eapply Hm.
    + intros [= <- <-]. by eapply Hm.
Qed.

Lemma keeps_forM_ {A} P (l : list A) (f : A → M unit) :
  (∀ x, x ∈ l → keeps_dir P (f x)) → keeps_dir P (forM_ l f).
Proof.
  induction l as [|x l IH]; intros Hf; simpl.
  - apply (keeps_mret P tt).
  - apply keeps_bind; [apply Hf; left | intros _; apply IH].
    intros y Hy. apply Hf. by right.
Qed.

Lemma keeps_foldM {A B} P (f : B → A → M B) (l : list A) (b : B) :
  (∀ b x, keeps_dir P (f b x)) → keeps_dir P (foldM f l b).
Proof.
  intros Hf. revert b. induction l as [|x l IH]; intros b; simpl.
  - apply keeps_mret.
  - apply keeps_bind; [apply Hf | apply IH].
Qed.

(** A name that is not there stays away as long as nothing is written or
    renamed to it. *)
Lemma write_files_lookup_None l (m : gmap string N) k :
  k ∉ l.*1 → m !! k = None → write_files l m !! k = None.
Proof.
  unfold write_files. revert m. induction l as [|[k' n] l IH]; intros m; csimpl.
  - done.
  - rewrite not_elem_of_cons. intros [Hne Hnin] Hnone.
    apply IH; [done|]. by rewrite lookup_insert_ne.
Qed.

Lemma keeps_absent_call_writing w s k :
  k ∉ (writes w s).*1 → keeps_dir (λ m, m !! k = None) (call_writing w s).
Proof.
  intros Hk st r st' Hnone. unfold call_writing.
  destruct (fails w s); intros [= <- <-]; simpl; by apply write_files_lookup_None.
Qed.

Lemma keeps_absent_unlink name k : keeps_dir (λ m, m !! k = None) (unlink name).
Proof.
  intros st r st' Hnone. unfold unlink.
  destruct (fs st !! name); intros [= <- <-]; simpl; [|done].
  rewrite lookup_delete_None. by right.
Qed.

Lemma keeps_absent_move src dst k :
  k ≠ dst → keeps_dir (λ m, m !! k = None) (move src dst).
Proof.
  intros Hne st r st' Hnone. unfold move.
  destruct (fs st !! src); intros [= <- <-]; simpl; [|done].
  rewrite lookup_insert_ne by done. rewrite lookup_delete_None. by right.
Qed.

Lemma keeps_absent_convert_to_ort w onnx_path k :
  never_written w k →
  k ≠ target_ort onnx_path → k ≠ target_config onnx_path →
  keeps_dir (λ m, m !! k = None) (_convert_to_ort w onnx_path).
Proof.
  intros Hw H1 H2. unfold _convert_to_ort.
  apply keeps_bind.
  - apply keeps_catch.
    + apply keeps_bind; [by apply keeps_absent_call_writing | intros; apply keeps_mret].
    + intros e handler. destruct e; try done. intros [= <-].
      apply keeps_bind; [apply keeps_print|intros _].
      apply keeps_bind; [|intros; apply keeps_mret].
      apply keeps_when, keeps_bind; [apply keeps_lift | intros; apply keeps_print].
  - intros [|]; [|apply keeps_mret].
    apply keeps_bind; [apply keeps_path_exists|intros has_ort].
    apply keeps_bind.
    { destruct has_ort; [by apply keeps_absent_move | apply keeps_print]. }
    intros _. apply keeps_bind; [apply keeps_path_exists|intros has_config].
    apply keeps_bind.
    { destruct has_config; [by apply keeps_absent_move | apply keeps_print]. }
    intros _. apply keeps_bind; [apply keeps_path_exists|intros has_unopt].
    apply keeps_bind; [apply keeps_when, keeps_absent_unlink|intros _].
    apply keeps_bind; [apply keeps_path_exists|intros has_onnx].
    apply keeps_bind; [|intros _; apply keeps_print].
    apply keeps_when, keeps_bind; [apply keeps_print | intros _; apply keeps_absent_unlink].
Qed.

(** The three outcomes of [validate_onnx], with the state it leaves. *)
Lemma validate_onnx_outcomes w path name st :
  ∃ lines,
    validate_onnx w path name st
    = (match fs st !! path, fails w (InferenceSession path) with
       | None, _ => Ok None
       | Some _, Some e => Raise e
       | Some _, None => Ok (Some (onnx_results w path))
       end, State (fs st) (out st ++ lines)).
Proof.
  destruct (fs st !! path) as [n|] eqn:Hfile.
  - destruct (fails w (InferenceSession path)) as [e|] eqn:Hopen.
    + rewrite (validate_onnx_session_raises w path name st e); [by eexists | by eexists | done].
    + destruct (validate_onnx_found w path name st) as [lines ->];
        [by eexists | done |]. by eexists.
  - rewrite validate_onnx_missing by done. by eexists.
Qed.

Lemma validate_all_unchanged w st r st' :
  validate_all w st = (r, st') → fs st' = fs st.
Proof.
  intros Hrun. symmetry.
  assert (keeps_dir (λ m, fs st = m) (validate_all w)) as Hkeep; [|by eapply Hkeep].
  unfold validate_all.
  apply keeps_bind; [apply keeps_print|intros _].
  apply keeps_bind.
  { unfold validate. apply keeps_bind; [apply keeps_print|intros _].
    apply keeps_bind; [apply keeps_call|intros _].
    apply keeps_bind; [apply keeps_call|intros _].
    destruct (learn_validate w 1), (learn_validate w 0).
    apply keeps_bind; [apply keeps_print | intros _; apply keeps_mret]. }
  intros pytorch_res. apply keeps_bind; [apply keeps_lift|intros valid_err].
  apply keeps_foldM. intros m [p v].
  apply keeps_unchanged. intros s0 r0 s1.
  destruct (validate_variant_cases w m p v s0) as [lines ->].
  by intros [= _ <-].
Qed.

Lemma keeps_absent_write_text w name content k :
  never_written w k →
  k ≠ name → keeps_dir (λ m, m !! k = None) (write_text w name content).
Proof.
  intros Hw Hne st r st' Hnone. unfold write_text.
  destruct (fails w WriteText); intros [= <- <-]; simpl.
  - by apply write_files_lookup_None.
  - by rewrite lookup_insert_ne.
Qed.

Lemma keeps_absent_onnx_stages w k :
  never_written w k →
  keeps_dir (λ m, m !! k = None)
    (export_fp32 w;; convert_fp16 w;; quantize_int8 w).
Proof.
  intros Hw. apply keeps_bind; [|intros _; apply keeps_bind; [|intros _]].
  - apply keeps_bind; [apply keeps_print | intros _; by apply keeps_absent_call_writing].
  - apply keeps_bind; [apply keeps_print|intros _].
    apply keeps_bind; [apply keeps_call|intros _].
    apply keeps_bind; [apply keeps_call|intros _].
    by apply keeps_absent_call_writing.
  - apply keeps_bind; [apply keeps_print|intros _].
    apply keeps_bind; [by apply keeps_absent_call_writing|intros _].
    apply keeps_bind; [by apply keeps_absent_call_writing|intros _].
    apply keeps_bind; [apply keeps_path_exists|intros has_pre].
    apply keeps_when, keeps_absent_unlink.
Qed.

Lemma keeps_absent_convert_all w k :
  never_written w k →
  (∀ p, p ∈ [onnx_path_fp32; onnx_path_fp16; onnx_path_int8] →
        k ≠ target_ort p ∧ k ≠ target_config p) →
  keeps_dir (λ m, m !! k = None) (convert_all_to_ort w).
Proof.
  intros Hw Hk. apply keeps_bind; [apply keeps_print|intros _].
  apply keeps_forM_. intros p Hp. destruct (Hk p Hp) as [H1 H2].
  apply keeps_bind; [apply keeps_path_exists|intros present].
  by apply keeps_when, keeps_absent_convert_to_ort.
Qed.

Lemma keeps_absent_write_config w k :
  never_written w k → keeps_dir (λ m, m !! k = None) (write_config w).
Proof.
  intros Hw. apply keeps_when.
  apply keeps_bind; [apply keeps_print|intros _].
  apply keeps_bind; [apply keeps_call|intros _].
  by apply keeps_absent_call_writing.
Qed.

Lemma exporter_names_targets k :
  k ∉ exporter_names →
  k ≠ "README.md"
  ∧ ∀ p, p ∈ [onnx_path_fp32; onnx_path_fp16; onnx_path_int8] →
         k ≠ target_ort p ∧ k ≠ target_config p.
Proof.
  unfold exporter_names. rewrite !not_elem_of_cons.
  intros (H1 & H2 & H3 & H4 & H5 & H6 & H7 & _). split; [done|].
  intros p. rewrite !elem_of_cons.
  by intros [->|[->|[->|?%elem_of_nil]]].
Qed.

(** What follows the preparation keeps a name out of the directory when no
    external call writes it and it is none of the exporter's own. *)
Lemma keeps_absent_stages w k :
  never_written w k →
  k ∉ exporter_names →
  keeps_dir (λ m, m !! k = None)
    (export_fp32 w;; convert_fp16 w;; quantize_int8 w;;
     convert_all_to_ort w;; m ← validate_all w;
     write_config w;; write_readme w m;; mret m).
Proof.
  intros Hw [Hreadme Htargets]%exporter_names_targets.
  apply keeps_bind; [|intros _; apply keeps_bind; [|intros _;
    apply keeps_bind; [|intros _; apply keeps_bind; [|intros _;
    apply keeps_bind; [|intros m; apply keeps_bind; [|intros _;
    apply keeps_bind; [|intros _; apply keeps_mret]]]]]]].
  - apply keeps_bind; [apply keeps_print | intros _; by apply keeps_absent_call_writing].
  - apply keeps_bind; [apply keeps_print|intros _].
    apply keeps_bind; [apply keeps_call|intros _].
    apply keeps_bind; [apply keeps_call|intros _].
    by apply keeps_absent_call_writing.
  - apply keeps_bind; [apply keeps_print|intros _].
    apply keeps_bind; [by apply keeps_absent_call_writing|intros _].
    apply keeps_bind; [by apply keeps_absent_call_writing|intros _].
    apply keeps_bind; [apply keeps_path_exists|intros has_pre].
    apply keeps_when, keeps_absent_unlink.
  - by apply keeps_absent_convert_all.
  - apply keeps_unchanged, validate_all_unchanged.
  - by apply keeps_absent_write_config.
  - apply keeps_bind; [apply keeps_lift|intros text].
    apply keeps_bind; [apply keeps_print|intros _].
    by apply keeps_absent_write_text.
Qed.

(** X5. [export] replaces the directory: a file of an earlier run that this
    run neither writes nor names is gone when [export] returns, and also
    when it raises after the directory was emptied (l.78-90 did not
    raise). *)
Theorem export_clears_stale_files w st r st' k :
  never_written w k →
  k ∉ exporter_names →
  (match r with Ok _ => True | Raise _ => reaches_reset w end) →
  export w st = (r, st') →
  fs st' !! k = None.
Proof.
  intros Hw Hk Hreset. unfold export.
  destruct (prepare w st) as [[[]|e] st0] eqn:Hprep.
  - erewrite bind_ok by exact Hprep. intros Hrun.
    eapply (keeps_absent_stages w k Hw Hk); [|exact Hrun].
    rewrite (prepare_Ok_inv _ _ _ Hprep). apply lookup_empty.
  - erewrite bind_raise by exact Hprep. intros [= <- <-].
    rewrite (prepare_reset _ _ _ _ Hreset Hprep). apply lookup_empty.
Qed.

Lemma pipeline_writes_never k :
  k ∉ [ onnx_path_fp32; onnx_path_fp16; onnx_path_pre; onnx_path_int8; "model.config" ] →
  (∀ p, p ∈ [onnx_path_fp32; onnx_path_fp16; onnx_path_int8] →
        k ∉ (converter_outputs p).*1) →
  ∀ fails sess, never_written (example_world fails pipeline_writes sess) k.
Proof.
  rewrite !not_elem_of_cons. intros (H1 & H2 & H3 & H4 & H5 & _) Hconv fails sess s.
  destruct s; simpl; rewrite ?not_elem_of_cons; try (split; [done|]);
    try apply not_elem_of_nil.
  case_bool_decide as Hin; [by apply Hconv | apply not_elem_of_nil].
Qed.

Lemma export_clears_stale_files_witness :
  (export world_tidy_session_fails stale_state).1 = Raise (RuntimeError "invalid model")
  ∧ fs stale_state !! "old.ort" = Some 1%N
  ∧ fs (export world_tidy_session_fails stale_state).2 !! "old.ort" = None.
Proof.
  split; [vm_compute; reflexivity|]. split; [reflexivity|].
  apply (export_clears_stale_files world_tidy_session_fails stale_state
           (Raise (RuntimeError "invalid model"))
           (export world_tidy_session_fails stale_state).2 "old.ort").
  - apply pipeline_writes_never.
    + by apply (bool_decide_unpack _).
    + intros p Hp. apply (bool_decide_unpack _).
      revert Hp. rewrite !elem_of_cons.
      by intros [->|[->|[->|?%elem_of_nil]]].
  - by apply (bool_decide_unpack _).
  - split_and!; reflexivity.
  - assert ((export world_tidy_session_fails stale_state).1
            = Raise (RuntimeError "invalid model")) as Hr
      by (vm_compute; reflexivity).
    destruct (export world_tidy_session_fails stale_state) as [r st'].
    simpl in Hr. by rewrite Hr.
Defined.

(** X4. [validate_onnx] only reads the export directory: however it ends,
    the directory is as before and the console has only grown; and it
    returns [None] exactly when the package is missing. *)
Theorem validate_onnx_reads_only w path name st r st' :
  validate_onnx w path name st = (r, st') →
  fs st' = fs st
  ∧ (∃ lines, out st' = out st ++ lines)
  ∧ (r = Ok None ↔ fs st !! path = None).
Proof.
  destruct (validate_onnx_outcomes w path name st) as [lines ->].
  intros [= <- <-]. split_and!; [done | by exists lines |].
  destruct (fs st !! path); [|done].
  split; [|done]. by destruct (fails w (InferenceSession path)).
Qed.

Lemma validate_onnx_reads_only_witness :
  fs (validate_onnx world_all_ok "model_fp32.ort" "ORT (FP32)" stale_state).2
  = fs stale_state
  ∧ (∃ lines,
       out (validate_onnx world_all_ok "model_fp32.ort" "ORT (FP32)" stale_state).2
       = out stale_state ++ lines)
  ∧ ((validate_onnx world_all_ok "model_fp32.ort" "ORT (FP32)" stale_state).1 = Ok None
     ↔ fs stale_state !! "model_fp32.ort" = None).
Proof.
  apply (validate_onnx_reads_only world_all_ok "model_fp32.ort" "ORT (FP32)"
           stale_state).
  by destruct (validate_onnx world_all_ok "model_fp32.ort" "ORT (FP32)" stale_state).
Defined.

Lemma write_readme_Ok w m st st' :
  write_readme w m st = (Ok tt, st') →
  ∃ text,
    get_notes (w_model_name w) (w_labels w) m = Ok text
    ∧ fs st' = <["README.md" := N.of_nat (String.length text)]> (fs st).
Proof.
  unfold write_readme.
  destruct (get_notes_total (w_model_name w) (w_labels w) m) as [text Htext].
  rewrite Htext. erewrite (bind_ok (lift _)) by reflexivity.
  rewrite print_then. unfold write_text.
  destruct (fails w WriteText); [done|].
  intros [= <-]. by exists text.
Qed.

Lemma write_readme_Raise w m st e st' :
  write_readme w m st = (Raise e, st') →
  fs st' = write_files (writes w WriteText) (fs st).
Proof.
  unfold write_readme.
  destruct (get_notes_total (w_model_name w) (w_labels w) m) as [text Htext].
  rewrite Htext. erewrite (bind_ok (lift _)) by reflexivity.
  rewrite print_then. unfold write_text.
  destruct (fails w WriteText); [|done].
  by intros [= _ <-].
Qed.

Lemma readme_holds_notes_lemma w st m st' :
  export w st = (Ok m, st') →
  ∃ text,
    get_notes (w_model_name w) (w_labels w) m = Ok text
    ∧ fs st' !! "README.md" = Some (N.of_nat (String.length text)).
Proof.
  unfold export.
  intros (_ & s0 & _ & H)%bind_Ok_inv.
  apply bind_Ok_inv in H as (_ & s1 & _ & H).
  apply bind_Ok_inv in H as (_ & s2 & _ & H).
  apply bind_Ok_inv in H as (_ & s3 & _ & H).
  apply bind_Ok_inv in H as (_ & s4 & _ & H).
  apply bind_Ok_inv in H as (m' & s5 & _ & H).
  apply bind_Ok_inv in H as (_ & s6 & _ & H).
  apply bind_Ok_inv in H as ([] & s7 & Hr & H).
  unfold mret, M_ret, ret in H. injection H as Hm Hst. subst m' st'.
  apply write_readme_Ok in Hr as (text & Htext & ->).
  exists text. split; [done|]. apply lookup_insert_eq.
Qed.

(** X9. When [export] returns, the [README.md] of the export directory
    holds the notes of the metrics it returns: its size is the length of
    [get_notes] of them. *)
Theorem readme_holds_notes w st m st' :
  export w st = (Ok m, st') →
  ∃ text,
    get_notes (w_model_name w) (w_labels w) m = Ok text
    ∧ fs st' !! "README.md" = Some (N.of_nat (String.length text)).
Proof. apply readme_holds_notes_lemma. Qed.

Lemma readme_holds_notes_witness :
  ∃ m st' text,
    export world_all_ok stale_state = (Ok m, st')
    ∧ get_notes (w_model_name world_all_ok) (w_labels world_all_ok) m = Ok text
    ∧ fs st' !! "README.md" = Some (N.of_nat (String.length text)).
Proof.
  destruct (export world_all_ok stale_state) as [[m|e] st'] eqn:Hex;
    [|vm_compute in Hex; discriminate Hex].
  destruct (readme_holds_notes world_all_ok stale_state m st' Hex)
    as (text & Htext & Hfile).
  exists m, st', text. split; [reflexivity|]. split; [exact Htext | exact Hfile].
Defined.

Lemma onnx_stages_assoc {B} w (k : M B) st :
  (export_fp32 w;; convert_fp16 w;; quantize_int8 w;; k) st
  = ((export_fp32 w;; convert_fp16 w;; quantize_int8 w);; k) st.
Proof.
  unfold mbind, M_bind, bind.
  destruct (export_fp32 w st) as [[[]|e] s1]; [|done].
  destruct (convert_fp16 w s1) as [[[]|e] s2]; [|done].
  by destruct (quantize_int8 w s2) as [[[]|e] s3].
Qed.

(** X6. A run that fails leaves no report text: when [export] raises after
    the directory was emptied (l.78-90 did not raise), there is no
    [README.md] in the export directory, provided no external call leaves a
    file of that name: in particular, a failing [write_text] has not opened
    the file. *)
Theorem failed_export_leaves_no_readme w st e st' :
  never_written w "README.md" →
  reaches_reset w →
  export w st = (Raise e, st') →
  fs st' !! "README.md" = None.
Proof.
  intros Hw Hreset. unfold export.
  destruct (prepare w st) as [[[]|e0] st0] eqn:Hprep.
  2: { erewrite bind_raise by exact Hprep. intros [= _ <-].
       rewrite (prepare_reset _ _ _ _ Hreset Hprep). apply lookup_empty. }
  erewrite bind_ok by exact Hprep.
  assert (fs st0 !! "README.md" = None) as H0.
  { rewrite (prepare_Ok_inv _ _ _ Hprep). apply lookup_empty. }
  rewrite onnx_stages_assoc.
  assert (∀ p, p ∈ [onnx_path_fp32; onnx_path_fp16; onnx_path_int8] →
               "README.md" ≠ target_ort p ∧ "README.md" ≠ target_config p) as Ht.
  { intros p. rewrite !elem_of_cons. by intros [->|[->|[->|?%elem_of_nil]]]. }
  intros [Hstages|([] & s1 & Hstages & H)]%bind_Raise_inv.
  { by eapply (keeps_absent_onnx_stages w _ Hw); [|exact Hstages]. }
  assert (fs s1 !! "README.md" = None) as H1.
  { by eapply (keeps_absent_onnx_stages w _ Hw); [|exact Hstages]. }
  apply bind_Raise_inv in H as [Hconv|([] & s2 & Hconv & H)].
  { by eapply (keeps_absent_convert_all w _ Hw Ht); [|exact Hconv]. }
  assert (fs s2 !! "README.md" = None) as H2.
  { by eapply (keeps_absent_convert_all w _ Hw Ht); [|exact Hconv]. }
  apply bind_Raise_inv in H as [Hval|(m & s3 & Hval & H)].
  { by rewrite (validate_all_unchanged _ _ _ _ Hval). }
  assert (fs s3 !! "README.md" = None) as H3.
  { by rewrite (validate_all_unchanged _ _ _ _ Hval). }
  apply bind_Raise_inv in H as [Hcfg|([] & s4 & Hcfg & H)].
  { by eapply (keeps_absent_write_config w _ Hw); [|exact Hcfg]. }
  assert (fs s4 !! "README.md" = None) as H4.
  { by eapply (keeps_absent_write_config w _ Hw); [|exact Hcfg]. }
  apply bind_Raise_inv in H as [Hrd|(u & s5 & _ & H)].
  - rewrite (write_readme_Raise _ _ _ _ _ Hrd). by apply write_files_lookup_None.
  - done.
Qed.

Lemma failed_export_leaves_no_readme_witness :
  (export world_tidy_session_fails stale_state).1 = Raise (RuntimeError "invalid model")
  ∧ fs (export world_tidy_session_fails stale_state).2 !! "README.md" = None.
Proof.
  split; [vm_compute; reflexivity|].
  apply (failed_export_leaves_no_readme world_tidy_session_fails stale_state
           (RuntimeError "invalid model")).
  - apply pipeline_writes_never.
    + by apply (bool_decide_unpack _).
    + intros p Hp. apply (bool_decide_unpack _).
      revert Hp. rewrite !elem_of_cons.
      by intros [->|[->|[->|?%elem_of_nil]]].
  - split_and!; reflexivity.
  - assert ((export world_tidy_session_fails stale_state).1
            = Raise (RuntimeError "invalid model")) as Hr
      by (vm_compute; reflexivity).
    destruct (export world_tidy_session_fails stale_state) as [r st'].
    simpl in Hr. by rewrite Hr.
Defined.

(** ** Names of files *)

Lemma substring_app_prefix s t : String.substring 0 (String.length s) (s +:+ t) = s.
Proof.
  induction s as [|c s IH].
  - rewrite string_app_nil. by destruct t.
  - rewrite string_app_cons. simpl. by rewrite IH.
Qed.

Lemma rfind_dot_no_dot s : no_dot s = true → rfind_dot s = None.
Proof.
  induction s as [|c s IH]; simpl; [done|].
  intros [Hc Hs]%andb_true_iff. rewrite IH by done.
  by destruct (Ascii.eqb c ".").
Qed.

Lemma rfind_dot_app s ext :
  no_dot ext = true →
  rfind_dot (s +:+ String "."%char ext) = Some (String.length s).
Proof.
  intros Hext. induction s as [|c s IH].
  - rewrite string_app_nil. simpl. by rewrite rfind_dot_no_dot.
  - rewrite string_app_cons. simpl. by rewrite IH.
Qed.

(** The stem of [stem.ext] is [stem], when the extension has no dot of its
    own and neither part is empty. *)
Lemma path_stem_ext s ext :
  s ≠ EmptyString → ext ≠ EmptyString → no_dot ext = true →
  path_stem (s +:+ String "."%char ext) = s.
Proof.
  intros Hs Hext Hnd. unfold path_stem. rewrite rfind_dot_app by done.
  rewrite string_length_app. simpl.
  assert (0 < String.length s)%nat as Hlen by (destruct s; [done | simpl; lia]).
  assert (0 < String.length ext)%nat as Hlen' by (destruct ext; [done | simpl; lia]).
  assert ((0 <? String.length s)%nat = true) as -> by by apply Nat.ltb_lt.
  assert ((String.length s <? String.length s + S (String.length ext) - 1)%nat = true)
    as -> by (apply Nat.ltb_lt; lia).
  simpl. apply substring_app_prefix.
Qed.

Lemma path_stem_onnx s : s ≠ EmptyString → path_stem (s +:+ ".onnx") = s.
Proof. intros Hs. by apply (path_stem_ext s "onnx"). Qed.

(** ** [_convert_to_ort], all of it *)

Lemma rename_file_other src dst (m : gmap string N) k :
  k ≠ src → k ≠ dst → rename_file src dst m !! k = m !! k.
Proof.
  intros H1 H2. unfold rename_file. destruct (m !! src); [|done].
  by rewrite lookup_insert_ne, lookup_delete_ne.
Qed.

Lemma rename_file_source src dst (m : gmap string N) :
  src ≠ dst → rename_file src dst m !! src = None.
Proof.
  intros Hne. unfold rename_file. destruct (m !! src) eqn:E; [|done].
  rewrite lookup_insert_ne by done. apply lookup_delete_eq.
Qed.

Lemma rename_file_target_size src dst (m : gmap string N) n :
  m !! src = Some n → rename_file src dst m !! dst = Some n.
Proof. intros Hn. unfold rename_file. rewrite Hn. apply lookup_insert_eq. Qed.

Lemma stem_names_differ stem a b : a ≠ b → stem +:+ a ≠ stem +:+ b.
Proof. intros Hne Heq. by apply Hne, (inj (String.app stem)). Qed.

(** The state [_convert_to_ort] leaves when the converter returns, with the
    lines it prints. *)
Lemma convert_to_ort_converted_lines w onnx_path st :
  fails w (SubprocessRun onnx_path) = None →
  let m0 := write_files (writes w (SubprocessRun onnx_path)) (fs st) in
  let m1 := rename_file (generated_ort onnx_path) (target_ort onnx_path) m0 in
  let m2 := rename_file (generated_config onnx_path) (target_config onnx_path) m1 in
  _convert_to_ort w onnx_path st
  = (Ok tt,
     State (after_convert onnx_path m0)
       (out st
        ++ match m0 !! generated_ort onnx_path with
           | Some _ => []
           | None => ["Warning: Expected optimized file "
                      +:+ full_path w (generated_ort onnx_path) +:+ " not found."]
           end
        ++ match m1 !! generated_config onnx_path with
           | Some _ => []
           | None => ["Warning: Expected config file "
                      +:+ full_path w (generated_config onnx_path) +:+ " not found."]
           end
        ++ match delete (unopt_config onnx_path) m2 !! onnx_path with
           | Some _ => ["  Removing " +:+ onnx_path]
           | None => []
           end
        ++ ["  Finished ORT conversion for " +:+ path_stem onnx_path])).
Proof.
  intros Hfail m0 m1 m2. unfold _convert_to_ort.
  rewrite (bind_ok _ _ _ _ _ (catch_call_writing_ok w _ _ st Hfail)).
  cbv iota.
  rewrite move_if_exists_then, move_if_exists_then, unlink_if_exists_then,
    remove_onnx_then.
  unfold print, after_convert. simpl.
  by rewrite <-!app_assoc.
Qed.

(** X1. When the converter returns, [_convert_to_ort] returns too and
    leaves none of the files it is meant to remove: the ONNX file, the
    unoptimized operator list and the two files under the converter's own
    names. *)
Theorem convert_to_ort_cleans_up w onnx_path st :
  fails w (SubprocessRun onnx_path) = None →
  ∃ st',
    _convert_to_ort w onnx_path st = (Ok tt, st')
    ∧ ∀ name, name ∈ removed_by_convert onnx_path → fs st' !! name = None.
Proof.
  intros Hfail. eexists. split; [by apply convert_to_ort_converted_lines|].
  simpl. set (m0 := write_files _ _).
  intros name Hname. unfold after_convert.
  apply lookup_delete_None.
  destruct (decide (onnx_path = name)) as [|Hne1]; [by left|right].
  apply lookup_delete_None.
  destruct (decide (unopt_config onnx_path = name)) as [|Hne2]; [by left|right].
  revert Hname. unfold removed_by_convert. rewrite !elem_of_cons.
  intros [->|[->|[->|[->|?%elem_of_nil]]]]; try done.
  - rewrite rename_file_other.
    + apply rename_file_source. by apply stem_names_differ.
    + by apply stem_names_differ.
    + by apply stem_names_differ.
  - apply rename_file_source. by apply stem_names_differ.
Qed.

Lemma convert_to_ort_cleans_up_witness :
  ∃ st',
    _convert_to_ort world_all_ok onnx_path_fp32
      (State {[ onnx_path_fp32 := 4000%N ]} []) = (Ok tt, st')
    ∧ ∀ name, name ∈ removed_by_convert onnx_path_fp32 → fs st' !! name = None.
Proof.
  apply (convert_to_ort_cleans_up world_all_ok onnx_path_fp32). reflexivity.
Defined.

(** X2. For a model [stem.onnx], when the converter returns and has left
    its optimized file, the package [stem.ort] is that file (it replaces the
    unoptimized [stem.ort] the converter may have written too); and when it
    has left its optimized operator list, [stem_operators.config] is that
    list. *)
Theorem convert_to_ort_package_is_optimized w stem st n :
  stem ≠ EmptyString →
  fails w (SubprocessRun (stem +:+ ".onnx")) = None →
  write_files (writes w (SubprocessRun (stem +:+ ".onnx"))) (fs st)
    !! (stem +:+ ".with_runtime_opt.ort") = Some n →
  ∃ st',
    _convert_to_ort w (stem +:+ ".onnx") st = (Ok tt, st')
    ∧ fs st' !! (stem +:+ ".ort") = Some n
    ∧ ∀ c,
        write_files (writes w (SubprocessRun (stem +:+ ".onnx"))) (fs st)
          !! (stem +:+ ".required_operators.with_runtime_opt.config") = Some c →
        fs st' !! (stem +:+ "_operators.config") = Some c.
Proof.
  intros Hstem Hfail Hgen.
  eexists. split; [by apply convert_to_ort_converted_lines|].
  simpl. set (m0 := write_files _ _) in *.
  unfold after_convert, generated_ort, generated_config, target_ort,
    target_config, unopt_config, with_suffix.
  rewrite path_stem_onnx by done.
  split.
  - rewrite !lookup_delete_ne by by apply stem_names_differ.
    rewrite rename_file_other by by apply stem_names_differ.
    by apply rename_file_target_size.
  - intros c Hc.
    rewrite !lookup_delete_ne by by apply stem_names_differ.
    apply rename_file_target_size.
    rewrite rename_file_other by by apply stem_names_differ.
    exact Hc.
Qed.

Lemma convert_to_ort_package_is_optimized_witness :
  ∃ st',
    _convert_to_ort world_all_ok ("model_fp32" +:+ ".onnx")
      (State {[ onnx_path_fp32 := 4000%N ]} []) = (Ok tt, st')
    ∧ fs st' !! ("model_fp32" +:+ ".ort") = Some 1048576%N
    ∧ ∀ c,
        write_files (writes world_all_ok (SubprocessRun ("model_fp32" +:+ ".onnx")))
          (fs (State {[ onnx_path_fp32 := 4000%N ]} []))
          !! ("model_fp32" +:+ ".required_operators.with_runtime_opt.config") = Some c →
        fs st' !! ("model_fp32" +:+ "_operators.config") = Some c.
Proof.
  apply (convert_to_ort_package_is_optimized world_all_ok "model_fp32"
           (State {[ onnx_path_fp32 := 4000%N ]} []) 1048576%N).
  - done.
  - reflexivity.
  - reflexivity.
Defined.

(** X3. When the converter returns without its optimized file,
    [_convert_to_ort] prints a warning and goes on without raising: the ONNX
    file is removed all the same, and for a model [stem.onnx] the package
    [stem.ort] is whatever the converter left under that name. *)
Theorem convert_to_ort_missing_output_warns w stem st :
  stem ≠ EmptyString →
  fails w (SubprocessRun (stem +:+ ".onnx")) = None →
  write_files (writes w (SubprocessRun (stem +:+ ".onnx"))) (fs st)
    !! (stem +:+ ".with_runtime_opt.ort") = None →
  ∃ st',
    _convert_to_ort w (stem +:+ ".onnx") st = (Ok tt, st')
    ∧ ("Warning: Expected optimized file "
       +:+ full_path w (stem +:+ ".with_runtime_opt.ort") +:+ " not found.") ∈ out st'
    ∧ fs st' !! (stem +:+ ".onnx") = None
    ∧ fs st' !! (stem +:+ ".ort")
      = write_files (writes w (SubprocessRun (stem +:+ ".onnx"))) (fs st)
          !! (stem +:+ ".ort").
Proof.
  intros Hstem Hfail Hgen.
  eexists. split; [by apply convert_to_ort_converted_lines|].
  simpl. set (m0 := write_files _ _) in *.
  unfold after_convert, generated_ort, generated_config, target_ort,
    target_config, unopt_config, with_suffix.
  rewrite !path_stem_onnx by done. rewrite Hgen.
  split_and!.
  - apply elem_of_app. right. apply elem_of_app. left. apply list_elem_of_singleton. done.
  - apply lookup_delete_eq.
  - rewrite !lookup_delete_ne by by apply stem_names_differ.
    rewrite rename_file_other by by apply stem_names_differ.
    unfold rename_file. by rewrite Hgen.
Qed.

Lemma convert_to_ort_missing_output_warns_witness :
  ∃ st',
    _convert_to_ort world_tidy ("model_pre" +:+ ".onnx")
      (State {[ onnx_path_pre := 4100%N ]} []) = (Ok tt, st')
    ∧ ("Warning: Expected optimized file "
       +:+ full_path world_tidy ("model_pre" +:+ ".with_runtime_opt.ort")
       +:+ " not found.") ∈ out st'
    ∧ fs st' !! ("model_pre" +:+ ".onnx") = None
    ∧ fs st' !! ("model_pre" +:+ ".ort")
      = write_files (writes world_tidy (SubprocessRun ("model_pre" +:+ ".onnx")))
          (fs (State {[ onnx_path_pre := 4100%N ]} []))
          !! ("model_pre" +:+ ".ort").
Proof.
  apply (convert_to_ort_missing_output_warns world_tidy "model_pre"
           (State {[ onnx_path_pre := 4100%N ]} [])).
  - done.
  - reflexivity.
  - reflexivity.
Defined.

(** ** The metrics [export] returns *)

Lemma dict_get_set_ne {V} (d : list (string * V)) k v k' :
  k' ≠ k → dict_get (dict_set d k v) k' = dict_get d k'.
Proof.
  intros Hne. induction d as [|[k0 v0] d IH]; simpl.
  - by rewrite decide_False.
  - destruct (decide (k0 = k)) as [->|Hne0]; simpl.
    + by rewrite !decide_False.
    + by rewrite IH.
Qed.

Lemma report_error_rates_inv w dir vs m :
  (∀ v r, dict_get (results m) v = Some r →
     ∃ err, dict_get r "valid_err" = Some err
            ∧ dict_get (error_rates m) v = Some err) →
  ∀ v r, dict_get (results (foldl (add_variant w dir) m vs)) v = Some r →
    ∃ err, dict_get r "valid_err" = Some err
           ∧ dict_get (error_rates (foldl (add_variant w dir) m vs)) v = Some err.
Proof.
  revert m. induction vs as [|[p name] vs IH]; intros m Hm; simpl; [done|].
  apply IH. intros v r. unfold add_variant. simpl.
  destruct (dir !! p) as [size|]; [|apply Hm]. simpl.
  destruct (decide (v = name)) as [->|Hne].
  - rewrite !dict_get_set. intros [= <-]. by eexists.
  - rewrite !dict_get_set_ne by done. apply Hm.
Qed.

(** X7. In the metrics [export] returns, the flat error rate of a variant
    is the validation error of its results: every entry of [results] has a
    [valid_err], and [error_rates] holds that value for the variant. *)
Theorem report_error_rate_is_valid_err w st m st' variant r :
  export w st = (Ok m, st') →
  dict_get (results m) variant = Some r →
  ∃ err,
    dict_get r "valid_err" = Some err
    ∧ dict_get (error_rates m) variant = Some err.
Proof.
  intros (dir & -> & _)%export_Ok_inv. unfold report.
  apply report_error_rates_inv. intros v r'. unfold base_metrics. simpl.
  case_decide; [|done]. intros [= <-]. by eexists.
Qed.

Lemma report_error_rate_is_valid_err_witness :
  ∃ m st' r err,
    export world_all_ok stale_state = (Ok m, st')
    ∧ dict_get (results m) "ORT (FP16)" = Some r
    ∧ dict_get r "valid_err" = Some err
    ∧ dict_get (error_rates m) "ORT (FP16)" = Some err.
Proof.
  destruct (export world_all_ok stale_state) as [[m|e] st'] eqn:Hex;
    [|vm_compute in Hex; discriminate Hex].
  destruct (dict_get (results m) "ORT (FP16)") as [r|] eqn:Hr.
  2: { exfalso. pose proof Hex as Hval. vm_compute in Hval.
       injection Hval as <- _. vm_compute in Hr. discriminate Hr. }
  destruct (report_error_rate_is_valid_err world_all_ok stale_state m st'
              "ORT (FP16)" r Hex Hr) as (err & Herr & Hflat).
  exists m, st', r, err.
  split; [reflexivity|]. split; [exact Hr|]. split; [exact Herr | exact Hflat].
Defined.

Lemma add_variants_baseline w dir vs m :
  Forall (λ pv : string * string, pv.2 ≠ "PyTorch (FP32)") vs →
  let m' := foldl (add_variant w dir) m vs in
  train_samples m' = train_samples m
  ∧ valid_samples m' = valid_samples m
  ∧ dict_get (results m') "PyTorch (FP32)" = dict_get (results m) "PyTorch (FP32)"
  ∧ dict_get (error_rates m') "PyTorch (FP32)" = dict_get (error_rates m) "PyTorch (FP32)"
  ∧ dict_get (sizes_mb m') "PyTorch (FP32)" = dict_get (sizes_mb m) "PyTorch (FP32)".
Proof.
  revert m. induction vs as [|[p name] vs IH]; intros m Hvs; simpl; [done|].
  apply Forall_cons in Hvs as [Hne Hvs]. simpl in Hne.
  destruct (IH (add_variant w dir m (p, name)) Hvs) as (H1 & H2 & H3 & H4 & H5).
  simpl in *. rewrite H1, H2, H3, H4, H5. unfold add_variant. simpl.
  destruct (dir !! p); [|done]. simpl.
  by rewrite !dict_get_set_ne by done.
Qed.

Lemma report_keys_order w dir :
  sublist (dict_keys (results (report w dir)))
    ["PyTorch (FP32)"; "ORT (FP32)"; "ORT (FP16)"; "ORT (Int8)"].
Proof.
  unfold report, ort_variants. cbn [foldl]. unfold add_variant. cbn [fst snd].
  destruct (dir !! with_suffix onnx_path_fp32 ".ort");
    destruct (dir !! with_suffix onnx_path_fp16 ".ort");
    destruct (dir !! with_suffix onnx_path_int8 ".ort");
    cbn [results base_metrics]; rewrite ?dict_keys_set; simpl;
    repeat first [apply sublist_nil | apply sublist_skip | apply sublist_cons].
Qed.

(** X8. Any metrics [export] returns hold the baseline: the sample counts
    of the two splits, and under [PyTorch (FP32)] the results of the native
    validation, its validation error as the error rate, and the size of
    [model.pth]; the variants come in the order baseline, FP32, FP16,
    Int8. *)
Theorem report_has_baseline w st m st' :
  export w st = (Ok m, st') →
  train_samples m = w_train_len w
  ∧ valid_samples m = w_valid_len w
  ∧ dict_get (results m) "PyTorch (FP32)" = Some (native_results w)
  ∧ dict_get (error_rates m) "PyTorch (FP32)" = Some (learn_validate w 1).2
  ∧ dict_get (sizes_mb m) "PyTorch (FP32)" = Some (size_mb (w_model_pth_size w))
  ∧ sublist (dict_keys (results m))
      ["PyTorch (FP32)"; "ORT (FP32)"; "ORT (FP16)"; "ORT (Int8)"].
Proof.
  intros (dir & -> & _)%export_Ok_inv.
  destruct (add_variants_baseline w dir ort_variants (base_metrics w))
    as (H1 & H2 & H3 & H4 & H5).
  { unfold ort_variants. by repeat constructor. }
  unfold report. rewrite H1, H2, H3, H4, H5.
  split_and!; try done. apply report_keys_order.
Qed.

Lemma report_has_baseline_witness :
  ∃ m st',
    export world_int8_fails stale_state = (Ok m, st')
    ∧ train_samples m = w_train_len world_int8_fails
    ∧ valid_samples m = w_valid_len world_int8_fails
    ∧ dict_get (results m) "PyTorch (FP32)" = Some (native_results world_int8_fails)
    ∧ dict_get (error_rates m) "PyTorch (FP32)"
      = Some (learn_validate world_int8_fails 1).2
    ∧ dict_get (sizes_mb m) "PyTorch (FP32)"
      = Some (size_mb (w_model_pth_size world_int8_fails))
    ∧ sublist (dict_keys (results m))
        ["PyTorch (FP32)"; "ORT (FP32)"; "ORT (FP16)"; "ORT (Int8)"].
Proof.
  destruct (export world_int8_fails stale_state) as [[m|e] st'] eqn:Hex;
    [|vm_compute in Hex; discriminate Hex].
  exists m, st'. split; [reflexivity|].
  exact (report_has_baseline world_int8_fails stale_state m st' Hex).
Defined.

(** ** What the session is given and what is counted *)




Lemma count_matches_same l : count_matches l l = Z.of_nat (length l).
Proof.
  induction l as [|x l IH]; simpl; [done|].
  rewrite decide_True by done. lia.
Qed.

(** With a session that is right on every sample the loop counts every
    sample, as right, and prints nothing. *)
Lemma batch_loop_all_right w sess is_fp16 dl c t st :
  all_right w sess is_fp16 dl = true →
  batch_loop w sess is_fp16 dl c t st
  = (Ok ((c + sample_count dl)%Z, (t + sample_count dl)%Z), st).
Proof.
  revert c t. induction dl as [|b dl IH]; intros c t.
  - intros _. change (sample_count []) with 0%Z. rewrite !Z.add_0_r. by unfold_M.
  - change (sample_count (b :: dl))
      with (Z.of_nat (length (labels b)) + sample_count dl)%Z.
    cbn [all_right forallb batch_loop]. intros [Hb Hdl]%andb_true_iff.
    unfold infer. unfold session_input in Hb.
    destruct (run_argmax sess _) as [preds|e]; [|done].
    apply bool_decide_eq_true in Hb as ->. cbn [res_bind].
    unfold np_eq_sum. rewrite decide_True by done.
    rewrite IH by done. rewrite count_matches_same.
    by rewrite !Z.add_assoc.
Qed.

Lemma split_error_all_right n : (0 < n)%Z → split_error n n = Ok 0%Q.
Proof.
  intros Hn. unfold split_error, truediv.
  assert ((0 <? n)%Z = true) as -> by by apply Z.ltb_lt.
  rewrite decide_False by lia. simpl.
  assert (inject_Z n / inject_Z n == 1)%Q as Hone.
  { apply Qmult_inv_r. change 0%Q with (inject_Z 0). rewrite inject_Z_injective. lia. }
  by rewrite (fl_Qeq _ _ Hone).
Qed.

(** X11. When the session is right on every sample of a split that has
    samples, the batch loop counts every sample as right without printing,
    and [validate_onnx]'s iteration for the split records and prints the
    error rate 0. *)
Theorem perfect_session_error_zero w sess is_fp16 name results ds_idx st :
  all_right w sess is_fp16 (loader w ds_idx) = true →
  (0 < sample_count (loader w ds_idx))%Z →
  batch_loop w sess is_fp16 (loader w ds_idx) 0 0 st
  = (Ok (sample_count (loader w ds_idx), sample_count (loader w ds_idx)), st)
  ∧ split_error (sample_count (loader w ds_idx)) (sample_count (loader w ds_idx))
    = Ok 0%Q
  ∧ validate_split w sess is_fp16 name results ds_idx st
    = (Ok (dict_set results (ds_name ds_idx +:+ "_err") 0%Q),
       State (fs st)
         (out st ++ ["[" +:+ name +:+ "] " +:+ capitalize (ds_name ds_idx)
                     +:+ " Error Rate: 0.0000"])).
Proof.
  intros Hright Hpos.
  pose proof (batch_loop_all_right w sess is_fp16 _ 0 0 st Hright) as Hloop.
  rewrite !Z.add_0_l in Hloop.
  pose proof (split_error_all_right _ Hpos) as Herr.
  split; [exact Hloop|]. split; [exact Herr|].
  unfold validate_split. erewrite bind_ok by exact Hloop.
  cbn [fst snd]. erewrite (bind_ok (lift _)) by (unfold lift; by rewrite Herr).
  rewrite print_then. reflexivity.
Qed.

Lemma perfect_session_error_zero_witness :
  let sess :=
    Session "input" "tensor(float)"
      (λ t, Ok (if decide (payload_of t = 2%nat) then [0; 1] else [1; 1])%nat) in
  batch_loop world_all_ok sess false (loader world_all_ok 1) 0 0 stale_state
  = (Ok (4, 4)%Z, stale_state)
  ∧ split_error 4 4 = Ok 0%Q
  ∧ validate_split world_all_ok sess false "ORT (FP32)" [] 1 stale_state
    = (Ok [("valid_err", 0%Q)],
       State (fs stale_state) ["[ORT (FP32)] Valid Error Rate: 0.0000"]).
Proof.
  intros sess.
  apply (perfect_session_error_zero world_all_ok sess false "ORT (FP32)" [] 1
           stale_state).
  - reflexivity.
  - reflexivity.
Defined.

(** ** What the notes read *)

Lemma dict_get_cons_ne {V} (d : list (string * V)) k0 v k :
  k0 ≠ k → dict_get ((k0, v) :: d) k = dict_get d k.
Proof. intros Hne. simpl. by rewrite decide_False. Qed.

Lemma res_mapM_ext_elem {A B} (f g : A → res B) l :
  (∀ x, x ∈ l → f x = g x) → res_mapM f l = res_mapM g l.
Proof.
  induction l as [|x l IH]; intros Hfg; simpl; [done|].
  rewrite Hfg by left. rewrite IH; [done|]. intros y Hy. apply Hfg. by right.
Qed.

(** X16. [get_notes] reads the sample counts, the error rates and the sizes
    of the variants that have an error rate, and nothing else: the nested
    results and a size recorded for a variant without error rate do not show
    in the text. *)
Theorem get_notes_reads_error_rates name labels m m' :
  train_samples m = train_samples m' →
  valid_samples m = valid_samples m' →
  error_rates m = error_rates m' →
  (∀ k, k ∈ dict_keys (error_rates m) →
        dict_get (sizes_mb m) k = dict_get (sizes_mb m') k) →
  get_notes name labels m = get_notes name labels m'.
Proof.
  intros Ht Hv He Hs. unfold get_notes, notes_lines, notes_foot.
  rewrite <-He, <-Ht, <-Hv.
  rewrite (res_mapM_ext_elem (notes_row m) (notes_row m')); [done|].
  intros k Hk. rewrite sorted_Permutation in Hk.
  unfold notes_row, dict_get_default. by rewrite <-He, (Hs k Hk).
Qed.

Lemma get_notes_reads_error_rates_witness :
  get_notes "resnet18" ["track"; "train"] example_metrics
  = get_notes "resnet18" ["track"; "train"]
      (Metrics 200 50 [("ORT (FP32)", [("valid_err", 0.5%Q)])]
         (error_rates example_metrics)
         (("Scratch", 7%Q) :: sizes_mb example_metrics)).
Proof.
  apply (get_notes_reads_error_rates "resnet18" ["track"; "train"] example_metrics).
  - reflexivity.
  - reflexivity.
  - reflexivity.
  - intros k Hk. symmetry. apply dict_get_cons_ne.
    intros <-. revert Hk. by apply (bool_decide_unpack _).
Defined.

(** ** Publishing a release *)

Lemma glob_suffix_elem suffix (dir : gmap string N) name :
  name ∈ glob_suffix suffix dir
  ↔ is_Some (dir !! name) ∧ ends_with suffix name = true.
Proof.
  unfold glob_suffix. rewrite list_elem_of_filter, list_elem_of_fmap. split.
  - intros [Hend ([k n] & -> & Hin%elem_of_map_to_list)]. split; [by eexists | done].
  - intros [[n Hn] Hend]. split; [done|].
    exists (name, n). split; [done | by apply elem_of_map_to_list].
Qed.

Lemma files_to_upload_elem w model_dir (dir : gmap string N) f :
  f ∈ files_to_upload w model_dir dir
  ↔ (∃ name,
       f = full_path w name ∧ is_Some (dir !! name)
       ∧ (ends_with ".ort" name = true
          ∨ ends_with "_operators.config" name = true
          ∨ name = "model.config"))
    ∨ (f = model_dir +:+ "/config.json" ∧ w_config_exists w = true).
Proof.
  unfold files_to_upload. cbn [KEEP_ONNX].
  set (packages := full_path w <$> (glob_suffix ".ort" dir
                                    ++ glob_suffix "_operators.config" dir)).
  set (files := if bool_decide (is_Some (dir !! "model.config"))
                then packages ++ [full_path w "model.config"] else packages).
  assert (f ∈ packages
          ↔ ∃ name, f = full_path w name ∧ is_Some (dir !! name)
                    ∧ (ends_with ".ort" name = true
                       ∨ ends_with "_operators.config" name = true)) as Hpackages.
  { unfold packages. rewrite list_elem_of_fmap. split.
    - intros (name & -> & Hin). exists name. split; [done|].
      apply elem_of_app in Hin as [Hin|Hin]; apply glob_suffix_elem in Hin as [? ?]; auto.
    - intros (name & -> & Hsome & Hend). exists name. split; [done|].
      apply elem_of_app. destruct Hend; [left | right]; by apply glob_suffix_elem. }
  assert (f ∈ files
          ↔ ∃ name, f = full_path w name ∧ is_Some (dir !! name)
                    ∧ (ends_with ".ort" name = true
                       ∨ ends_with "_operators.config" name = true
                       ∨ name = "model.config")) as Hfiles.
  { unfold files. case_bool_decide as Hcfg.
    - rewrite elem_of_app, list_elem_of_singleton, Hpackages. split.
      + intros [(name & -> & Hsome & Hend)| ->].
        * exists name. split; [done|]. split; [done|]. destruct Hend; auto.
        * exists "model.config". auto.
      + intros (name & -> & Hsome & [Hend|[Hend| ->]]); [left|left|by right];
          exists name; auto.
    - rewrite Hpackages. split.
      + intros (name & -> & Hsome & Hend). exists name. split; [done|].
        split; [done|]. destruct Hend; auto.
      + intros (name & -> & Hsome & [Hend|[Hend| ->]]); [| |done];
          exists name; auto. }
  destruct (w_config_exists w); simpl.
  - case_bool_decide as Hnew.
    + rewrite elem_of_app, list_elem_of_singleton, Hfiles. split.
      * intros [?| ->]; [by left | by right].
      * intros [?|[-> _]]; [by left | by right].
    + rewrite Hfiles. split; [by left|].
      intros [?|[-> _]]; [done | by apply Hfiles].
  - rewrite Hfiles. split; [by left|]. by intros [?|[_ ?]].
Qed.

(** X12. The files [release] uploads are the packages ([*.ort]) and the
    operator lists ([*_operators.config]) of the export directory, its
    [model.config], and the [config.json] of the model when there is one;
    nothing else: neither the ONNX files nor [README.md]. *)
Theorem files_to_upload_spec w model_dir (dir : gmap string N) f :
  f ∈ files_to_upload w model_dir dir
  ↔ (∃ name,
       f = full_path w name ∧ is_Some (dir !! name)
       ∧ (ends_with ".ort" name = true
          ∨ ends_with "_operators.config" name = true
          ∨ name = "model.config"))
    ∨ (f = model_dir +:+ "/config.json" ∧ w_config_exists w = true).
Proof. apply files_to_upload_elem. Qed.

Lemma catch_all {A} (m : M A) (h : exn → M A) st :
  catch m (λ e, Some (h e)) st
  = match m st with
    | (Ok a, st') => (Ok a, st')
    | (Raise e, st') => h e st'
    end.
Proof. unfold catch. by destruct (m st) as [[a|e] st']. Qed.

(** X13. After an export that returns, with something to upload, [release]
    runs [gh release create] with the notes of the exported metrics (the
    text [README.md] holds) and the files to upload. A non-zero exit of [gh]
    is printed and [release] returns; any other exception of that call
    leaves [release]. The export directory stays as [export] left it. *)
Theorem release_outcome w gh model_dir tag release_candidate st m st1 :
  export w st = (Ok m, st1) →
  files_to_upload w model_dir (fs st1) ≠ [] →
  ∃ text,
    get_notes (w_model_name w) (w_labels w) m = Ok text
    ∧ fs st1 !! "README.md" = Some (N.of_nat (String.length text))
    ∧ release w gh model_dir tag release_candidate st
      = match gh (gh_command w tag release_candidate text
                    (files_to_upload w model_dir (fs st1))) with
        | None =>
            (Ok tt,
             State (fs st1)
               (out st1 ++ [ "Creating GitHub release '" +:+ tag +:+ "'...";
                             "Successfully created release " +:+ tag ]))
        | Some (CalledProcessError msg stderr) =>
            (Ok tt,
             State (fs st1)
               (out st1 ++ [ "Creating GitHub release '" +:+ tag +:+ "'...";
                             "Failed to create release: " +:+ msg ]))
        | Some e =>
            (Raise e,
             State (fs st1)
               (out st1 ++ ["Creating GitHub release '" +:+ tag +:+ "'..."]))
        end.
Proof.
  intros Hex Hfiles.
  destruct (readme_holds_notes_lemma w st m st1 Hex) as (text & Htext & Hreadme).
  exists text. split; [done|]. split; [done|].
  unfold release. erewrite bind_ok by exact Hex.
  rewrite print_then. erewrite (bind_ok read_dir) by reflexivity.
  cbn [fs out].
  destruct (files_to_upload w model_dir (fs st1)) as [|f files] eqn:Hf; [done|].
  rewrite Htext. erewrite (bind_ok (lift _)) by reflexivity.
  unfold catch, run_gh. unfold_M. cbn [fs out].
  destruct (gh _) as [e|]; [|cbn [fs out]; by rewrite <-app_assoc].
  destruct e; try done. cbn [fs out]. by rewrite <-app_assoc.
Qed.

Lemma release_outcome_witness :
  ∃ m st1 text,
    export world_all_ok stale_state = (Ok m, st1)
    ∧ get_notes (w_model_name world_all_ok) (w_labels world_all_ok) m = Ok text
    ∧ fs st1 !! "README.md" = Some (N.of_nat (String.length text))
    ∧ release world_all_ok gh_rejects "models/resnet18" "v1" true stale_state
      = (Ok tt,
         State (fs st1)
           (out st1 ++ [ "Creating GitHub release '" +:+ "v1" +:+ "'...";
                         "Failed to create release: "
                         +:+ "Command returned non-zero exit status 1." ])).
Proof.
  destruct (export world_all_ok stale_state) as [[m|e] st1] eqn:Hex;
    [|vm_compute in Hex; discriminate Hex].
  assert (files_to_upload world_all_ok "models/resnet18" (fs st1) ≠ []) as Hfiles.
  { pose proof Hex as Hval. vm_compute in Hval. injection Hval as _ <-.
    vm_compute. discriminate. }
  destruct (release_outcome world_all_ok gh_rejects "models/resnet18" "v1" true
              stale_state m st1 Hex Hfiles) as (text & Htext & Hreadme & Hrel).
  exists m, st1, text.
  split; [reflexivity|]. split; [exact Htext|]. split; [exact Hreadme | exact Hrel].
Defined.

(** X14. After an export that returns with nothing to upload (no package,
    no operator list, no [model.config], no [config.json]), [release] says
    so and returns: [gh] is not run, whatever it would answer. *)
Theorem release_without_files w gh model_dir tag release_candidate st m st1 :
  export w st = (Ok m, st1) →
  w_config_exists w = false →
  (∀ name, is_Some (fs st1 !! name) →
     ends_with ".ort" name = false
     ∧ ends_with "_operators.config" name = false
     ∧ name ≠ "model.config") →
  release w gh model_dir tag release_candidate st
  = (Ok tt,
     State (fs st1)
       (out st1 ++ [ "Creating GitHub release '" +:+ tag +:+ "'...";
                     "No files found to upload." ])).
Proof.
  intros Hex Hcfg Hnone.
  assert (files_to_upload w model_dir (fs st1) = []) as Hfiles.
  { destruct (files_to_upload w model_dir (fs st1)) as [|f files] eqn:Hf; [done|].
    exfalso.
    assert (f ∈ files_to_upload w model_dir (fs st1)) as Hin by (rewrite Hf; left).
    apply files_to_upload_elem in Hin
      as [(name & _ & Hsome & Hend)|[_ Hc]]; [|congruence].
    destruct (Hnone name Hsome) as (H1 & H2 & H3).
    destruct Hend as [?|[?|?]]; congruence. }
  unfold release. erewrite bind_ok by exact Hex.
  rewrite print_then. erewrite (bind_ok read_dir) by reflexivity.
  cbn [fs out]. rewrite Hfiles. unfold print. cbn [fs out].
  by rewrite <-app_assoc.
Qed.

Lemma release_without_files_witness :
  ∃ m st1,
    export world_no_package stale_state = (Ok m, st1)
    ∧ release world_no_package gh_missing "models/resnet18" "v1" true stale_state
      = (Ok tt,
         State (fs st1)
           (out st1 ++ [ "Creating GitHub release '" +:+ "v1" +:+ "'...";
                         "No files found to upload." ])).
Proof.
  destruct (export world_no_package stale_state) as [[m|e] st1] eqn:Hex;
    [|vm_compute in Hex; discriminate Hex].
  exists m, st1. split; [reflexivity|].
  apply (release_without_files world_no_package gh_missing "models/resnet18" "v1"
           true stale_state m st1 Hex).
  - reflexivity.
  - pose proof Hex as Hval. vm_compute in Hval. injection Hval as _ <-.
    clear Hex. intros name [n Hn].
    apply elem_of_map_to_list in Hn.
    match type of Hn with _ ∈ ?l =>
      let l' := eval vm_compute in l in change l with l' in Hn end.
    repeat (apply elem_of_cons in Hn as [[= -> _]|Hn];
            [split_and!; [reflexivity|reflexivity|discriminate]|]).
    by apply elem_of_nil in Hn.
Defined.

(** ** The command line *)

(** X15. [main] never raises an exception of the program ([except
    Exception] takes them all): when the exporter cannot be built or the
    export raises, the exception is printed as [Export failed: ...] and
    [main] returns. With [model.pth] missing the export is not started and
    the export directory is not touched. *)
Theorem main_never_raises w s model st :
  (∃ st', main w s model st = (Ok tt, st'))
  ∧ (build_fails s = None → model_pth_exists s = false →
     main w s model st
     = (Ok tt,
        State (fs st)
          (out st ++ [ "Exporting model " +:+ model +:+ "...";
                       "Target directory: frontend/public/models/" +:+ model;
                       "Export failed: Model file not found at "
                       +:+ model_pth_path s ])))
  ∧ (∀ e st1,
       build_fails s = None → model_pth_exists s = true → load_fails s = None →
       export w (State (fs st)
                   (out st ++ [ "Exporting model " +:+ model +:+ "...";
                                "Target directory: frontend/public/models/" +:+ model;
                                "Loading weights from model.pth" ]))
       = (Raise e, st1) →
       main w s model st
       = (Ok tt, State (fs st1) (out st1 ++ ["Export failed: " +:+ str_exn e]))).
Proof.
  split_and!.
  - unfold main. rewrite print_then, catch_all.
    destruct ((print _;; exporter_init s;; export w;; mret tt) _)
      as [[[]|e] st1]; by eexists.
  - intros Hbuild Hpth. unfold main. rewrite print_then, catch_all, print_then.
    unfold exporter_init, external. rewrite Hbuild, Hpth. unfold_M. cbn [fs out].
    by rewrite <-!app_assoc.
  - intros e st1 Hbuild Hpth Hload Hex.
    unfold main. rewrite print_then, catch_all, print_then.
    unfold exporter_init. rewrite Hpth.
    assert (∀ B (k : M B) st0, (external None;; k) st0 = k st0) as Hext
      by (intros; by unfold external; unfold_M).
    rewrite Hbuild, bind_assoc, Hext, bind_assoc, print_then.
    rewrite Hload, Hext. cbn [fs out]. rewrite <-!app_assoc. cbn [app].
    erewrite bind_raise by exact Hex. done.
Qed.

Lemma main_never_raises_witness :
  main world_all_ok startup_no_weights "resnet18" stale_state
  = (Ok tt,
     State (fs stale_state)
       (out stale_state
        ++ [ "Exporting model " +:+ "resnet18" +:+ "...";
             "Target directory: frontend/public/models/" +:+ "resnet18";
             "Export failed: Model file not found at "
             +:+ model_pth_path startup_no_weights ]))
  ∧ ∃ st1,
      main world_quantize_fails startup_ok "resnet18" stale_state
      = (Ok tt,
         State (fs st1)
           (out st1 ++ ["Export failed: " +:+ str_exn (RuntimeError "quantization failed")])).
Proof.
  split.
  - apply (main_never_raises world_all_ok startup_no_weights "resnet18" stale_state);
      reflexivity.
  - eexists.
    apply (main_never_raises world_quantize_fails startup_ok "resnet18" stale_state);
      [reflexivity..|].
    vm_compute. reflexivity.
Defined.
